(** * Edge client core: controller client and posture engine

    A shallow embedding of the controller client (the HTTP response
    callbacks, the pagination walk, the session-token gate, the error-code
    table) and of the posture engine of [library/posture.c] (the tick, the
    probe replies, the bulk and per-item submission, the default MAC
    probe), and of the string helpers of [library/utils.c] ([hexify],
    [str_split], [basename]), with the properties the specification states
    about them and further properties read off the code.

    Conventions of the embedding.
    - A [char *] is an [option string] where the code tests it against
      [NULL], a [string] otherwise.
    - C [int] values are [Z]; [unsigned int] fields are [Z] reduced modulo
      [2^32] where the code stores into them.
    - Callbacks into the host application are not run: a call is recorded
      as an effect, in program order.
    - Of storage management the sizes are modelled where the code writes
      through a pointer it has not sized for the write: the body buffer
      and the array of a paged walk of a response context, the fixed
      arrays the session request and the enrollment path are printed
      into. An allocation succeeds unless its size, as a [size_t], is
      that of a negative [long]. Elsewhere a buffer is its contents.
    - [None] stands for undefined behaviour of the C code. *)

From Stdlib Require Import ZArith Lia Bool List Ascii String.
From stdpp Require Import base strings gmap list pretty.
Import ListNotations.

Local Open Scope string_scope.
Local Open Scope Z_scope.

(** ** Error taxonomy *)

Module Errors.

(** The error kinds of [errors.h] that the two modules use. *)
Inductive ziti_err : Type :=
| ZITI_OK
| ZITI_NOT_FOUND
| ZITI_CONTROLLER_UNAVAILABLE
| ZITI_GATEWAY_UNAVAILABLE
| ZITI_AUTHENTICATION_FAILED
| ZITI_INVALID_POSTURE
| ZITI_MFA_INVALID_TOKEN
| ZITI_MFA_EXISTS
| ZITI_MFA_NOT_ENROLLED
| ZITI_JWT_INVALID
| ZITI_NOT_AUTHORIZED
| ZITI_INVALID_STATE
| ZITI_INVALID_CONFIG
| ZITI_DISABLED
| ZITI_WTF.

#[global] Instance ziti_err_eq_dec : EqDecision ziti_err.
Proof. solve_decision. Defined.

(** [struct ziti_error]: kind, server code, HTTP status, message. *)
Record ziti_error : Type := mk_error {
  err : ziti_err;
  code : option string;
  http_code : Z;
  message : option string
}.

#[global] Instance ziti_error_eq_dec : EqDecision ziti_error.
Proof. solve_decision. Defined.

(** [strcmp(a, b) == 0] *)
Definition streq (a b : string) : bool := String.eqb a b.

(** [code_to_error]: the [CODE_MAP] table expanded through [CODE_MATCH],
    one test after the other in the order of the table. *)
Definition code_to_error (code : option string) : ziti_err :=
  match code with
  | None => ZITI_OK
  | Some c =>
    if streq c "NOT_FOUND" then ZITI_NOT_FOUND
    else if streq c "CONTROLLER_UNAVAILABLE" then ZITI_CONTROLLER_UNAVAILABLE
    else if streq c "NO_ROUTABLE_INGRESS_NODES" then ZITI_GATEWAY_UNAVAILABLE
    else if streq c "NO_EDGE_ROUTERS_AVAILABLE" then ZITI_GATEWAY_UNAVAILABLE
    else if streq c "INVALID_AUTHENTICATION" then ZITI_AUTHENTICATION_FAILED
    else if streq c "REQUIRES_CERT_AUTH" then ZITI_AUTHENTICATION_FAILED
    else if streq c "UNAUTHORIZED" then ZITI_AUTHENTICATION_FAILED
    else if streq c "INVALID_POSTURE" then ZITI_INVALID_POSTURE
    else if streq c "INVALID_AUTH" then ZITI_AUTHENTICATION_FAILED
    else if streq c "MFA_INVALID_TOKEN" then ZITI_MFA_INVALID_TOKEN
    else if streq c "MFA_EXISTS" then ZITI_MFA_EXISTS
    else if streq c "MFA_NOT_ENROLLED" then ZITI_MFA_NOT_ENROLLED
    else if streq c "INVALID_ENROLLMENT_TOKEN" then ZITI_JWT_INVALID
    else if streq c "COULD_NOT_VALIDATE" then ZITI_NOT_AUTHORIZED
    else ZITI_WTF
  end.

(** The fourteen keys the table declares. *)
Definition declared_codes : list string :=
  [ "NOT_FOUND"; "CONTROLLER_UNAVAILABLE"; "NO_ROUTABLE_INGRESS_NODES";
    "NO_EDGE_ROUTERS_AVAILABLE"; "INVALID_AUTHENTICATION";
    "REQUIRES_CERT_AUTH"; "UNAUTHORIZED"; "INVALID_POSTURE"; "INVALID_AUTH";
    "MFA_INVALID_TOKEN"; "MFA_EXISTS"; "MFA_NOT_ENROLLED";
    "INVALID_ENROLLMENT_TOKEN"; "COULD_NOT_VALIDATE" ].

Definition is_declared (c : string) : bool :=
  existsb (streq c) declared_codes.

End Errors.

(** ** Controller client *)

Module Ctrl.
Import Errors.

Definition DEFAULT_PAGE_SIZE : Z := 25.
Definition ERROR_CODE_UNAUTHORIZED : string := "UNAUTHORIZED".
Definition ERROR_MSG_NO_API_SESSION_TOKEN : string :=
  "no api session token set for ziti_controller".

(** libuv's status codes (Linux values): end of stream and cancellation. *)
Definition UV_EOF : Z := -4095.
Definition UV_ECANCELED : Z := -125.

(** Conversion to [unsigned int], and the value [printf]'s [%d] shows for
    an [unsigned int] argument. *)
Definition to_uint (z : Z) : Z := z mod 2 ^ 32.
Definition fmt_d (u : Z) : string :=
  pretty (if u <? 2 ^ 31 then u else u - 2 ^ 32).

(** [snprintf(buf, n, ...)] keeps at most [n - 1] characters. *)
Definition snprintf (n : nat) (s : string) : string :=
  String.substring 0 (n - 1) s.

Definition dquote : string := String "034"%char EmptyString.

Definition tolower (a : ascii) : ascii :=
  let n := nat_of_ascii a in
  if ((65 <=? n)%nat && (n <=? 90)%nat)%bool then ascii_of_nat (n + 32) else a.

(** [strcasecmp(a, b) == 0] *)
Fixpoint strcaseeq (a b : string) : bool :=
  match a, b with
  | EmptyString, EmptyString => true
  | String x a', String y b' =>
    if Ascii.eqb (tolower x) (tolower y) then strcaseeq a' b' else false
  | _, _ => false
  end.

(** [strchr(s, c) != NULL] *)
Fixpoint strchr (s : string) (c : ascii) : bool :=
  match s with
  | EmptyString => false
  | String x s' => if Ascii.eqb x c then true else strchr s' c
  end.

(** [atol]: white space, an optional sign, then decimal digits up to the
    first other character; [None] where the value does not fit a [long]
    (64 bits), which the C library leaves undefined. *)
Definition isspace (a : ascii) : bool :=
  let n := nat_of_ascii a in
  ((n =? 32)%nat || ((9 <=? n)%nat && (n <=? 13)%nat))%bool.

Definition digit_val (a : ascii) : option Z :=
  let n := Z.of_nat (nat_of_ascii a) in
  if ((48 <=? n) && (n <=? 57))%bool then Some (n - 48) else None.

Fixpoint skip_spaces (s : string) : string :=
  match s with
  | String a s' => if isspace a then skip_spaces s' else s
  | EmptyString => EmptyString
  end.

Fixpoint digits (acc : Z) (s : string) : Z :=
  match s with
  | String a s' =>
    match digit_val a with
    | Some d => digits (10 * acc + d) s'
    | None => acc
    end
  | EmptyString => acc
  end.

Definition LONG_MAX : Z := 2 ^ 63 - 1.
Definition LONG_MIN : Z := - 2 ^ 63.
Definition INT_MAX : Z := 2 ^ 31 - 1.
Definition INT_MIN : Z := - 2 ^ 31.

Definition atol (s : string) : option Z :=
  let v :=
    match skip_spaces s with
    | String "-"%char s' => - digits 0 s'
    | String "+"%char s' => digits 0 s'
    | s' => digits 0 s'
    end in
  if ((LONG_MIN <=? v) && (v <=? LONG_MAX))%bool then Some v else None.

(** *** The response envelope *)

Record resp_pagination : Type := mk_pagination {
  pg_limit : Z;
  pg_offset : Z;
  pg_total : Z
}.

(** [api_resp]: [meta] holds the pagination only; [data] is the raw JSON
    of the payload; [error] is a pointer. *)
Record api_resp : Type := mk_api_resp {
  cr_meta : resp_pagination;
  cr_data : option string;
  cr_error : option ziti_error
}.

Definition api_resp_zero : api_resp :=
  mk_api_resp (mk_pagination 0 0 0) None None.

(** *** Decoded payloads *)

Record ziti_version : Type := mk_version {
  version : string;
  revision : string;
  build_date : string;
  api_versions : option (list (string * string))   (* edge: name to path *)
}.

Record ziti_api_session : Type := mk_api_session {
  session_id : string;
  token : string
}.

(** What a callback receives as its first argument. A model other than
    the two the controller itself inspects is kept as its JSON text. *)
#[warnings="-register-all"]
Inductive resp_obj : Type :=
| ObjVersion (v : ziti_version)
| ObjApiSession (s : ziti_api_session)
| ObjModel (json : string)
| ObjArray (elems : list string)
| ObjText (bytes : string)
| ObjEnrollResp (cert : option resp_obj).

Inductive body_parse_fn : Type :=
| parse_ziti_version_ptr
| parse_ziti_api_session_ptr
| parse_ziti_identity_data_ptr
| parse_ziti_service_update_ptr
| parse_ziti_service_array
| parse_ziti_edge_router_array
| parse_ziti_net_session_ptr
| parse_ziti_net_session_array
| parse_ziti_enrollment_resp_ptr
| parse_ziti_pr_response_ptr
| parse_ziti_mfa_enrollment_ptr
| parse_ziti_mfa_recovery_codes_ptr
| parse_ziti_extend_cert_authenticator_resp_ptr
| parse_ziti_create_api_cert_resp_ptr.

Definition is_array_parser (p : body_parse_fn) : bool :=
  match p with
  | parse_ziti_service_array | parse_ziti_edge_router_array
  | parse_ziti_net_session_array => true
  | _ => false
  end.

(** Request bodies produced by the generated [*_to_json] functions. *)
Inductive json_req : Type :=
| AuthReq (cfg_types : option (list string))
| IdentityReq (name : string)
| ExtendCertReq (csr : string)
| VerifyExtendCertReq (client_cert : string)
| CreateApiCertReq (csr : string).

(** What the module takes from outside the sources at hand: the error
    texts, the generated JSON parsers and printers, the enum names. A
    parser answers [None] where the C function returns a negative value. *)
Class Host : Type := mk_host {
  ziti_errorstr : ziti_err -> string;
  uv_strerror : Z -> string;
  parse_api_resp : string -> option api_resp;
  parse_version : string -> option ziti_version;
  parse_api_session : string -> option ziti_api_session;
  parse_model : body_parse_fn -> string -> option string;
  parse_array : body_parse_fn -> string -> option (list string);
  to_json : json_req -> string;
  session_type_name : Z -> string;
  enrollment_method_name : Z -> string
}.

(** *** Controller, response context, effects *)

Definition callback : Type := nat.     (* a function of the host application *)
Definition user_ctx : Type := nat.     (* its [void *ctx] *)

(** The part of the HTTP client the controller sets. *)
Record tlsuv_http : Type := mk_http {
  http_url : string;
  http_path_prefix : option string;
  http_zt_session : option string
}.

Record ziti_controller : Type := mk_controller {
  client : tlsuv_http;
  url : string;
  ctrl_version : option ziti_version;
  api_session_token : option string;
  instance_id : option string;
  page_size : Z;
  redirect_cb : option callback;
  redirect_ctx : user_ctx
}.

Inductive ctrl_cb_t : Type :=
| Ctrl_default_cb
| Ctrl_version_cb
| Ctrl_login_cb
| Ctrl_logout_cb
| Ctrl_service_cb
| Enroll_pem_cb.

(** [struct ctrl_resp]. The buffer [body] points to is kept as its size
    [body_cap] ([None] for a null pointer) and the bytes [body] stored in
    it so far, [received] being the count the code keeps of them; the
    array [resp_array] points to likewise as its size in elements
    [resp_array_cap] and the elements written. The start timestamps and
    the back pointer to the controller are left out (the controller is
    passed along). *)
Record ctrl_resp : Type := mk_resp {
  status : Z;
  body : string;
  resp_chunked : bool;
  resp_text_plain : bool;
  paging : bool;
  base_path : string;
  limit : Z;
  total : Z;
  recd : Z;
  resp_array : list string;
  body_parse_func : option body_parse_fn;
  resp_cb : option callback;
  ctx : user_ctx;
  new_address : option string;
  ctrl_cb : ctrl_cb_t;
  received : Z;
  body_cap : option Z;
  resp_array_cap : option Z
}.

(** The last argument a callback is called with: the context the caller
    gave, or the response context itself. *)
Inductive cb_arg : Type :=
| ArgCtx (x : user_ctx)
| ArgResp (r : ctrl_resp).

(** Which function a request was started with as its response callback. *)
Inductive http_cb_t : Type :=
| On_ctrl_resp_cb
| On_ctrl_enroll_http_cb.

Inductive effect : Type :=
| ECall (cb : callback) (obj : option resp_obj) (e : option ziti_error) (arg : cb_arg)
| ERequest (method path : string) (cb : http_cb_t)
           (headers : list (string * string)) (req_body : option string)
| ERedirect (cb : callback) (new_url : string) (x : user_ctx).

Definition is_call (e : effect) : bool :=
  match e with ECall _ _ _ _ => true | _ => false end.

Definition calls (l : list effect) : list effect := List.filter is_call l.

(** The response callback of the request a handler started last, if any. *)
Fixpoint started (l : list effect) : option http_cb_t :=
  match l with
  | [] => None
  | e :: l' =>
    match started l' with
    | Some cb => Some cb
    | None => match e with ERequest _ _ cb _ _ => Some cb | _ => None end
    end
  end.

(** Field updates. *)
Definition set_status (r : ctrl_resp) (v : Z) : ctrl_resp :=
  mk_resp v (body r) (resp_chunked r) (resp_text_plain r) (paging r)
    (base_path r) (limit r) (total r) (recd r) (resp_array r)
    (body_parse_func r) (resp_cb r) (ctx r) (new_address r) (ctrl_cb r)
    (received r) (body_cap r) (resp_array_cap r).
Definition set_body (r : ctrl_resp) (v : string) : ctrl_resp :=
  mk_resp (status r) v (resp_chunked r) (resp_text_plain r) (paging r)
    (base_path r) (limit r) (total r) (recd r) (resp_array r)
    (body_parse_func r) (resp_cb r) (ctx r) (new_address r) (ctrl_cb r)
    (received r) (body_cap r) (resp_array_cap r).
Definition set_resp_chunked (r : ctrl_resp) (v : bool) : ctrl_resp :=
  mk_resp (status r) (body r) v (resp_text_plain r) (paging r)
    (base_path r) (limit r) (total r) (recd r) (resp_array r)
    (body_parse_func r) (resp_cb r) (ctx r) (new_address r) (ctrl_cb r)
    (received r) (body_cap r) (resp_array_cap r).
Definition set_resp_text_plain (r : ctrl_resp) (v : bool) : ctrl_resp :=
  mk_resp (status r) (body r) (resp_chunked r) v (paging r)
    (base_path r) (limit r) (total r) (recd r) (resp_array r)
    (body_parse_func r) (resp_cb r) (ctx r) (new_address r) (ctrl_cb r)
    (received r) (body_cap r) (resp_array_cap r).
Definition set_paging (r : ctrl_resp) (path : string) : ctrl_resp :=
  mk_resp (status r) (body r) (resp_chunked r) (resp_text_plain r) true
    path (limit r) (total r) (recd r) (resp_array r)
    (body_parse_func r) (resp_cb r) (ctx r) (new_address r) (ctrl_cb r)
    (received r) (body_cap r) (resp_array_cap r).
Definition set_limit (r : ctrl_resp) (v : Z) : ctrl_resp :=
  mk_resp (status r) (body r) (resp_chunked r) (resp_text_plain r) (paging r)
    (base_path r) v (total r) (recd r) (resp_array r)
    (body_parse_func r) (resp_cb r) (ctx r) (new_address r) (ctrl_cb r)
    (received r) (body_cap r) (resp_array_cap r).
Definition set_total (r : ctrl_resp) (v : Z) : ctrl_resp :=
  mk_resp (status r) (body r) (resp_chunked r) (resp_text_plain r) (paging r)
    (base_path r) (limit r) v (recd r) (resp_array r)
    (body_parse_func r) (resp_cb r) (ctx r) (new_address r) (ctrl_cb r)
    (received r) (body_cap r) (resp_array_cap r).
Definition set_recd_array (r : ctrl_resp) (n : Z) (a : list string) : ctrl_resp :=
  mk_resp (status r) (body r) (resp_chunked r) (resp_text_plain r) (paging r)
    (base_path r) (limit r) (total r) n a
    (body_parse_func r) (resp_cb r) (ctx r) (new_address r) (ctrl_cb r)
    (received r) (body_cap r) (resp_array_cap r).
Definition set_new_address (r : ctrl_resp) (v : option string) : ctrl_resp :=
  mk_resp (status r) (body r) (resp_chunked r) (resp_text_plain r) (paging r)
    (base_path r) (limit r) (total r) (recd r) (resp_array r)
    (body_parse_func r) (resp_cb r) (ctx r) v (ctrl_cb r)
    (received r) (body_cap r) (resp_array_cap r).
Definition set_ctrl_cb (r : ctrl_resp) (v : ctrl_cb_t) : ctrl_resp :=
  mk_resp (status r) (body r) (resp_chunked r) (resp_text_plain r) (paging r)
    (base_path r) (limit r) (total r) (recd r) (resp_array r)
    (body_parse_func r) (resp_cb r) (ctx r) (new_address r) v
    (received r) (body_cap r) (resp_array_cap r).
Definition set_received (r : ctrl_resp) (v : Z) : ctrl_resp :=
  mk_resp (status r) (body r) (resp_chunked r) (resp_text_plain r) (paging r)
    (base_path r) (limit r) (total r) (recd r) (resp_array r)
    (body_parse_func r) (resp_cb r) (ctx r) (new_address r) (ctrl_cb r)
    v (body_cap r) (resp_array_cap r).
Definition set_body_cap (r : ctrl_resp) (v : option Z) : ctrl_resp :=
  mk_resp (status r) (body r) (resp_chunked r) (resp_text_plain r) (paging r)
    (base_path r) (limit r) (total r) (recd r) (resp_array r)
    (body_parse_func r) (resp_cb r) (ctx r) (new_address r) (ctrl_cb r)
    (received r) v (resp_array_cap r).
Definition set_array_cap (r : ctrl_resp) (v : option Z) : ctrl_resp :=
  mk_resp (status r) (body r) (resp_chunked r) (resp_text_plain r) (paging r)
    (base_path r) (limit r) (total r) (recd r) (resp_array r)
    (body_parse_func r) (resp_cb r) (ctx r) (new_address r) (ctrl_cb r)
    (received r) (body_cap r) v.

(** [FREE(resp->body)] *)
Definition free_body (r : ctrl_resp) : ctrl_resp :=
  set_body_cap (set_body r "") None.

(** The data branch of [ctrl_body_cb] once the buffer has room: [len]
    bytes of [b] copied behind the [received] ones. *)
Definition store (r : ctrl_resp) (b : string) (len : Z) : ctrl_resp :=
  set_received (set_body r (body r ++ String.substring 0 (Z.to_nat len) b)%string)
    (received r + len).

Definition set_url (c : ziti_controller) (u : string) : ziti_controller :=
  mk_controller (mk_http u (http_path_prefix (client c)) (http_zt_session (client c)))
    u (ctrl_version c) (api_session_token c) (instance_id c) (page_size c)
    (redirect_cb c) (redirect_ctx c).
Definition set_token (c : ziti_controller) (t : option string) : ziti_controller :=
  mk_controller (mk_http (http_url (client c)) (http_path_prefix (client c)) t)
    (url c) (ctrl_version c) t (instance_id c) (page_size c)
    (redirect_cb c) (redirect_ctx c).
Definition set_instance_id (c : ziti_controller) (i : option string) : ziti_controller :=
  mk_controller (client c) (url c) (ctrl_version c) (api_session_token c) i
    (page_size c) (redirect_cb c) (redirect_ctx c).
Definition set_version (c : ziti_controller) (v : ziti_version)
           (prefix : option string) : ziti_controller :=
  mk_controller
    (mk_http (http_url (client c))
       (match prefix with Some p => Some p | None => http_path_prefix (client c) end)
       (http_zt_session (client c)))
    (url c) (Some (mk_version (version v) (revision v) (build_date v) None))
    (api_session_token c) (instance_id c) (page_size c)
    (redirect_cb c) (redirect_ctx c).

(** [ziti_ctrl_set_page_size], [ziti_ctrl_set_redirect_cb] *)
Definition ziti_ctrl_set_page_size (c : ziti_controller) (size : Z) : ziti_controller :=
  mk_controller (client c) (url c) (ctrl_version c) (api_session_token c)
    (instance_id c) (to_uint size) (redirect_cb c) (redirect_ctx c).
Definition ziti_ctrl_set_redirect_cb (c : ziti_controller) (cb : option callback)
           (x : user_ctx) : ziti_controller :=
  mk_controller (client c) (url c) (ctrl_version c) (api_session_token c)
    (instance_id c) (page_size c) cb x.

(** [ziti_ctrl_init], when the HTTP client initialises. *)
Definition ziti_ctrl_init (u : string) : ziti_controller :=
  mk_controller (mk_http u None None) u None None None DEFAULT_PAGE_SIZE None 0%nat.

(** [prepare_resp]: a zeroed context with parser, callback and context. *)
Definition prepare_resp (cb : option callback) (parser : option body_parse_fn)
           (x : user_ctx) : ctrl_resp :=
  mk_resp 0 "" false false false "" 0 0 0 [] parser cb x None Ctrl_default_cb
          0 None None.

(** *** The HTTP response as the transport presents it *)

Record tlsuv_http_resp : Type := mk_http_resp {
  resp_code : Z;                         (* [r->code]: negative on failure *)
  resp_status : string;                  (* [r->status]: the status text *)
  resp_headers : list (string * string)
}.

(** [find_header]: first header whose name matches, case-insensitively. *)
Fixpoint find_header (hs : list (string * string)) (name : string) : option string :=
  match hs with
  | [] => None
  | (n, v) :: hs' => if strcaseeq n name then Some v else find_header hs' name
  end.

(** What a handler leaves behind: the controller, the response context
    unless it was freed, and the effects in program order. [None] as a
    whole stands for undefined behaviour of the C code (a call through a
    null pointer, an object read at the wrong type, a write to a null
    pointer or behind a buffer, an [int] sum out of range). *)
Definition handled : Type :=
  option (ziti_controller * option ctrl_resp * list effect).

Section Handlers.
Context {H : Host}.

(** The parser a context selects, applied to the envelope's [data]. *)
Definition run_parser (p : body_parse_fn) (d : string) : option resp_obj :=
  match p with
  | parse_ziti_version_ptr => ObjVersion <$> parse_version d
  | parse_ziti_api_session_ptr => ObjApiSession <$> parse_api_session d
  | _ => if is_array_parser p then ObjArray <$> parse_array p d
         else ObjModel <$> parse_model p d
  end.

(** [ctrl_default_cb]: the caller's callback first, then the rebind. *)
Definition ctrl_default_cb (s : option resp_obj) (e : option ziti_error)
           (c : ziti_controller) (resp : ctrl_resp) : handled :=
  let called :=
    match resp_cb resp with
    | Some cb => [ECall cb s e (ArgCtx (ctx resp))]
    | None => []
    end in
  match new_address resp with
  | Some a =>
    if negb (streq a (url c)) then
      Some (set_url c a, None,
            (called ++ match redirect_cb c with
                       | Some rcb => [ERedirect rcb a (redirect_ctx c)]
                       | None => []
                       end)%list)
    else Some (c, None, called)
  | None => Some (c, None, called)
  end.

(** [model_map_get(&v->api_versions->edge, "v1")] *)
Fixpoint edge_path (edge : list (string * string)) (name : string) : option string :=
  match edge with
  | [] => None
  | (n, p) :: edge' => if streq n name then Some p else edge_path edge' name
  end.

Definition ctrl_version_cb (v : option resp_obj) (e : option ziti_error)
           (c : ziti_controller) (resp : ctrl_resp) : handled :=
  match v with
  | None => ctrl_default_cb v e c resp
  | Some (ObjVersion ver) =>
    let prefix :=
      match api_versions ver with
      | Some edge => edge_path edge "v1"
      | None => None
      end in
    ctrl_default_cb v e (set_version c ver prefix) resp
  | Some _ => None
  end.

(** [ziti_ctrl_clear_api_session] *)
Definition ziti_ctrl_clear_api_session (c : ziti_controller) : ziti_controller :=
  set_token c None.

Definition ctrl_login_cb (s : option resp_obj) (e : option ziti_error)
           (c : ziti_controller) (resp : ctrl_resp) : handled :=
  let c1 := match e with Some _ => ziti_ctrl_clear_api_session c | None => c end in
  match s with
  | None => ctrl_default_cb s e c1 resp
  | Some (ObjApiSession ses) => ctrl_default_cb s e (set_token c1 (Some (token ses))) resp
  | Some _ => None
  end.

Definition ctrl_logout_cb (s : option resp_obj) (e : option ziti_error)
           (c : ziti_controller) (resp : ctrl_resp) : handled :=
  ctrl_default_cb s e (set_token c None) resp.

Definition ctrl_service_cb (services : option resp_obj) (e : option ziti_error)
           (c : ziti_controller) (resp : ctrl_resp) : handled :=
  match services with
  | None => ctrl_default_cb None e c resp
  | Some (ObjArray l) => ctrl_default_cb (ObjModel <$> List.head l) e c resp
  | Some _ => None
  end.

(** [enroll_pem_cb]: calls the caller's callback and returns; the
    context is neither handed to [ctrl_default_cb] nor freed. *)
Definition enroll_pem_cb (body : option resp_obj) (e : option ziti_error)
           (c : ziti_controller) (resp : ctrl_resp) : handled :=
  Some (c, Some resp,
        match resp_cb resp with
        | Some cb => [ECall cb (Some (ObjEnrollResp body)) e (ArgCtx (ctx resp))]
        | None => []
        end).

(** [resp->ctrl_cb(obj, err, resp)] *)
Definition call_ctrl_cb (k : ctrl_cb_t) : option resp_obj -> option ziti_error ->
                                          ziti_controller -> ctrl_resp -> handled :=
  match k with
  | Ctrl_default_cb => ctrl_default_cb
  | Ctrl_version_cb => ctrl_version_cb
  | Ctrl_login_cb => ctrl_login_cb
  | Ctrl_logout_cb => ctrl_logout_cb
  | Ctrl_service_cb => ctrl_service_cb
  | Enroll_pem_cb => enroll_pem_cb
  end.

(** [ctrl_paging_req]: the request for the next page. *)
Definition paging_path (base : string) (lim off : Z) : string :=
  snprintf 128
    (base ++ (if strchr base "?"%char then "&" else "?")
          ++ "limit=" ++ fmt_d lim ++ "&offset=" ++ fmt_d off)%string.

Definition ctrl_paging_req (c : ziti_controller) (resp : ctrl_resp)
  : ctrl_resp * list effect :=
  let resp1 := if limit resp =? 0 then set_limit resp (page_size c) else resp in
  (resp1,
   [ERequest "GET" (paging_path (base_path resp1) (limit resp1) (recd resp1))
             On_ctrl_resp_cb [] None]).

(** The error [ctrl_resp_cb] and [ctrl_body_cb] make up for a transport
    failure; they differ in the code string of a cancellation. *)
Definition resp_failure (rc : Z) : ziti_error :=
  if rc =? UV_ECANCELED
  then mk_error ZITI_DISABLED (Some (ziti_errorstr ZITI_DISABLED)) 0 (Some (uv_strerror rc))
  else mk_error ZITI_CONTROLLER_UNAVAILABLE (Some "CONTROLLER_UNAVAILABLE") 0
                (Some (uv_strerror rc)).

Definition body_failure (len : Z) : ziti_error :=
  if len =? UV_ECANCELED
  then mk_error ZITI_DISABLED (Some "CONTEXT_DISABLED") 0 (Some (uv_strerror len))
  else mk_error ZITI_CONTROLLER_UNAVAILABLE (Some "CONTROLLER_UNAVAILABLE") 0
                (Some (uv_strerror len)).

(** The buffer [ctrl_resp_cb] sets up for the body: [atol(hv) + 1] bytes
    for a [Content-Length] (undefined where [atol] is, or where the sum
    leaves [long]; a null pointer where the size is negative as a [long],
    hence too large as a [size_t]), an empty one that grows for the
    transfer encoding [chunked], and none otherwise. *)
Definition alloc_body (hs : list (string * string)) (resp : ctrl_resp)
  : option ctrl_resp :=
  match find_header hs "Content-Length" with
  | Some hv =>
    match atol hv with
    | Some n =>
      if n + 1 <=? LONG_MAX
      then Some (set_body_cap resp (if 0 <=? n + 1 then Some (n + 1) else None))
      else None
    | None => None
    end
  | None =>
    match find_header hs "transfer-encoding" with
    | Some hv =>
      if streq hv "chunked"
      then Some (set_body_cap (set_resp_chunked resp true) (Some 0))
      else Some resp
    | None => Some resp
    end
  end.

(** [ctrl_resp_cb]: the response callback of every request. *)
Definition ctrl_resp_cb (r : tlsuv_http_resp) (c : ziti_controller)
           (resp : ctrl_resp) : handled :=
  let resp := set_status resp (resp_code r) in
  if resp_code r <? 0 then
    ctrl_default_cb None (Some (resp_failure (resp_code r))) c resp
  else
    let hs := resp_headers r in
    match alloc_body hs resp with
    | None => None
    | Some resp =>
      let resp :=
        match find_header hs "ziti-ctrl-address" with
        | Some a => set_new_address resp (Some a)
        | None => resp
        end in
      let c :=
        match find_header hs "ziti-instance-id" with
        | Some i =>
          match instance_id c with
          | None => set_instance_id c (Some i)
          | Some old => if negb (streq i old) then set_instance_id c (Some i) else c
          end
        | None => c
        end in
      Some (c, Some resp, [])
    end.

(** [cr.error->err = code_to_error(...)], [http_code = req->resp.code] *)
Definition remap_error (r : tlsuv_http_resp) (e : option ziti_error)
  : option ziti_error :=
  match e with
  | Some e => Some (mk_error (code_to_error (code e)) (code e) (resp_code r) (message e))
  | None => None
  end.

(** The array a page is added to: grown to [total + 1] elements when the
    page reports more than the context has seen, allocated with one
    element when there is none yet. A size of zero elements is left
    undefined. *)
Definition grow_array (pg_total : Z) (resp : ctrl_resp) : option ctrl_resp :=
  let resp :=
    if total resp <? to_uint pg_total
    then Some (set_array_cap (set_total resp (to_uint pg_total))
                             (Some (to_uint (to_uint pg_total + 1))))
    else Some resp in
  match resp with
  | Some resp =>
    match resp_array_cap resp with
    | Some cap => if cap =? 0 then None else Some resp
    | None => Some (set_array_cap resp (Some 1))
    end
  | None => None
  end.

(** The array has room for [n] more elements and the closing null. *)
Definition fits (resp : ctrl_resp) (n : nat) : bool :=
  match resp_array_cap resp with
  | Some cap => recd resp + Z.of_nat n + 1 <=? cap
  | None => false
  end.

(** [ctrl_body_cb]: data, end of body, or a read failure. [r] is
    [req->resp]; [b] holds the [len] bytes of a data event. Data is
    copied behind what was received: into a buffer grown to fit when the
    response is chunked, else into the buffer as it is, which is
    undefined when there is none or it is too small. *)
Definition ctrl_body_cb (r : tlsuv_http_resp) (b : string) (len : Z)
           (c : ziti_controller) (resp : ctrl_resp) : handled :=
  if 0 <? len then
    if resp_chunked resp then
      Some (c, Some (store (set_body_cap resp (Some (received resp + len))) b len), [])
    else
      match body_cap resp with
      | Some n =>
        if received resp + len <=? n then Some (c, Some (store resp b len), [])
        else None
      | None => None
      end
  else if len =? UV_EOF then
    let finish (resp : ctrl_resp) (obj : option resp_obj) (e : option ziti_error) : handled :=
      call_ctrl_cb (ctrl_cb resp) obj (remap_error r e) c (free_body resp) in
    if (resp_text_plain resp && (status resp <? 300))%bool then
      finish resp (Some (ObjText (body resp))) None
    else
      match parse_api_resp (body resp) with
      | None =>
        finish resp None
          (Some (mk_error ZITI_WTF (Some "INVALID_CONTROLLER_RESPONSE") 0
                          (Some (resp_status r))))
      | Some cr =>
        match body_parse_func resp, cr_data cr with
        | Some p, Some d =>
          match run_parser p d with
          | None =>
            finish resp None
              (Some (mk_error ZITI_INVALID_STATE (Some "INVALID_CONTROLLER_RESPONSE") 0
                              (Some "unexpected response JSON")))
          | Some obj =>
            if paging resp then
              match obj with
              | ObjArray chunk =>
                let m := cr_meta cr in
                (* [offset + limit] is a sum of two [int]s *)
                if negb ((INT_MIN <=? pg_offset m + pg_limit m)
                         && (pg_offset m + pg_limit m <=? INT_MAX))%bool then None
                else
                let last_page := pg_total m <=? pg_offset m + pg_limit m in
                match grow_array (pg_total m) resp with
                | None => None
                | Some resp =>
                  if negb (fits resp (length chunk)) then None
                  else
                  let resp :=
                    set_recd_array resp (to_uint (recd resp + Z.of_nat (length chunk)))
                                   (resp_array resp ++ chunk)%list in
                  let resp := free_body (set_received resp 0) in
                  (* [free_api_resp(&cr)] clears the envelope, its error included *)
                  if negb last_page then
                    let '(resp, effs) := ctrl_paging_req c resp in
                    Some (c, Some resp, effs)
                  else
                    finish resp (Some (ObjArray (resp_array resp))) None
                end
              | _ => None
              end
            else finish resp (Some obj) (cr_error cr)
          end
        | _, _ => finish resp None (cr_error cr)
        end
      end
  else
    match resp_cb resp with
    | Some cb =>
      let resp := free_body resp in
      Some (c, Some resp, [ECall cb None (Some (body_failure len)) (ArgResp resp)])
    | None => None
    end.

(** [ctrl_enroll_http_cb]: the response callback of an enrollment. *)
Definition ctrl_enroll_http_cb (r : tlsuv_http_resp) (c : ziti_controller)
           (resp : ctrl_resp) : handled :=
  if resp_code r <? 0 then ctrl_resp_cb r c resp
  else
    match find_header (resp_headers r) "content-type" with
    | Some ct =>
      if strcaseeq "application/x-pem-file" ct
      then ctrl_resp_cb r c (set_ctrl_cb (set_resp_text_plain resp true) Enroll_pem_cb)
      else ctrl_resp_cb r c resp
    | None => ctrl_resp_cb r c resp
    end.

Definition call_http_cb (k : http_cb_t) : tlsuv_http_resp -> ziti_controller ->
                                          ctrl_resp -> handled :=
  match k with
  | On_ctrl_resp_cb => ctrl_resp_cb
  | On_ctrl_enroll_http_cb => ctrl_enroll_http_cb
  end.

End Handlers.

(** *** Operations *)

(** An operation either has no defined behaviour ([None]), or was
    rejected on the spot (no context), or left a context in flight. *)
Definition started_op : Type := option (option ctrl_resp * list effect).

Section Operations.
Context {H : Host}.

Definition no_api_session_error : ziti_error :=
  mk_error ZITI_AUTHENTICATION_FAILED (Some ERROR_CODE_UNAUTHORIZED) 0
           (Some ERROR_MSG_NO_API_SESSION_TOKEN).

(** [verify_api_session]: calls [cb] itself when the token is missing. *)
Definition verify_api_session (c : ziti_controller) (cb : option callback)
           (x : user_ctx) : option (bool * list effect) :=
  match api_session_token c with
  | None =>
    match cb with
    | Some f => Some (false, [ECall f None (Some no_api_session_error) (ArgCtx x)])
    | None => None
    end
  | Some _ => Some (true, [])
  end.

(** [if (!verify_api_session(ctrl, cb, ctx)) return;] followed by [k]. *)
Definition with_session (c : ziti_controller) (cb : option callback) (x : user_ctx)
           (k : ctrl_resp * list effect) : started_op :=
  match verify_api_session c cb x with
  | None => None
  | Some (true, _) => Some (Some (fst k), snd k)
  | Some (false, effs) => Some (None, effs)
  end.

Definition json_type : list (string * string) :=
  [("Content-Type", "application/json")].

(** [start_request] on [ctrl_resp_cb], with the headers and the body the
    operation then attaches to the request. *)
Definition request (method path : string) (hdrs : list (string * string))
           (b : option string) : list effect :=
  [ERequest method path On_ctrl_resp_cb hdrs b].

Definition ziti_ctrl_get_version (c : ziti_controller) (cb : option callback)
           (x : user_ctx) : started_op :=
  Some (Some (set_ctrl_cb (prepare_resp cb (Some parse_ziti_version_ptr) x) Ctrl_version_cb),
        request "GET" "/version" [] None).

Definition ziti_ctrl_login (c : ziti_controller) (cfg_types : option (list string))
           (cb : option callback) (x : user_ctx) : started_op :=
  Some (Some (set_ctrl_cb (prepare_resp cb (Some parse_ziti_api_session_ptr) x) Ctrl_login_cb),
        request "POST" "/authenticate?method=cert" json_type
                (Some (to_json (AuthReq cfg_types)))).

Definition ziti_ctrl_current_identity (c : ziti_controller) (cb : option callback)
           (x : user_ctx) : started_op :=
  with_session c cb x
    (prepare_resp cb (Some parse_ziti_identity_data_ptr) x,
     request "GET" "/current-identity" [] None).

Definition ziti_ctrl_current_api_session (c : ziti_controller) (cb : option callback)
           (x : user_ctx) : started_op :=
  with_session c cb x
    (set_ctrl_cb (prepare_resp cb (Some parse_ziti_api_session_ptr) x) Ctrl_login_cb,
     request "GET" "/current-api-session" [] None).

Definition ziti_ctrl_logout (c : ziti_controller) (cb : option callback)
           (x : user_ctx) : started_op :=
  with_session c cb x
    (set_ctrl_cb (prepare_resp cb None x) Ctrl_logout_cb,
     request "DELETE" "/current-api-session" [] None).

Definition ziti_ctrl_get_services_update (c : ziti_controller) (cb : option callback)
           (x : user_ctx) : started_op :=
  with_session c cb x
    (prepare_resp cb (Some parse_ziti_service_update_ptr) x,
     request "GET" "/current-api-session/service-updates" [] None).

Definition ziti_ctrl_get_services (c : ziti_controller) (cb : option callback)
           (x : user_ctx) : started_op :=
  with_session c cb x
    (ctrl_paging_req c
       (set_paging (prepare_resp cb (Some parse_ziti_service_array) x) "/services")).

Definition ziti_ctrl_current_edge_routers (c : ziti_controller) (cb : option callback)
           (x : user_ctx) : started_op :=
  with_session c cb x
    (ctrl_paging_req c
       (set_paging (prepare_resp cb (Some parse_ziti_edge_router_array) x)
                   "/current-identity/edge-routers")).

Definition ziti_ctrl_get_service (c : ziti_controller) (service_name : string)
           (cb : option callback) (x : user_ctx) : started_op :=
  with_session c cb x
    (set_ctrl_cb (prepare_resp cb (Some parse_ziti_service_array) x) Ctrl_service_cb,
     request "GET"
       (snprintf 1024 ("/services?filter=name=" ++ dquote ++ service_name ++ dquote)%string)
       [] None).

Definition ziti_ctrl_get_session (c : ziti_controller) (session : string)
           (cb : option callback) (x : user_ctx) : started_op :=
  with_session c cb x
    (prepare_resp cb (Some parse_ziti_net_session_ptr) x,
     request "GET" (snprintf 128 ("/sessions/" ++ session)%string) json_type None).

(** The request body [ziti_ctrl_create_session] hands over: [snprintf]
    writes at most 127 characters and a null byte into the 128 bytes of
    [content] and returns the length of the whole text, which is the
    count of bytes sent. One byte too many takes the null byte along;
    more is read from behind the buffer. *)
Definition session_content (service_id type_name : string) : option string :=
  let text :=
    ("{" ++ dquote ++ "serviceId" ++ dquote ++ ": " ++ dquote ++ service_id
         ++ dquote ++ ", " ++ dquote ++ "type" ++ dquote ++ ": " ++ dquote
         ++ type_name ++ dquote ++ "}")%string in
  let len := String.length text in
  if (len <=? 127)%nat then Some text
  else if (len =? 128)%nat
       then Some (snprintf 128 text ++ String "000"%char EmptyString)%string
       else None.

Definition ziti_ctrl_create_session (c : ziti_controller) (service_id : string)
           (type : Z) (cb : option callback) (x : user_ctx) : started_op :=
  match verify_api_session c cb x with
  | None => None
  | Some (false, effs) => Some (None, effs)
  | Some (true, _) =>
    match session_content service_id (session_type_name type) with
    | Some content =>
      Some (Some (prepare_resp cb (Some parse_ziti_net_session_ptr) x),
            request "POST" "/sessions" json_type (Some content))
    | None => None
    end
  end.

Definition ziti_ctrl_get_sessions (c : ziti_controller) (cb : option callback)
           (x : user_ctx) : started_op :=
  with_session c cb x
    (ctrl_paging_req c
       (set_paging (prepare_resp cb (Some parse_ziti_net_session_array) x) "/sessions")).

(** The path [ziti_ctrl_enroll] builds in its 1024 bytes: the token is
    appended with [strcat], which writes behind the array when the path
    and its null byte no longer fit. *)
Definition enroll_path (method_name : string) (tok : option string) : option string :=
  let path := snprintf 1024 ("/enroll?method=" ++ method_name)%string in
  match tok with
  | Some t =>
    let path := (path ++ "&token=" ++ t)%string in
    if (String.length path <=? 1023)%nat then Some path else None
  | None => Some path
  end.

Definition ziti_ctrl_enroll (c : ziti_controller) (method : Z) (tok csr name : option string)
           (cb : option callback) (x : user_ctx) : started_op :=
  match enroll_path (enrollment_method_name method) tok with
  | None => None
  | Some path =>
    Some (Some (prepare_resp cb (Some parse_ziti_enrollment_resp_ptr) x),
          [match csr with
           | Some csr =>
             ERequest "POST" path On_ctrl_enroll_http_cb
                      [("Content-Type", "text/plain")] (Some csr)
           | None =>
             ERequest "POST" path On_ctrl_enroll_http_cb json_type
                      (match name with
                       | Some n => Some (to_json (IdentityReq n))
                       | None => None
                       end)
           end])
  end.

Definition ziti_ctrl_get_well_known_certs (c : ziti_controller) (cb : option callback)
           (x : user_ctx) : started_op :=
  Some (Some (set_resp_text_plain (prepare_resp cb None x) true),
        request "GET" "/.well-known/est/cacerts"
                [("Accept", "application/pkcs7-mime")] None).

Definition ziti_pr_post (c : ziti_controller) (b : string) (cb : option callback)
           (x : user_ctx) : started_op :=
  with_session c cb x
    (prepare_resp cb (Some parse_ziti_pr_response_ptr) x,
     request "POST" "/posture-response" json_type (Some b)).

Definition ziti_pr_post_bulk (c : ziti_controller) (b : string) (cb : option callback)
           (x : user_ctx) : started_op :=
  with_session c cb x
    (prepare_resp cb (Some parse_ziti_pr_response_ptr) x,
     request "POST" "/posture-response-bulk" json_type (Some b)).

Definition ziti_ctrl_login_mfa (c : ziti_controller) (b : string) (cb : option callback)
           (x : user_ctx) : started_op :=
  with_session c cb x
    (prepare_resp cb None x, request "POST" "/authenticate/mfa" json_type (Some b)).

Definition ziti_ctrl_post_mfa (c : ziti_controller) (cb : option callback)
           (x : user_ctx) : started_op :=
  with_session c cb x
    (prepare_resp cb None x, request "POST" "/current-identity/mfa" json_type None).

Definition ziti_ctrl_get_mfa (c : ziti_controller) (cb : option callback)
           (x : user_ctx) : started_op :=
  with_session c cb x
    (prepare_resp cb (Some parse_ziti_mfa_enrollment_ptr) x,
     request "GET" "/current-identity/mfa" json_type None).

Definition ziti_ctrl_delete_mfa (c : ziti_controller) (mfa_code : string)
           (cb : option callback) (x : user_ctx) : started_op :=
  with_session c cb x
    (prepare_resp cb None x,
     request "DELETE" "/current-identity/mfa"
             (json_type ++ [("mfa-validation-code", mfa_code)])%list None).

Definition ziti_ctrl_post_mfa_verify (c : ziti_controller) (b : string)
           (cb : option callback) (x : user_ctx) : started_op :=
  with_session c cb x
    (prepare_resp cb None x,
     request "POST" "/current-identity/mfa/verify" json_type (Some b)).

Definition ziti_ctrl_get_mfa_recovery_codes (c : ziti_controller) (mfa_code : string)
           (cb : option callback) (x : user_ctx) : started_op :=
  with_session c cb x
    (prepare_resp cb (Some parse_ziti_mfa_recovery_codes_ptr) x,
     request "GET" "/current-identity/mfa/recovery-codes"
             ([("mfa-validation-code", mfa_code)] ++ json_type)%list None).

Definition ziti_ctrl_post_mfa_recovery_codes (c : ziti_controller) (b : string)
           (cb : option callback) (x : user_ctx) : started_op :=
  with_session c cb x
    (prepare_resp cb None x,
     request "POST" "/current-identity/mfa/recovery-codes" json_type (Some b)).

Definition ziti_ctrl_extend_cert_authenticator (c : ziti_controller)
           (authenticatorId csr : string) (cb : option callback) (x : user_ctx)
  : started_op :=
  with_session c cb x
    (prepare_resp cb (Some parse_ziti_extend_cert_authenticator_resp_ptr) x,
     request "POST"
       (snprintf 128 ("/current-identity/authenticators/" ++ authenticatorId ++ "/extend")%string)
       json_type (Some (to_json (ExtendCertReq csr)))).

Definition ziti_ctrl_verify_extend_cert_authenticator (c : ziti_controller)
           (authenticatorId client_cert : string) (cb : option callback) (x : user_ctx)
  : started_op :=
  with_session c cb x
    (prepare_resp cb None x,
     request "POST"
       (snprintf 256
          ("/current-identity/authenticators/" ++ authenticatorId ++ "/extend-verify")%string)
       json_type (Some (to_json (VerifyExtendCertReq client_cert)))).

Definition ziti_ctrl_create_api_certificate (c : ziti_controller) (csr_pem : string)
           (cb : option callback) (x : user_ctx) : started_op :=
  with_session c cb x
    (prepare_resp cb (Some parse_ziti_create_api_cert_resp_ptr) x,
     request "POST" "/current-api-session/certificates" json_type
             (Some (to_json (CreateApiCertReq csr_pem)))).

(** The public operations, as one type to quantify over. *)
Inductive ctrl_op : Type :=
| OpGetVersion
| OpLogin (cfg_types : option (list string))
| OpCurrentIdentity
| OpCurrentApiSession
| OpLogout
| OpGetServicesUpdate
| OpGetServices
| OpCurrentEdgeRouters
| OpGetService (service_name : string)
| OpGetSession (session : string)
| OpCreateSession (service_id : string) (type : Z)
| OpGetSessions
| OpEnroll (method : Z) (tok csr name : option string)
| OpGetWellKnownCerts
| OpPrPost (b : string)
| OpPrPostBulk (b : string)
| OpLoginMfa (b : string)
| OpPostMfa
| OpGetMfa
| OpDeleteMfa (mfa_code : string)
| OpPostMfaVerify (b : string)
| OpGetMfaRecoveryCodes (mfa_code : string)
| OpPostMfaRecoveryCodes (b : string)
| OpExtendCertAuthenticator (authenticatorId csr : string)
| OpVerifyExtendCertAuthenticator (authenticatorId client_cert : string)
| OpCreateApiCertificate (csr_pem : string).

Definition invoke (c : ziti_controller) (op : ctrl_op) (cb : option callback)
           (x : user_ctx) : started_op :=
  match op with
  | OpGetVersion => ziti_ctrl_get_version c cb x
  | OpLogin t => ziti_ctrl_login c t cb x
  | OpCurrentIdentity => ziti_ctrl_current_identity c cb x
  | OpCurrentApiSession => ziti_ctrl_current_api_session c cb x
  | OpLogout => ziti_ctrl_logout c cb x
  | OpGetServicesUpdate => ziti_ctrl_get_services_update c cb x
  | OpGetServices => ziti_ctrl_get_services c cb x
  | OpCurrentEdgeRouters => ziti_ctrl_current_edge_routers c cb x
  | OpGetService n => ziti_ctrl_get_service c n cb x
  | OpGetSession s => ziti_ctrl_get_session c s cb x
  | OpCreateSession s t => ziti_ctrl_create_session c s t cb x
  | OpGetSessions => ziti_ctrl_get_sessions c cb x
  | OpEnroll m t csr n => ziti_ctrl_enroll c m t csr n cb x
  | OpGetWellKnownCerts => ziti_ctrl_get_well_known_certs c cb x
  | OpPrPost b => ziti_pr_post c b cb x
  | OpPrPostBulk b => ziti_pr_post_bulk c b cb x
  | OpLoginMfa b => ziti_ctrl_login_mfa c b cb x
  | OpPostMfa => ziti_ctrl_post_mfa c cb x
  | OpGetMfa => ziti_ctrl_get_mfa c cb x
  | OpDeleteMfa m => ziti_ctrl_delete_mfa c m cb x
  | OpPostMfaVerify b => ziti_ctrl_post_mfa_verify c b cb x
  | OpGetMfaRecoveryCodes m => ziti_ctrl_get_mfa_recovery_codes c m cb x
  | OpPostMfaRecoveryCodes b => ziti_ctrl_post_mfa_recovery_codes c b cb x
  | OpExtendCertAuthenticator a csr => ziti_ctrl_extend_cert_authenticator c a csr cb x
  | OpVerifyExtendCertAuthenticator a cert =>
    ziti_ctrl_verify_extend_cert_authenticator c a cert cb x
  | OpCreateApiCertificate csr => ziti_ctrl_create_api_certificate c csr cb x
  end.

(** The operations of the specification's table that may run before a
    session exists. *)
Definition pre_session (op : ctrl_op) : bool :=
  match op with
  | OpGetVersion | OpLogin _ | OpEnroll _ _ _ _ | OpGetWellKnownCerts => true
  | _ => false
  end.

End Operations.

(** *** The transport's side of one operation

    The HTTP layer calls a request's response callback once. With a
    negative code the request is over. Otherwise it installs
    [ctrl_body_cb] and calls it with each piece of data ([len > 0]) and
    then once with a negative [len]: [UV_EOF] at the end of the body, an
    error code otherwise. A context is in flight again when the handler of
    the last event started a new request with it. *)

Inductive http_event : Type :=
| HttpResp (r : tlsuv_http_resp)
| HttpBody (b : string) (len : Z).

Inductive req_state : Type :=
| AwaitResp (cb : http_cb_t)
| AwaitBody (r : tlsuv_http_resp).

Inductive run_result : Type :=
| RunEnded (c : ziti_controller) (resp : option ctrl_resp) (log : list effect)
           (rq : req_state) (last : http_event) (rest : list http_event)
| RunPending (c : ziti_controller) (resp : ctrl_resp) (rq : req_state) (log : list effect)
| RunUndefined
| RunOutOfProtocol.

Section Transport.
Context {H : Host}.

Fixpoint run (c : ziti_controller) (resp : ctrl_resp) (rq : req_state)
         (log : list effect) (evs : list http_event) : run_result :=
  match evs with
  | [] => RunPending c resp rq log
  | ev :: evs' =>
    match rq, ev with
    | AwaitResp k, HttpResp r =>
      match call_http_cb k r c resp with
      | None => RunUndefined
      | Some (c', oresp, effs) =>
        match resp_code r <? 0, oresp with
        | false, Some resp' => run c' resp' (AwaitBody r) (log ++ effs)%list evs'
        | _, _ => RunEnded c' oresp (log ++ effs)%list rq ev evs'
        end
      end
    | AwaitBody r, HttpBody b len =>
      if len =? 0 then RunOutOfProtocol
      else
        match ctrl_body_cb r b len c resp with
        | None => RunUndefined
        | Some (c', oresp, effs) =>
          match 0 <? len, oresp, started effs with
          | true, Some resp', _ => run c' resp' rq (log ++ effs)%list evs'
          | false, Some resp', Some k => run c' resp' (AwaitResp k) (log ++ effs)%list evs'
          | _, _, _ => RunEnded c' oresp (log ++ effs)%list rq ev evs'
          end
        end
    | _, _ => RunOutOfProtocol
    end
  end.

(** Modelled from the spec: [tlsuv_http_cancel_all], which
    [ziti_ctrl_cancel] calls, belongs to the HTTP library. Cancelling aborts
    every context in flight: each gets the cancellation code, through the
    callback its request is waiting on. *)
Definition cancel_event (rq : req_state) : http_event :=
  match rq with
  | AwaitResp _ =>
    HttpResp (mk_http_resp UV_ECANCELED "" [])
  | AwaitBody _ => HttpBody "" UV_ECANCELED
  end.

End Transport.

(** The four ways an operation ends. *)
Inductive terminal_kind : Type :=
| ParsedSuccess
| TransportError
| EnvelopeError
| Cancellation.

(** The way it ended, read off the last event the transport delivered and
    the error the callback was given. *)
Definition terminal_kind_of (last : http_event) (e : option ziti_error) : terminal_kind :=
  match last with
  | HttpResp r => if resp_code r =? UV_ECANCELED then Cancellation else TransportError
  | HttpBody _ len =>
    if len =? UV_EOF then
      match e with None => ParsedSuccess | Some _ => EnvelopeError end
    else if len =? UV_ECANCELED then Cancellation else TransportError
  end.

(** The [req->resp] the last event belongs to. *)
Definition resp_of (rq : req_state) (last : http_event) : tlsuv_http_resp :=
  match last, rq with
  | HttpResp r, _ => r
  | HttpBody _ _, AwaitBody r => r
  | HttpBody _ _, AwaitResp _ => mk_http_resp 0 "" []
  end.

(** What the callback's arguments look like for each kind. *)
Definition delivered_as (k : terminal_kind) (r : tlsuv_http_resp)
           (obj : option resp_obj) (e : option ziti_error) : Prop :=
  match k with
  | ParsedSuccess => e = None
  | EnvelopeError =>
    exists x, e = Some x /\ err x = code_to_error (code x) /\ http_code x = resp_code r
  | TransportError =>
    exists x, e = Some x /\ err x = ZITI_CONTROLLER_UNAVAILABLE /\ obj = None
  | Cancellation =>
    exists x, e = Some x /\ err x = ZITI_DISABLED /\ obj = None
  end.

(** The pairing of parser and completion routine the operations keep:
    a paged context decodes arrays, and a completion routine that reads
    its object gets the parser of that object. *)
Definition resp_ok (r : ctrl_resp) : bool :=
  (match paging r, body_parse_func r with
   | true, Some p => is_array_parser p
   | _, _ => true
   end)
  && match ctrl_cb r with
     | Ctrl_version_cb =>
       negb (resp_text_plain r) && negb (paging r)
       && match body_parse_func r with
          | None | Some parse_ziti_version_ptr => true
          | _ => false
          end
     | Ctrl_login_cb =>
       negb (resp_text_plain r) && negb (paging r)
       && match body_parse_func r with
          | None | Some parse_ziti_api_session_ptr => true
          | _ => false
          end
     | Ctrl_service_cb =>
       negb (resp_text_plain r)
       && match body_parse_func r with
          | None => true
          | Some p => is_array_parser p
          end
     | _ => true
     end.

(** Whether the object handed to a completion routine is one it can read:
    [ctrl_version_cb] reads a version, [ctrl_login_cb] an API session,
    [ctrl_service_cb] an array. *)
Definition obj_fits (k : ctrl_cb_t) (o : option resp_obj) : bool :=
  match o with
  | None => true
  | Some o =>
    match k, o with
    | Ctrl_version_cb, ObjVersion _ => true
    | Ctrl_version_cb, _ => false
    | Ctrl_login_cb, ObjApiSession _ => true
    | Ctrl_login_cb, _ => false
    | Ctrl_service_cb, ObjArray _ => true
    | Ctrl_service_cb, _ => false
    | _, _ => true
    end
  end.

(** A context in flight for an operation whose callback is [cb]. *)
Definition in_flight (cb : callback) (r : ctrl_resp) : Prop :=
  resp_ok r = true /\ resp_cb r = Some cb.

(** *** A paging walk against an honest server

    The events of one page: the response callback, the data, the end of the
    body. The server is honest when the body of each page decodes to the
    slice of its items the request asked for, with the request's limit and
    offset and the number of its items in the pagination, and when it
    answers as long as pages are outstanding. *)

Record page_events : Type := mk_page {
  page_resp : tlsuv_http_resp;
  page_chunks : list (string * Z)
}.







Definition events_of (pg : page_events) : list http_event :=
  (HttpResp (page_resp pg)
   :: List.map (fun ch => HttpBody (fst ch) (snd ch)) (page_chunks pg)
   ++ [HttpBody "" UV_EOF])%list.






(** The request of the page at offset [off]. *)
Definition page_request (base : string) (lim off : Z) : effect :=
  ERequest "GET" (paging_path base lim off) On_ctrl_resp_cb [] None.



(** *** Session bookkeeping *)

(** The completion routines other than those of login and logout. *)
Definition keeps_session (r : ctrl_resp) : bool :=
  match ctrl_cb r with
  | Ctrl_login_cb | Ctrl_logout_cb => false
  | _ => true
  end.


Definition same_session (c c' : ziti_controller) : Prop :=
  api_session_token c' = api_session_token c
  /\ http_zt_session (client c') = http_zt_session (client c).

(** The controller a run leaves. *)
Definition run_ctrl (res : run_result) : option ziti_controller :=
  match res with
  | RunEnded c _ _ _ _ _ | RunPending c _ _ _ => Some c
  | _ => None
  end.






End Ctrl.

(** ** Posture engine *)

Module Posture.
Import Errors Ctrl.

Definition NO_TIMEOUTS : Z := -1.
Definition IS_ERRORED : bool := true.
Definition IS_NOT_ERRORED : bool := false.

Definition PC_DOMAIN_TYPE : string := "DOMAIN".
Definition PC_OS_TYPE : string := "OS".
Definition PC_PROCESS_TYPE : string := "PROCESS".
Definition PC_PROCESS_MULTI_TYPE : string := "PROCESS_MULTI".
Definition PC_MAC_TYPE : string := "MAC".
Definition PC_ENDPOINT_STATE_TYPE : string := "ENDPOINT_STATE".

(** *** Services and their posture queries

    A [model_map] is kept as the list of its entries in the order its
    iterator visits them; a [NULL]-terminated array as a list. *)

Record ziti_process : Type := mk_process { path : string }.

Record ziti_posture_query : Type := mk_query {
  query_id : string;
  query_type : string;
  timeout : Z;
  process : option ziti_process;
  processes : list ziti_process
}.

Record ziti_posture_query_set : Type := mk_query_set {
  policy_id : string;
  posture_queries : list ziti_posture_query
}.

Record ziti_service : Type := mk_service {
  name : string;
  posture_query_map : list (string * ziti_posture_query_set)
}.

(** *** The response cache *)

Record pr_info : Type := mk_info {
  id : string;
  obj : option string;
  should_send : bool;
  pending : bool;
  obsolete : bool
}.

Record posture_checks : Type := mk_pc {
  previous_api_session_id : option string;
  controller_instance_id : option string;
  must_send_every_time : bool;
  must_send : bool;
  responses : list (string * pr_info);
  error_states : gmap string bool
}.

(** *** Probes

    A probe is handed the query id (and the path, for a process) and a
    reply callback. [Some facts] stands for a probe that calls the reply
    callback before it returns, with the id and path it was given;
    [None] for one that keeps the callback for later. *)

Definition os_facts : Type := (string * string * string)%type.   (* type, version, build *)
Definition process_facts : Type := (bool * option string * list string)%type.

Record ziti_options : Type := mk_opts {
  pq_os_cb : option (string -> option os_facts);
  pq_mac_cb : option (string -> option (list string));
  pq_domain_cb : option (string -> option string);
  pq_process_cb : option (string -> string -> option process_facts)
}.

(** The posture requests the generated [*_to_json] functions print. *)
Inductive pr_req : Type :=
| PrMacReq (rid typeId : string) (mac_addresses : list string)
| PrDomainReq (rid domain typeId : string)
| PrOsReq (rid typeId type version build : string)
| PrProcessReq (rid rpath typeId : string) (is_running : bool)
               (hash : option string) (signers : list string)
| PrEndpointStateReq (rid typeId : string) (unlocked woken : bool).

(** From outside the sources at hand: the JSON printer and the host facts
    the default probes read ([uv_os_uname], [uv_interface_addresses]
    filtered and de-duplicated, the joined domain). *)
Class Platform : Type := mk_platform {
  pr_to_json : pr_req -> string;
  host_os : os_facts;
  host_macs : list string;
  host_domain : string
}.

Inductive ziti_api_session_state : Type :=
| ZitiApiSessionStateUnauthenticated
| ZitiApiSessionStatePartiallyAuthenticated
| ZitiApiSessionStateFullyAuthenticated
| ZitiApiSessionImpossibleToAuthenticate.

(** [ztx->api_session]: the pointer and the [id] in it may be [NULL]. *)
Record api_session : Type := mk_session { as_id : option string }.

(** The part of [struct ziti_ctx] the posture engine reads and writes. *)
Record ziti_ctx : Type := mk_ztx {
  ztx_api_session : option api_session;
  api_session_state : ziti_api_session_state;
  ztx_posture_checks : option posture_checks;
  controller : ziti_controller;
  services : list (string * ziti_service);
  opts : ziti_options;
  no_bulk_posture_response_api : bool
}.

(** [ziti_pr_response]: the services whose timers the controller reports. *)
Record ziti_service_timer : Type := mk_timer {
  timer_name : string;
  timer_id : string
}.
Record ziti_pr_response : Type := mk_pr_response {
  pr_services : option (list ziti_service_timer)
}.

(** Which callback and context a posture submission completes with. *)
Inductive completion : Type :=
| BulkCb                       (* [ziti_pr_post_bulk_cb], context [ztx] *)
| PostCb (info : pr_info).     (* [ziti_pr_post_cb], context with a copy of the entry *)

Inductive pr_effect : Type :=
| PSent (req : list effect) (k : completion)   (* a request of the controller client *)
| PQueueWork (wid wpath : string)              (* [uv_queue_work]: process check *)
| PForceServiceUpdate (sid : string)           (* [ziti_force_service_update] *)
| PServicesRefresh.                            (* [ziti_services_refresh(ztx, true)] *)

Definition is_sent (e : pr_effect) : bool :=
  match e with PSent _ _ => true | _ => false end.

(** Field updates. *)
Definition set_should_send (i : pr_info) (v : bool) : pr_info :=
  mk_info (id i) (obj i) v (pending i) (obsolete i).
Definition set_pending (i : pr_info) (v : bool) : pr_info :=
  mk_info (id i) (obj i) (should_send i) v (obsolete i).
Definition set_obsolete (i : pr_info) (v : bool) : pr_info :=
  mk_info (id i) (obj i) (should_send i) (pending i) v.
Definition set_obj (i : pr_info) (v : option string) : pr_info :=
  mk_info (id i) v (should_send i) (pending i) (obsolete i).

Definition set_must_send_every_time (pc : posture_checks) (v : bool) : posture_checks :=
  mk_pc (previous_api_session_id pc) (controller_instance_id pc) v (must_send pc)
        (responses pc) (error_states pc).
Definition set_must_send (pc : posture_checks) (v : bool) : posture_checks :=
  mk_pc (previous_api_session_id pc) (controller_instance_id pc)
        (must_send_every_time pc) v (responses pc) (error_states pc).
Definition set_ids (pc : posture_checks) (sid iid : option string) : posture_checks :=
  mk_pc sid iid (must_send_every_time pc) (must_send pc) (responses pc) (error_states pc).
Definition set_responses (pc : posture_checks) (v : list (string * pr_info))
  : posture_checks :=
  mk_pc (previous_api_session_id pc) (controller_instance_id pc)
        (must_send_every_time pc) (must_send pc) v (error_states pc).
Definition set_error_states (pc : posture_checks) (v : gmap string bool) : posture_checks :=
  mk_pc (previous_api_session_id pc) (controller_instance_id pc)
        (must_send_every_time pc) (must_send pc) (responses pc) v.

Definition set_posture_checks (ztx : ziti_ctx) (pc : option posture_checks) : ziti_ctx :=
  mk_ztx (ztx_api_session ztx) (api_session_state ztx) pc (controller ztx)
         (services ztx) (opts ztx) (no_bulk_posture_response_api ztx).
Definition set_no_bulk (ztx : ziti_ctx) (v : bool) : ziti_ctx :=
  mk_ztx (ztx_api_session ztx) (api_session_state ztx) (ztx_posture_checks ztx)
         (controller ztx) (services ztx) (opts ztx) v.

(** An update of [ztx->posture_checks] in place. *)
Definition upd_pc (ztx : ziti_ctx) (f : posture_checks -> posture_checks) : ziti_ctx :=
  set_posture_checks ztx (f <$> ztx_posture_checks ztx).

(** [model_map_get] and an update of the entry found, on a map kept as a
    list. *)
Fixpoint map_get {A : Type} (m : list (string * A)) (k : string) : option A :=
  match m with
  | [] => None
  | (k', v) :: m' => if streq k' k then Some v else map_get m' k
  end.

Fixpoint map_update {A : Type} (m : list (string * A)) (k : string) (f : A -> A)
  : list (string * A) :=
  match m with
  | [] => []
  | (k', v) :: m' => if streq k' k then (k', f v) :: m' else (k', v) :: map_update m' k f
  end.

(** [ziti_posture_init], on a context without posture checks. *)
Definition ziti_posture_init (ztx : ziti_ctx) : ziti_ctx :=
  match ztx_posture_checks ztx with
  | None => set_posture_checks ztx (Some (mk_pc None None true false [] ∅))
  | Some _ => ztx
  end.

(** [get_resp_info]: the entry of [id], made and added when missing. *)
Definition get_resp_info (pc : posture_checks) (k : string) : posture_checks :=
  match map_get (responses pc) k with
  | Some _ => pc
  | None => set_responses pc (responses pc ++ [(k, mk_info k None false false false)])%list
  end.

(** [ziti_pr_set_info_errored], [ziti_pr_set_info_success],
    [ziti_pr_is_info_errored] *)
Definition ziti_pr_set_info_errored (pc : posture_checks) (k : string) : posture_checks :=
  set_error_states pc (<[k := IS_ERRORED]> (error_states pc)).
Definition ziti_pr_set_info_success (pc : posture_checks) (k : string) : posture_checks :=
  set_error_states pc (<[k := IS_NOT_ERRORED]> (error_states pc)).
Definition ziti_pr_is_info_errored (pc : posture_checks) (k : string) : bool :=
  match error_states pc !! k with
  | None => false
  | Some b => b
  end.

(** [ziti_collect_pr]: a probe's reply, as JSON, for the cache key. *)
Definition collect_entry (pc : posture_checks) (pr_obj : string) (i : pr_info) : pr_info :=
  let i := set_pending i false in
  let changed :=
    match obj i with
    | None => true
    | Some o => negb (streq o pr_obj)
    end in
  let i := if changed then set_obj i (Some pr_obj) else i in
  set_should_send i
    (must_send_every_time pc || ziti_pr_is_info_errored pc (id i) || changed).

Definition ziti_collect_pr (ztx : ziti_ctx) (pr_obj_key pr_obj : string) : ziti_ctx :=
  match ztx_posture_checks ztx with
  | None => ztx
  | Some pc =>
    match map_get (responses pc) pr_obj_key with
    | Some _ =>
      set_posture_checks ztx
        (Some (set_responses pc (map_update (responses pc) pr_obj_key (collect_entry pc pr_obj))))
    | None => ztx
    end
  end.

Section Engine.
Context {P : Platform}.

(** The reply handlers: print the request, collect it under the key. *)
Definition ziti_pr_handle_mac (ztx : ziti_ctx) (rid : string) (macs : list string)
  : ziti_ctx :=
  ziti_collect_pr ztx PC_MAC_TYPE (pr_to_json (PrMacReq rid PC_MAC_TYPE macs)).

Definition ziti_pr_handle_domain (ztx : ziti_ctx) (rid domain : string) : ziti_ctx :=
  ziti_collect_pr ztx PC_DOMAIN_TYPE (pr_to_json (PrDomainReq rid domain PC_DOMAIN_TYPE)).

Definition ziti_pr_handle_os (ztx : ziti_ctx) (rid : string) (f : os_facts) : ziti_ctx :=
  let '(os_type, os_version, os_build) := f in
  ziti_collect_pr ztx PC_OS_TYPE
    (pr_to_json (PrOsReq rid PC_OS_TYPE os_type os_version os_build)).

Definition ziti_pr_handle_process (ztx : ziti_ctx) (rid rpath : string) (f : process_facts)
  : ziti_ctx :=
  let '(is_running, sha_512_hash, signers) := f in
  ziti_collect_pr ztx rpath
    (pr_to_json (PrProcessReq rid rpath PC_PROCESS_TYPE is_running sha_512_hash signers)).

(** [handle_pr_resp_timer_events] *)
Definition handle_pr_resp_timer_events (pr_resp : option ziti_pr_response)
  : list pr_effect :=
  match pr_resp with
  | Some r =>
    match pr_services r with
    | Some l => List.map (fun t => PForceServiceUpdate (timer_id t)) l
    | None => []
    end
  | None => []
  end.

(** [ziti_pr_post_bulk_cb] *)
Definition ziti_pr_post_bulk_cb (pr_resp : option ziti_pr_response)
           (e : option ziti_error) (ztx : ziti_ctx) : ziti_ctx * list pr_effect :=
  match ztx_posture_checks ztx with
  | Some pc =>
    match e with
    | Some e =>
      let ztx := set_posture_checks ztx (Some (set_must_send pc true)) in
      (if http_code e =? 404 then set_no_bulk ztx true else ztx, [])
    | None =>
      (set_posture_checks ztx (Some (set_must_send pc false)),
       handle_pr_resp_timer_events pr_resp ++ [PServicesRefresh])%list
    end
  | None => (ztx, [])
  end.

(** [ziti_pr_post_cb]: [info] is the copy of the entry in the callback's
    context. Without posture checks the map access has no defined
    behaviour. *)
Definition ziti_pr_post_cb (pr_resp : option ziti_pr_response) (e : option ziti_error)
           (info : pr_info) (ztx : ziti_ctx) : option (ziti_ctx * list pr_effect) :=
  match ztx_posture_checks ztx with
  | None => None
  | Some pc =>
    match e with
    | Some _ =>
      Some (set_posture_checks ztx (Some (ziti_pr_set_info_errored pc (id info))), [])
    | None =>
      Some (set_posture_checks ztx (Some (ziti_pr_set_info_success pc (id info))),
            (handle_pr_resp_timer_events pr_resp ++ [PServicesRefresh])%list)
    end
  end.

(** *** Submission *)


(** The identity of the posture callbacks towards the controller client. *)
Definition posture_cb : callback := 0%nat.

(** A submission through the controller client: in flight, or turned
    down at once, in which case the client has already called the
    callback with the error given here. *)
Inductive submitted : Type :=
| InFlight (req : list effect)
| Rejected (e : option ziti_error).

Definition submit (op : started_op) : option submitted :=
  match op with
  | Some (Some _, req) => Some (InFlight req)
  | Some (None, ECall _ _ e _ :: _) => Some (Rejected e)
  | _ => None
  end.

Definition body_of (i : pr_info) : string :=
  match obj i with Some o => o | None => "" end.

(** [string_buf] contents: the bodies to send, comma-separated. *)
Fixpoint bulk_items (l : list (string * pr_info)) (needs_comma : bool) : string :=
  match l with
  | [] => ""
  | (_, i) :: l' =>
    if should_send i
    then ((if needs_comma then "," else "") ++ body_of i ++ bulk_items l' true)%string
    else bulk_items l' needs_comma
  end.

Definition clear_should_send (l : list (string * pr_info)) : list (string * pr_info) :=
  List.map (fun kv => (fst kv, if should_send (snd kv)
                               then set_should_send (snd kv) false else snd kv)) l.

(** [ziti_pr_send_bulk] *)
Definition ziti_pr_send_bulk (ztx : ziti_ctx) : option (ziti_ctx * list pr_effect) :=
  match ztx_posture_checks ztx with
  | None => None
  | Some pc =>
    if negb (existsb (fun kv => should_send (snd kv)) (responses pc)) then Some (ztx, [])
    else
      let b := ("[" ++ bulk_items (responses pc) false ++ "]")%string in
      let ztx :=
        set_posture_checks ztx (Some (set_responses pc (clear_should_send (responses pc)))) in
      match submit (ziti_pr_post_bulk (controller ztx) b (Some posture_cb) 0%nat) with
      | Some (InFlight req) => Some (ztx, [PSent req BulkCb])
      | Some (Rejected e) => Some (ziti_pr_post_bulk_cb None e ztx)
      | None => None
      end
  end.

(** [ziti_pr_send_individually]: the loop over the entries [l] of the
    cache. *)
Fixpoint send_each (l : list (string * pr_info)) (ztx : ziti_ctx)
  : option (ziti_ctx * list pr_effect) :=
  match l with
  | [] => Some (ztx, [])
  | (k, info) :: l' =>
    if should_send info then
      match
        match submit (ziti_pr_post (controller ztx) (body_of info) (Some posture_cb) 0%nat) with
        | Some (InFlight req) => Some (ztx, [PSent req (PostCb info)])
        | Some (Rejected e) => ziti_pr_post_cb None e info ztx
        | None => None
        end
      with
      | None => None
      | Some (ztx, effs) =>
        let ztx :=
          upd_pc ztx (fun pc =>
            set_responses pc (map_update (responses pc) k (fun i => set_should_send i false))) in
        match send_each l' ztx with
        | None => None
        | Some (ztx, effs') => Some (ztx, (effs ++ effs')%list)
        end
      end
    else send_each l' ztx
  end.

Definition ziti_pr_send_individually (ztx : ziti_ctx) : option (ziti_ctx * list pr_effect) :=
  match ztx_posture_checks ztx with
  | None => None
  | Some pc => send_each (responses pc) ztx
  end.

(** [ziti_pr_send] *)
Definition ziti_pr_send (ztx : ziti_ctx) : option (ziti_ctx * list pr_effect) :=
  if no_bulk_posture_response_api ztx then ziti_pr_send_individually ztx
  else ziti_pr_send_bulk ztx.

(** *** The tick *)

(** The required probes: the three [query_info] records (their [query]
    field; [NULL] is [None]) and the [processes] map by path. *)
Record required : Type := mk_required {
  domainInfo : option ziti_posture_query;
  osInfo : option ziti_posture_query;
  macInfo : option ziti_posture_query;
  procs : list (string * ziti_posture_query)
}.

Definition add_process (acc : required) (p : string) (q : ziti_posture_query) : required :=
  match map_get (procs acc) p with
  | Some _ => acc
  | None => mk_required (domainInfo acc) (osInfo acc) (macInfo acc) (procs acc ++ [(p, q)])%list
  end.

(** One turn of the loop over a set's queries. *)
Definition note_query (acc : required) (q : ziti_posture_query) : option required :=
  if streq (query_type q) PC_MAC_TYPE then
    Some (mk_required (domainInfo acc) (osInfo acc) (Some q) (procs acc))
  else if streq (query_type q) PC_DOMAIN_TYPE then
    Some (mk_required (Some q) (osInfo acc) (macInfo acc) (procs acc))
  else if streq (query_type q) PC_OS_TYPE then
    Some (mk_required (domainInfo acc) (Some q) (macInfo acc) (procs acc))
  else if streq (query_type q) PC_PROCESS_TYPE then
    match process q with
    | Some p => Some (add_process acc (path p) q)
    | None => None
    end
  else if streq (query_type q) PC_PROCESS_MULTI_TYPE then
    Some (List.fold_left (fun acc p => add_process acc (path p) q) (processes q) acc)
  else Some acc.

Fixpoint note_queries (acc : required) (qs : list ziti_posture_query) : option required :=
  match qs with
  | [] => Some acc
  | q :: qs' =>
    match note_query acc q with
    | Some acc => note_queries acc qs'
    | None => None
    end
  end.

Fixpoint note_sets (acc : required) (sets : list (string * ziti_posture_query_set))
  : option required :=
  match sets with
  | [] => Some acc
  | (_, s) :: sets' =>
    match note_queries acc (posture_queries s) with
    | Some acc => note_sets acc sets'
    | None => None
    end
  end.

Fixpoint note_services (acc : required) (svcs : list (string * ziti_service))
  : option required :=
  match svcs with
  | [] => Some acc
  | (_, s) :: svcs' =>
    match note_sets acc (posture_query_map s) with
    | Some acc => note_services acc svcs'
    | None => None
    end
  end.

(** [(pc id == NULL && ctrl id != NULL) || strcmp(pc id, ctrl id) != 0];
    [strcmp] on a null pointer has no defined behaviour. *)
Definition new_controller_instance (pc_id ctrl_id : option string) : option bool :=
  match pc_id, ctrl_id with
  | None, Some _ => Some true
  | Some a, Some b => Some (negb (streq a b))
  | _, None => None
  end.

Definition mark_obsolete (l : list (string * pr_info)) : list (string * pr_info) :=
  List.map (fun kv => (fst kv, if (negb (pending (snd kv)) && negb (should_send (snd kv)))%bool
                               then set_obsolete (snd kv) true else snd kv)) l.

Definition remove_obsolete (l : list (string * pr_info)) : list (string * pr_info) :=
  List.filter (fun kv => negb (obsolete (snd kv))) l.

Definition is_pending (ztx : ziti_ctx) (k : string) : bool :=
  match ztx_posture_checks ztx with
  | Some pc => match map_get (responses pc) k with Some i => pending i | None => false end
  | None => false
  end.

(** What the tick does for one required probe: the timeout test, the
    cache entry, and the probe unless one is pending. *)
Definition require_probe (ztx : ziti_ctx) (k : string) (q : ziti_posture_query)
           (probe : ziti_ctx -> ziti_ctx * list pr_effect) : ziti_ctx * list pr_effect :=
  let ztx :=
    if timeout q =? NO_TIMEOUTS
    then upd_pc ztx (fun pc => set_must_send_every_time pc false) else ztx in
  let ztx := upd_pc ztx (fun pc => get_resp_info pc k) in
  let ztx :=
    upd_pc ztx (fun pc =>
      set_responses pc (map_update (responses pc) k (fun i => set_obsolete i false))) in
  if is_pending ztx k then (ztx, [])
  else
    probe (upd_pc ztx (fun pc =>
             set_responses pc (map_update (responses pc) k (fun i => set_pending i true)))).

(** The override when there is one, the default probe otherwise. *)
Definition probe_domain (q : ziti_posture_query) (ztx : ziti_ctx)
  : ziti_ctx * list pr_effect :=
  match pq_domain_cb (opts ztx) with
  | Some f =>
    match f (query_id q) with
    | Some d => (ziti_pr_handle_domain ztx (query_id q) d, [])
    | None => (ztx, [])
    end
  | None => (ziti_pr_handle_domain ztx (query_id q) host_domain, [])
  end.

Definition probe_mac (q : ziti_posture_query) (ztx : ziti_ctx)
  : ziti_ctx * list pr_effect :=
  match pq_mac_cb (opts ztx) with
  | Some f =>
    match f (query_id q) with
    | Some m => (ziti_pr_handle_mac ztx (query_id q) m, [])
    | None => (ztx, [])
    end
  | None => (ziti_pr_handle_mac ztx (query_id q) host_macs, [])
  end.

Definition probe_os (q : ziti_posture_query) (ztx : ziti_ctx)
  : ziti_ctx * list pr_effect :=
  match pq_os_cb (opts ztx) with
  | Some f =>
    match f (query_id q) with
    | Some o => (ziti_pr_handle_os ztx (query_id q) o, [])
    | None => (ztx, [])
    end
  | None => (ziti_pr_handle_os ztx (query_id q) host_os, [])
  end.

Definition probe_process (p : string) (q : ziti_posture_query) (ztx : ziti_ctx)
  : ziti_ctx * list pr_effect :=
  match pq_process_cb (opts ztx) with
  | Some f =>
    match f (query_id q) p with
    | Some r => (ziti_pr_handle_process ztx (query_id q) p r, [])
    | None => (ztx, [])
    end
  | None => (ztx, [PQueueWork (query_id q) p])
  end.

Definition require_opt (ztx : ziti_ctx) (k : string) (q : option ziti_posture_query)
           (probe : ziti_posture_query -> ziti_ctx -> ziti_ctx * list pr_effect)
  : ziti_ctx * list pr_effect :=
  match q with
  | Some q => require_probe ztx k q (probe q)
  | None => (ztx, [])
  end.

Fixpoint require_processes (ztx : ziti_ctx) (l : list (string * ziti_posture_query))
  : ziti_ctx * list pr_effect :=
  match l with
  | [] => (ztx, [])
  | (p, q) :: l' =>
    let '(ztx, effs) := require_probe ztx p q (probe_process p q) in
    let '(ztx, effs') := require_processes ztx l' in
    (ztx, (effs ++ effs')%list)
  end.

(** [ziti_send_posture_data]: one tick. *)
Definition ziti_send_posture_data (ztx : ziti_ctx) : option (ziti_ctx * list pr_effect) :=
  match ztx_api_session ztx with
  | None => Some (ztx, [])
  | Some ses =>
    match as_id ses with
    | None => Some (ztx, [])
    | Some sid =>
      match api_session_state ztx with
      | ZitiApiSessionStateFullyAuthenticated =>
        match ztx_posture_checks ztx with
        | None => None
        | Some pc =>
          let new_session_id :=
            match previous_api_session_id pc with
            | None => true
            | Some prev => negb (streq prev sid)
            end in
          match new_controller_instance (controller_instance_id pc)
                                        (instance_id (controller ztx)) with
          | None => None
          | Some new_instance =>
            let pc :=
              if (new_session_id || must_send_every_time pc || new_instance)%bool
              then set_ids (set_must_send pc true) (Some sid) (instance_id (controller ztx))
              else set_must_send pc false in
            match note_services (mk_required None None None []) (services ztx) with
            | None => None
            | Some req =>
              let pc := set_responses pc (mark_obsolete (responses pc)) in
              let ztx := set_posture_checks ztx (Some pc) in
              let '(ztx, e1) := require_opt ztx PC_DOMAIN_TYPE (domainInfo req) probe_domain in
              let '(ztx, e2) := require_opt ztx PC_MAC_TYPE (macInfo req) probe_mac in
              let '(ztx, e3) := require_opt ztx PC_OS_TYPE (osInfo req) probe_os in
              let '(ztx, e4) := require_processes ztx (procs req) in
              let ztx :=
                upd_pc ztx (fun pc => set_responses pc (remove_obsolete (responses pc))) in
              match ziti_pr_send ztx with
              | None => None
              | Some (ztx, e5) => Some (ztx, (e1 ++ e2 ++ e3 ++ e4 ++ e5)%list)
              end
            end
          end
        end
      | _ => Some (ztx, [])
      end
    end
  end.

(** [ziti_endpoint_state_change] *)
Definition ziti_endpoint_state_change (ztx : ziti_ctx) (woken unlocked : bool)
  : option (list effect) :=
  if (woken || unlocked)%bool then
    match
      ziti_pr_post (controller ztx)
        (pr_to_json (PrEndpointStateReq "0" PC_ENDPOINT_STATE_TYPE unlocked woken))
        (Some posture_cb) 0%nat
    with
    | Some (_, effs) => Some effs
    | None => None
    end
  else Some [].

End Engine.





(** The [must_send] flag of a context that has posture checks, and a probe
    that leaves it alone. *)
Definition must (ztx : ziti_ctx) : option bool :=
  must_send <$> ztx_posture_checks ztx.

Definition keeps_must (probe : ziti_ctx -> ziti_ctx * list pr_effect) : Prop :=
  forall ztx, must (fst (probe ztx)) = must ztx.

Definition tick_runs (ztx : ziti_ctx) : bool :=
  match ztx_api_session ztx with
  | Some ses =>
    match as_id ses, api_session_state ztx with
    | Some _, ZitiApiSessionStateFullyAuthenticated => true
    | _, _ => false
    end
  | None => false
  end.

(** *** Timed queries of a service *)

(** The inner loop of [ziti_service_has_query_with_timeout]. *)
Fixpoint set_has_timeout (qs : list ziti_posture_query) : bool :=
  match qs with
  | [] => false
  | q :: qs' => if negb (timeout q =? NO_TIMEOUTS) then true else set_has_timeout qs'
  end.

(** Its outer loop: the iterator stands on the head of the map;
    [model_map_it_remove] drops the entry and moves on. *)
Fixpoint has_query_loop (m : list (string * ziti_posture_query_set))
  : bool * list (string * ziti_posture_query_set) :=
  match m with
  | [] => (false, [])
  | (k, s) :: m' =>
    if set_has_timeout (posture_queries s) then (true, m) else has_query_loop m'
  end.

(** [ziti_service_has_query_with_timeout]: the answer, and the service as
    the call leaves it. *)
Definition ziti_service_has_query_with_timeout (s : ziti_service) : bool * ziti_service :=
  let '(b, m) := has_query_loop (posture_query_map s) in
  (b, mk_service (name s) m).

(** *** The services' queries, flattened

    The queries in the order the tick visits them, the process paths a
    query declares, and the last query of a type. *)
Definition all_queries (svcs : list (string * ziti_service)) : list ziti_posture_query :=
  List.concat
    (List.map (fun s => List.concat (List.map (fun qs => posture_queries (snd qs))
                                              (posture_query_map (snd s)))) svcs).

Definition declared_paths (q : ziti_posture_query) : list string :=
  if streq (query_type q) PC_PROCESS_TYPE then
    match process q with Some p => [path p] | None => [] end
  else if streq (query_type q) PC_PROCESS_MULTI_TYPE then List.map path (processes q)
  else [].

Definition last_of_type (t : string) (qs : list ziti_posture_query)
  : option ziti_posture_query :=
  List.fold_left (fun acc q => if streq (query_type q) t then Some q else acc) qs None.

(** The cache keys a required-probe set asks for. *)
Definition required_keys (r : required) : list string :=
  (match domainInfo r with Some _ => [PC_DOMAIN_TYPE] | None => [] end
   ++ match macInfo r with Some _ => [PC_MAC_TYPE] | None => [] end
   ++ match osInfo r with Some _ => [PC_OS_TYPE] | None => [] end
   ++ List.map fst (procs r))%list.

(** The cache of a context, and its entries under one key. *)
Definition cache (ztx : ziti_ctx) : list (string * pr_info) :=
  match ztx_posture_checks ztx with
  | Some pc => responses pc
  | None => []
  end.

Definition entries_of (k : string) (l : list (string * pr_info)) : list (string * pr_info) :=
  List.filter (fun kv => streq (fst kv) k) l.

(** An entry no probe is out for and nothing is to be sent of. *)
Definition idle (i : pr_info) : bool := negb (pending i) && negb (should_send i).

(** What a tick has no business with. *)
Definition outside (ztx : ziti_ctx)
  : option api_session * ziti_api_session_state * ziti_controller
    * list (string * ziti_service) * ziti_options * bool :=
  (ztx_api_session ztx, api_session_state ztx, controller ztx, services ztx, opts ztx,
   no_bulk_posture_response_api ztx).

(** The entries a submission sends, in the order of the cache. *)
Definition flagged (l : list (string * pr_info)) : list pr_info :=
  List.filter should_send (List.map snd l).

(** Every flagged entry has a body. *)
Definition flagged_have_body (l : list (string * pr_info)) : Prop :=
  List.Forall (fun i => obj i <> None) (flagged l).


(** A probe for the cache key [k]: it replies at once, under [k], or keeps
    the reply callback for later, or queues a process check of [k]. *)
Definition probe_for (k : string) (probe : ziti_ctx -> ziti_ctx * list pr_effect) : Prop :=
  forall ztx,
    (exists b, probe ztx = (ziti_collect_pr ztx k b, []))
    \/ probe ztx = (ztx, [])
    \/ (exists wid, probe ztx = (ztx, [PQueueWork wid k])).

(** The first entry under [k] is not marked obsolete, and is pending. *)
Definition live (ztx : ziti_ctx) (k : string) : Prop :=
  exists i, map_get (cache ztx) k = Some i /\ obsolete i = false.

Definition awaited (ztx : ziti_ctx) (k : string) : Prop :=
  exists i, map_get (cache ztx) k = Some i /\ obsolete i = false /\ pending i = true.


(** What a stage of the tick that probes the keys [ks] does: it leaves
    the rest of the context alone, leaves a live entry under each of its
    keys, leaves the entries of other keys as they are, keeps what is
    pending pending, and queues a process check only for a key of its own
    that was not pending, which then is. *)
Definition probing (ks : list string) (ztx ztx' : ziti_ctx) (effs : list pr_effect) : Prop :=
  outside ztx' = outside ztx
  /\ ztx_posture_checks ztx' <> None
  /\ (forall k, In k ks -> live ztx' k)
  /\ (forall k, live ztx k -> live ztx' k)
  /\ (forall k, ~ In k ks -> entries_of k (cache ztx') = entries_of k (cache ztx))
  /\ (forall k, is_pending ztx k = true -> is_pending ztx' k = true)
  /\ (forall e, In e effs ->
        exists wid p, e = PQueueWork wid p /\ In p ks
                      /\ is_pending ztx p = false /\ is_pending ztx' p = true).

(** A cache with the send flags taken off. *)
Definition unflagged (l : list (string * pr_info)) : list (string * pr_info) :=
  List.map (fun kv => (fst kv, set_should_send (snd kv) false)) l.


End Posture.

(** ** Utilities ([library/utils.c]) *)

Module Utils.
Import Errors Ctrl.

(** *** [hexify]

    Bytes are [Z] values of [0 .. 255]; a separator of [0] means none. *)

Definition hex : string := "0123456789abcdef".

(** [hex[i]] *)
Definition hex_at (i : Z) : ascii :=
  match String.get (Z.to_nat i) hex with
  | Some a => a
  | None => "000"%char
  end.

Definition has_sep (sep : ascii) : bool := negb (Ascii.eqb sep "000"%char).

(** The size [hexify] allocates for its output, terminator included. *)
Definition hexify_out_size (bin_len : nat) (sep : ascii) : nat :=
  if has_sep sep then (bin_len * 3)%nat else (bin_len * 2 + 1)%nat.

(** The loop of [hexify] from index [i] on. *)
Fixpoint hexify_from (i : nat) (bin : list Z) (sep : ascii) : string :=
  match bin with
  | [] => ""
  | b :: bin' =>
    ((if (has_sep sep && (0 <? i)%nat)%bool then String sep "" else "")
     ++ String (hex_at (Z.shiftr b 4)) (String (hex_at (Z.land b 15)) "")
     ++ hexify_from (S i) bin' sep)%string
  end.

Definition hexify (bin : list Z) (sep : ascii) : string := hexify_from 0 bin sep.

Definition is_byte (b : Z) : Prop := 0 <= b < 256.

(** The value of a hexadecimal digit as [hexify] writes it. *)
Definition hex_val (a : ascii) : Z :=
  let n := Z.of_nat (nat_of_ascii a) in
  if (48 <=? n) && (n <=? 57) then n - 48 else n - 87.

(** *** [str_split] *)

(** [strpbrk(s, accept)]: the index of the first character of [s] that
    occurs in [accept]. *)
Fixpoint strpbrk (s accept : string) : option nat :=
  match s with
  | EmptyString => None
  | String c s' => if strchr accept c then Some 0%nat else S <$> strpbrk s' accept
  end.

(** What is left of [s] from index [n] on. *)
Definition str_from (n : nat) (s : string) : string :=
  String.substring n (String.length s - n) s.

(** The [do ... while (sep)] loop of [str_split] on the rest [s] of the
    string; [fuel] bounds the number of its turns. *)
Fixpoint str_split_loop (fuel : nat) (s delim : string) : list string :=
  match fuel with
  | O => []
  | S fuel' =>
    match strpbrk s delim with
    | Some tok_len =>
      String.substring 0 tok_len s :: str_split_loop fuel' (str_from (S tok_len) s) delim
    | None => [s]
    end
  end.

(** [str_split]: the count it returns and the list it has appended to. A
    string of [n] characters is split in at most [n + 1] turns. *)
Definition str_split (str : option string) (delim : string) (result : list string)
  : nat * list string :=
  match str with
  | None => (0%nat, result)
  | Some s =>
    let toks := str_split_loop (S (String.length s)) s delim in
    (length toks, (result ++ toks)%list)
  end.

(** The number of characters of [s] that occur in [delim]. *)
Fixpoint count_delims (s delim : string) : nat :=
  match s with
  | EmptyString => 0%nat
  | String c s' => ((if strchr delim c then 1 else 0) + count_delims s' delim)%nat
  end.

(** *** [basename] *)

Definition DIR_SEP : ascii := "/"%char.

(** [strrchr(s, c)]: the index of the last [c] in [s]. *)
Fixpoint strrchr (s : string) (c : ascii) : option nat :=
  match s with
  | EmptyString => None
  | String x s' =>
    match strrchr s' c with
    | Some i => Some (S i)
    | None => if Ascii.eqb x c then Some 0%nat else None
    end
  end.

Definition basename (path : option string) : option string :=
  match path with
  | None => None
  | Some p =>
    match strrchr p DIR_SEP with
    | Some last_slash => Some (str_from (S last_slash) p)
    | None => Some p
    end
  end.

End Utils.

(** ** The default MAC probe ([default_pq_mac] of [library/posture.c]) *)

Module MacProbe.
Import Errors Ctrl Posture Utils.

(** [uv_interface_address_t]: the fields the probe reads; [phys_addr] is
    [char phys_addr[6]], each byte as [hexify] sees it. *)
Record uv_interface_address : Type := mk_interface {
  if_name : string;
  is_internal : bool;
  phys_addr : list Z
}.

(** [non_zero_addr] *)
Fixpoint non_zero_addr (addr : list Z) : bool :=
  match addr with
  | [] => false
  | b :: addr' => if negb (b =? 0) then true else non_zero_addr addr'
  end.

(** The loop over the interfaces; [addrs] is the map from interface name
    to printed address. *)
Fixpoint mac_table (info : list uv_interface_address) (addrs : list (string * string))
  : list (string * string) :=
  match info with
  | [] => addrs
  | i :: info' =>
    if (negb (is_internal i) && non_zero_addr (phys_addr i))%bool then
      match map_get addrs (if_name i) with
      | None => mac_table info' (addrs ++ [(if_name i, hexify (phys_addr i) ":"%char)])%list
      | Some _ => mac_table info' addrs
      end
    else mac_table info' addrs
  end.

(** [default_pq_mac]: the addresses handed to the reply callback. *)
Definition default_pq_mac (info : list uv_interface_address) : list string :=
  List.map snd (mac_table info []).

(** An interface the probe reports under the name [n]. *)
Definition reported_as (n : string) (i : uv_interface_address) : bool :=
  negb (is_internal i) && non_zero_addr (phys_addr i) && streq (if_name i) n.

End MacProbe.


(** * Concrete inputs *)

Module Samples.
Import Errors Ctrl Posture.

(** A host whose parsers know a few canned bodies. *)
Definition sample_host : Host :=
  mk_host (fun _ => "ziti context is disabled")
          (fun _ => "transport error")
          (fun b => if streq b "page" then
                      Some (mk_api_resp (mk_pagination 25 0 1) (Some "[svc]") None)
                    else if streq b "first" then
                      Some (mk_api_resp (mk_pagination 2 0 3) (Some "ab") None)
                    else if streq b "second" then
                      Some (mk_api_resp (mk_pagination 2 2 3) (Some "c") None)
                    else if streq b "denied" then
                      Some (mk_api_resp (mk_pagination 0 0 0) None
                              (Some (mk_error ZITI_OK (Some "UNAUTHORIZED") 0 (Some "no"))))
                    else None)
          (fun _ => None)
          (fun _ => None)
          (fun _ d => Some d)
          (fun _ d => if streq d "ab" then Some ["a"; "b"] else Some [d])
          (fun _ => "{}")
          (fun _ => "Dial")
          (fun _ => "ott").

Definition sample_ctrl : ziti_controller := ziti_ctrl_init "https://ctrl.example".

(** A platform that prints a request as a short tag. *)
Definition sample_platform : Platform :=
  mk_platform
    (fun r => match r with
              | PrOsReq rid _ t v b => ("{OS:" ++ rid ++ ":" ++ t ++ ":" ++ v ++ ":" ++ b ++ "}")%string
              | PrMacReq rid _ _ => ("{MAC:" ++ rid ++ "}")%string
              | PrDomainReq rid d _ => ("{DOMAIN:" ++ rid ++ ":" ++ d ++ "}")%string
              | PrProcessReq rid p _ _ _ _ => ("{PROCESS:" ++ rid ++ ":" ++ p ++ "}")%string
              | PrEndpointStateReq _ _ _ _ => "{ENDPOINT_STATE}"
              end)
    ("linux", "6.1", "#1") ["aa:bb:cc:dd:ee:ff"] "".

(** A service with one OS check that never expires, and one whose OS check
    expires after thirty seconds. *)
Definition os_check (t : Z) : ziti_posture_query := mk_query "q-os" "OS" t None [].

Definition service_with (t : Z) : list (string * ziti_service) :=
  [("svc", mk_service "svc" [("policy-1", mk_query_set "policy-1" [os_check t])])].

(** A controller with a session token that reports instance [i]. *)
Definition logged_in (i : string) : ziti_controller :=
  set_instance_id (set_token sample_ctrl (Some "T")) (Some i).

(** A fully authenticated context right after [ziti_posture_init]. *)
Definition fresh_ztx (i : string) (svcs : list (string * ziti_service)) : ziti_ctx :=
  ziti_posture_init
    (mk_ztx (Some (mk_session (Some "s1"))) ZitiApiSessionStateFullyAuthenticated None
            (logged_in i) svcs (mk_opts None None None None) false).

Definition with_services (ztx : ziti_ctx) (svcs : list (string * ziti_service)) : ziti_ctx :=
  mk_ztx (ztx_api_session ztx) (api_session_state ztx) (ztx_posture_checks ztx)
         (controller ztx) svcs (opts ztx) (no_bulk_posture_response_api ztx).

Definition with_controller (ztx : ziti_ctx) (c : ziti_controller) : ziti_ctx :=
  mk_ztx (ztx_api_session ztx) (api_session_state ztx) (ztx_posture_checks ztx)
         c (services ztx) (opts ztx) (no_bulk_posture_response_api ztx).

(** The context a tick leaves, and what the tick sent. *)
Definition after_tick (ztx : ziti_ctx) : ziti_ctx :=
  match ziti_send_posture_data (P := sample_platform) ztx with
  | Some (ztx', _) => ztx'
  | None => ztx
  end.

Definition sent_by_tick (ztx : ziti_ctx) : option (list pr_effect) :=
  match ziti_send_posture_data (P := sample_platform) ztx with
  | Some (_, effs) => Some (List.filter is_sent effs)
  | None => None
  end.

(** The body of the OS probe on the sample platform. *)
Definition os_body : string := "{OS:q-os:linux:6.1:#1}".

(** The controller after a response whose [ziti-instance-id] header is [i]. *)
Definition observe_instance (c : ziti_controller) (i : string) : ziti_controller :=
  match ctrl_resp_cb (H := sample_host) (mk_http_resp 200 "OK" [("ziti-instance-id", i)]) c
                     (prepare_resp None None 0%nat) with
  | Some (c', _, _) => c'
  | None => c
  end.

(** The context after the bulk submission completed with [e]. *)
Definition after_bulk (e : option ziti_error) (ztx : ziti_ctx) : ziti_ctx :=
  fst (ziti_pr_post_bulk_cb (Some (mk_pr_response None)) e ztx).

(** The context after the per-item submission of [info] completed with [e]. *)
Definition after_post (e : option ziti_error) (info : pr_info) (ztx : ziti_ctx) : ziti_ctx :=
  match ziti_pr_post_cb None e info ztx with
  | Some (ztx', _) => ztx'
  | None => ztx
  end.

Definition server_error : ziti_error :=
  mk_error ZITI_WTF (Some "SERVER_ERROR") 500 (Some "Internal Server Error").

(** The requests of the two submission paths for the OS body. *)
Definition bulk_request : list effect :=
  [ERequest "POST" "/posture-response-bulk" On_ctrl_resp_cb
            [("Content-Type", "application/json")] (Some ("[" ++ os_body ++ "]")%string)].

Definition single_request : list effect :=
  [ERequest "POST" "/posture-response" On_ctrl_resp_cb
            [("Content-Type", "application/json")] (Some os_body)].

(** The cache entry of the OS probe once its body went out. *)
Definition os_entry (send : bool) : pr_info := mk_info "OS" (Some os_body) send false false.

(** The context and the request of [ziti_ctrl_get_services] for callback
    [7] and context [3], and a one-page answer. *)
Definition services_ctx : ctrl_resp :=
  set_limit (set_paging (prepare_resp (Some 7%nat) (Some parse_ziti_service_array) 3%nat)
                        "/services") 25.

Definition services_request : list effect :=
  [ERequest "GET" "/services?limit=25&offset=0" On_ctrl_resp_cb [] None].

Definition one_page : list http_event :=
  [HttpResp (mk_http_resp 200 "OK" [("Content-Length", "4")]);
   HttpBody "page" 4; HttpBody "" UV_EOF].

(** The same answer without a [Content-Length]. *)
Definition unframed_page : list http_event :=
  [HttpResp (mk_http_resp 200 "OK" []); HttpBody "page" 4; HttpBody "" UV_EOF].

(** Three items served two at a time. *)
Definition two_pages : list page_events :=
  [mk_page (mk_http_resp 200 "OK" [("Content-Length", "5")]) [("first", 5)];
   mk_page (mk_http_resp 200 "OK" [("transfer-encoding", "chunked")])
           [("sec", 3); ("ond", 3)]].

Definition paging_by_two : ziti_controller :=
  ziti_ctrl_set_page_size (logged_in "instance-1") 2.



(** A host whose server reports a total of no elements on a page that
    carries one, and a pagination whose offset and limit do not add up
    within an [int]. *)
Definition odd_host : Host :=
  mk_host (fun _ => "ziti context is disabled")
          (fun _ => "transport error")
          (fun b => if streq b "over" then
                      Some (mk_api_resp (mk_pagination 25 0 0) (Some "x") None)
                    else if streq b "wrap" then
                      Some (mk_api_resp (mk_pagination 2147483647 1 3) (Some "x") None)
                    else None)
          (fun _ => None)
          (fun _ => None)
          (fun _ d => Some d)
          (fun _ d => Some [d])
          (fun _ => "{}")
          (fun _ => "Dial")
          (fun _ => "ott").

Definition answer_of (b : string) : list http_event :=
  [HttpResp (mk_http_resp 200 "OK" [("Content-Length", "4")]);
   HttpBody b 4; HttpBody "" UV_EOF].

(** A text of [n] characters. *)
Fixpoint xs (n : nat) : string :=
  match n with
  | O => EmptyString
  | S n' => String "x"%char (xs n')
  end.

(** A controller with a redirect observer, an enrollment and a
    well-known-certs context, and an answer that carries a new controller
    address with a four-byte body. *)
Definition observed_ctrl : ziti_controller :=
  ziti_ctrl_set_redirect_cb sample_ctrl (Some 9%nat) 5%nat.

Definition enroll_ctx : ctrl_resp :=
  prepare_resp (Some 7%nat) (Some parse_ziti_enrollment_resp_ptr) 3%nat.

Definition certs_ctx : ctrl_resp :=
  set_resp_text_plain (prepare_resp (Some 7%nat) None 3%nat) true.

Definition rebind_headers : tlsuv_http_resp :=
  mk_http_resp 200 "OK"
    [("content-type", "application/x-pem-file"); ("Content-Length", "4");
     ("ziti-ctrl-address", "https://new.example")].

Definition rebind_answer : list http_event :=
  [HttpResp rebind_headers; HttpBody "CERT" 4; HttpBody "" UV_EOF].


Definition ok_headers : tlsuv_http_resp :=
  mk_http_resp 200 "OK" [("transfer-encoding", "chunked")].


(** Two services that name the same process, one through a [PROCESS]
    query and one through a [PROCESS_MULTI] query, each with an OS check;
    the probes they require. *)
Definition sh_check : ziti_posture_query :=
  mk_query "q-sh" "PROCESS" 30 (Some (mk_process "/bin/sh")) [].

Definition multi_check : ziti_posture_query :=
  mk_query "q-multi" "PROCESS_MULTI" 30 None [mk_process "/bin/sh"; mk_process "/bin/ls"].

Definition process_services : list (string * ziti_service) :=
  [("a", mk_service "a" [("policy-a", mk_query_set "policy-a" [sh_check; os_check 30])]);
   ("b", mk_service "b" [("policy-b", mk_query_set "policy-b" [multi_check; os_check (-1)])])].

Definition process_required : required :=
  mk_required None (Some (os_check (-1))) None
              [("/bin/sh", sh_check); ("/bin/ls", multi_check)].

(** What a tick emits. *)
Definition tick_effects (ztx : ziti_ctx) : list pr_effect :=
  match ziti_send_posture_data (P := sample_platform) ztx with
  | Some (_, effs) => effs
  | None => []
  end.

(** A context whose cache holds the OS reply of an earlier tick while its
    services now ask for a process check only. *)
Definition sh_services : list (string * ziti_service) :=
  [("a", mk_service "a" [("policy-a", mk_query_set "policy-a" [sh_check])])].

Definition stale_ztx : ziti_ctx :=
  with_services (after_tick (fresh_ztx "instance-1" (service_with (-1)))) sh_services.

(** A context with one flagged entry in its cache. *)
Definition flagged_pc : posture_checks :=
  mk_pc (Some "s1") (Some "instance-1") false false
        [("OS", os_entry true); ("DOMAIN", mk_info "DOMAIN" (Some "{DOMAIN}") false false false)] ∅.

Definition flagged_ztx : ziti_ctx :=
  set_posture_checks (fresh_ztx "instance-1" (service_with (-1))) (Some flagged_pc).





End Samples.

(** * Properties *)

Import Errors Ctrl Posture.

(** ** The error-code table *)

(** C3. [code_to_error] is a function on every code string, so total and
    deterministic: a null code gives [ZITI_OK]; each of the fourteen keys
    of the table gives the kind declared for it; every other string gives
    [ZITI_WTF], the unspecified kind. *)
Theorem code_to_error_table :
  code_to_error None = ZITI_OK
  /\ code_to_error (Some "NOT_FOUND") = ZITI_NOT_FOUND
  /\ code_to_error (Some "CONTROLLER_UNAVAILABLE") = ZITI_CONTROLLER_UNAVAILABLE
  /\ code_to_error (Some "NO_ROUTABLE_INGRESS_NODES") = ZITI_GATEWAY_UNAVAILABLE
  /\ code_to_error (Some "NO_EDGE_ROUTERS_AVAILABLE") = ZITI_GATEWAY_UNAVAILABLE
  /\ code_to_error (Some "INVALID_AUTHENTICATION") = ZITI_AUTHENTICATION_FAILED
  /\ code_to_error (Some "REQUIRES_CERT_AUTH") = ZITI_AUTHENTICATION_FAILED
  /\ code_to_error (Some "UNAUTHORIZED") = ZITI_AUTHENTICATION_FAILED
  /\ code_to_error (Some "INVALID_AUTH") = ZITI_AUTHENTICATION_FAILED
  /\ code_to_error (Some "INVALID_POSTURE") = ZITI_INVALID_POSTURE
  /\ code_to_error (Some "MFA_INVALID_TOKEN") = ZITI_MFA_INVALID_TOKEN
  /\ code_to_error (Some "MFA_EXISTS") = ZITI_MFA_EXISTS
  /\ code_to_error (Some "MFA_NOT_ENROLLED") = ZITI_MFA_NOT_ENROLLED
  /\ code_to_error (Some "INVALID_ENROLLMENT_TOKEN") = ZITI_JWT_INVALID
  /\ code_to_error (Some "COULD_NOT_VALIDATE") = ZITI_NOT_AUTHORIZED
  /\ (forall c : string, is_declared c = false -> code_to_error (Some c) = ZITI_WTF).
Proof.
  repeat (split; [reflexivity |]).
  intros c Hc. unfold is_declared, declared_codes in Hc. cbn [existsb] in Hc.
  repeat (apply orb_false_iff in Hc; destruct Hc as [?Hk Hc]).
  unfold code_to_error. now rewrite Hk, Hk0, Hk1, Hk2, Hk3, Hk4, Hk5, Hk6, Hk7, Hk8, Hk9, Hk10, Hk11, Hk12.
Qed.

Lemma code_to_error_table_witness :
  is_declared "I_AM_A_TEAPOT" = false /\ code_to_error (Some "I_AM_A_TEAPOT") = ZITI_WTF.
Proof.
  split; [reflexivity |].
  apply code_to_error_table. reflexivity.
Defined.

(** ** The session-token gate *)

Lemma with_session_no_token `{H : Host} c cb x k :
  api_session_token c = None ->
  with_session c (Some cb) x k
  = Some (None, [ECall cb None (Some no_api_session_error) (ArgCtx x)]).
Proof.
  intros Htok. unfold with_session, verify_api_session. now rewrite Htok.
Qed.

Lemma with_session_token `{H : Host} c cb x k t :
  api_session_token c = Some t ->
  with_session c cb x k = Some (Some (fst k), snd k).
Proof.
  intros Htok. unfold with_session, verify_api_session. now rewrite Htok.
Qed.

(** C2, as the code has it. An operation other than version, login, enroll
    and well-known-certs that is invoked without an API session token calls
    its callback once, before it returns, with an [AUTH_FAILED] error of
    code [UNAUTHORIZED] and message "no api session token set for
    ziti_controller"; it creates no response context and starts no
    request. *)
Theorem session_gate :
  forall (H : Host) (c : ziti_controller) (op : ctrl_op) (cb : callback) (x : user_ctx),
    pre_session op = false ->
    api_session_token c = None ->
    invoke c op (Some cb) x
    = Some (None,
            [ECall cb None
                   (Some (mk_error ZITI_AUTHENTICATION_FAILED (Some "UNAUTHORIZED") 0
                                   (Some "no api session token set for ziti_controller")))
                   (ArgCtx x)]).
Proof.
  intros H c op cb x Hpre Htok.
  destruct op; try discriminate Hpre; cbn [invoke];
    match goal with
    | |- ?f = _ => let h := get_head f in unfold h
    end;
    first [ now rewrite with_session_no_token
          | unfold verify_api_session; now rewrite Htok ].
Qed.

Lemma session_gate_witness :
  invoke (H := Samples.sample_host) Samples.sample_ctrl OpLogout (Some 1%nat) 2%nat
  = Some (None,
          [ECall 1%nat None
                 (Some (mk_error ZITI_AUTHENTICATION_FAILED (Some "UNAUTHORIZED") 0
                                 (Some "no api session token set for ziti_controller")))
                 (ArgCtx 2%nat)]).
Proof.
  apply (session_gate Samples.sample_host Samples.sample_ctrl OpLogout 1%nat 2%nat);
    reflexivity.
Defined.

(** C2, as the specification words it, fails: the message the callback
    receives is not "no api session token set". *)
Lemma session_gate_message_differs :
  ~ (forall (H : Host) (c : ziti_controller) (op : ctrl_op) (cb : callback) (x : user_ctx),
        pre_session op = false ->
        api_session_token c = None ->
        exists e : ziti_error,
          invoke c op (Some cb) x = Some (None, [ECall cb None (Some e) (ArgCtx x)])
          /\ err e = ZITI_AUTHENTICATION_FAILED
          /\ message e = Some "no api session token set").
Proof.
  intros Hall.
  destruct (Hall Samples.sample_host Samples.sample_ctrl OpCurrentIdentity 1%nat 2%nat
                 eq_refl eq_refl) as (e & Hrun & _ & Hmsg).
  cbv in Hrun. inversion Hrun; subst e. discriminate Hmsg.
Qed.

(** ** Timed queries of a service *)

Lemma has_query_loop_spec (m : list (string * ziti_posture_query_set)) :
  if fst (has_query_loop m)
  then exists pre k s post,
         m = (pre ++ (k, s) :: post)%list
         /\ Forall (fun kv => set_has_timeout (posture_queries (snd kv)) = false) pre
         /\ set_has_timeout (posture_queries s) = true
         /\ snd (has_query_loop m) = (k, s) :: post
  else Forall (fun kv => set_has_timeout (posture_queries (snd kv)) = false) m
       /\ snd (has_query_loop m) = [].
Proof.
  induction m as [| [k s] m IH]; cbn [has_query_loop].
  - cbn. split; [constructor | reflexivity].
  - destruct (set_has_timeout (posture_queries s)) eqn:Hs; cbn [fst snd].
    + exists [], k, s, m. repeat split; auto.
    + destruct (fst (has_query_loop m)) eqn:Hm.
      * destruct IH as (pre & k' & s' & post & -> & Hpre & Hs' & Hrest).
        exists ((k, s) :: pre), k', s', post. repeat split; auto.
      * destruct IH as [Hall Hrest]. split; auto.
Qed.

Lemma set_has_timeout_spec (qs : list ziti_posture_query) :
  set_has_timeout qs = existsb (fun q => negb (timeout q =? NO_TIMEOUTS)) qs.
Proof.
  induction qs as [| q qs IH]; cbn; [reflexivity |].
  destruct (timeout q =? NO_TIMEOUTS); cbn; auto.
Qed.

(** C10. [ziti_service_has_query_with_timeout] takes out of the service's
    [posture_query_map] every query set it has gone through without
    finding a timed query. It answers [true] at the first set that holds a
    query whose timeout is not [-1]: the sets before it are gone, that set
    and the ones after it stay. When it answers [false] no set holds such a
    query and the map is left empty. *)
Theorem has_query_with_timeout_drains (s : ziti_service) :
  let r := ziti_service_has_query_with_timeout s in
  name (snd r) = name s
  /\ if fst r
     then exists pre k qs post,
            posture_query_map s = (pre ++ (k, qs) :: post)%list
            /\ Forall (fun kv => Forall (fun q => timeout q = -1) (posture_queries (snd kv))) pre
            /\ Exists (fun q => timeout q <> -1) (posture_queries qs)
            /\ posture_query_map (snd r) = (k, qs) :: post
     else Forall (fun kv => Forall (fun q => timeout q = -1) (posture_queries (snd kv)))
                 (posture_query_map s)
          /\ posture_query_map (snd r) = [].
Proof.
  assert (Hno : forall qs, set_has_timeout qs = false -> Forall (fun q => timeout q = -1) qs).
  { intros qs Hqs. rewrite set_has_timeout_spec in Hqs.
    apply List.Forall_forall. intros q Hq.
    destruct (Z.eqb_spec (timeout q) NO_TIMEOUTS) as [Heq | Hne]; [exact Heq |].
    assert (existsb (fun q => negb (timeout q =? NO_TIMEOUTS)) qs = true) as Hex.
    { apply existsb_exists. exists q. split; [exact Hq |].
      now apply negb_true_iff, Z.eqb_neq. }
    congruence. }
  assert (Hyes : forall qs, set_has_timeout qs = true -> Exists (fun q => timeout q <> -1) qs).
  { intros qs Hqs. rewrite set_has_timeout_spec in Hqs.
    apply existsb_exists in Hqs as (q & Hq & Ht).
    apply List.Exists_exists. exists q. split; [exact Hq |].
    now apply negb_true_iff, Z.eqb_neq in Ht. }
  unfold ziti_service_has_query_with_timeout.
  pose proof (has_query_loop_spec (posture_query_map s)) as Hloop.
  destruct (has_query_loop (posture_query_map s)) as [b m]. cbn [fst snd] in *.
  split; [reflexivity |]. cbn [posture_query_map].
  destruct b.
  - destruct Hloop as (pre & k & qs & post & Hm & Hpre & Hqs & Hrest).
    exists pre, k, qs, post. repeat split; auto.
    eapply List.Forall_impl; [| exact Hpre]. cbn. auto.
  - destruct Hloop as [Hall Hrest]. split; auto.
    eapply List.Forall_impl; [| exact Hall]. cbn. auto.
Qed.

(** ** The send-every-time flag *)

Section TickFlag.
Context {P : Platform}.















End TickFlag.




(** ** The must-send flag *)

Section TickMust.
Context {P : Platform}.

Lemma must_upd_responses ztx f :
  must (upd_pc ztx (fun pc => set_responses pc (f pc))) = must ztx.
Proof. unfold must, upd_pc. cbn. now destruct (ztx_posture_checks ztx). Qed.

Lemma must_get_resp_info ztx k :
  must (upd_pc ztx (fun pc => get_resp_info pc k)) = must ztx.
Proof.
  unfold must, upd_pc. cbn. destruct (ztx_posture_checks ztx) as [pc |]; [| reflexivity].
  cbn. unfold get_resp_info. now destruct (map_get (responses pc) k).
Qed.

Lemma must_collect ztx k o : must (ziti_collect_pr ztx k o) = must ztx.
Proof.
  unfold ziti_collect_pr, must.
  destruct (ztx_posture_checks ztx) as [pc |] eqn:Hpc; [| now rewrite Hpc].
  destruct (map_get (responses pc) k); cbn; [reflexivity | now rewrite Hpc].
Qed.

Lemma probe_domain_keeps_must q : keeps_must (probe_domain q).
Proof.
  intros ztx. unfold probe_domain, ziti_pr_handle_domain.
  destruct (pq_domain_cb (opts ztx)) as [f |]; [destruct (f (query_id q)) |];
    cbn [fst]; auto using must_collect.
Qed.

Lemma probe_mac_keeps_must q : keeps_must (probe_mac q).
Proof.
  intros ztx. unfold probe_mac, ziti_pr_handle_mac.
  destruct (pq_mac_cb (opts ztx)) as [f |]; [destruct (f (query_id q)) |];
    cbn [fst]; auto using must_collect.
Qed.

Lemma probe_os_keeps_must q : keeps_must (probe_os q).
Proof.
  intros ztx. unfold probe_os, ziti_pr_handle_os.
  destruct (pq_os_cb (opts ztx)) as [f |];
    [destruct (f (query_id q)) as [[[? ?] ?] |] | destruct host_os as [[? ?] ?]];
    cbn [fst]; auto using must_collect.
Qed.

Lemma probe_process_keeps_must p q : keeps_must (probe_process p q).
Proof.
  intros ztx. unfold probe_process, ziti_pr_handle_process.
  destruct (pq_process_cb (opts ztx)) as [f |];
    [destruct (f (query_id q) p) as [[[? ?] ?] |] |];
    cbn [fst]; auto using must_collect.
Qed.

Lemma must_require_probe ztx k q probe :
  keeps_must probe -> must (fst (require_probe ztx k q probe)) = must ztx.
Proof.
  intros Hkeeps. unfold require_probe.
  set (ztx1 := if timeout q =? NO_TIMEOUTS then _ else ztx).
  assert (Hmust1 : must ztx1 = must ztx).
  { subst ztx1. unfold must, upd_pc.
    destruct (timeout q =? NO_TIMEOUTS); cbn; [| reflexivity].
    now destruct (ztx_posture_checks ztx). }
  match goal with
  | |- must (fst (if ?c then _ else _)) = _ => destruct c
  end; cbn [fst].
  - now rewrite must_upd_responses, must_get_resp_info.
  - now rewrite Hkeeps, !must_upd_responses, must_get_resp_info.
Qed.

Lemma must_require_opt ztx k q probe :
  (forall q', keeps_must (probe q')) -> must (fst (require_opt ztx k q probe)) = must ztx.
Proof.
  intros Hkeeps. destruct q as [q |]; cbn [require_opt fst]; [| reflexivity].
  now apply must_require_probe.
Qed.

Lemma must_require_processes l : forall ztx,
  must (fst (require_processes ztx l)) = must ztx.
Proof.
  induction l as [| [p q] l IH]; intros ztx; cbn [require_processes]; [reflexivity |].
  pose proof (must_require_probe ztx p q _ (probe_process_keeps_must p q)) as H1.
  destruct (require_probe ztx p q (probe_process p q)) as [ztx1 e1]. cbn [fst] in H1.
  specialize (IH ztx1). destruct (require_processes ztx1 l) as [ztx2 e2]. cbn [fst] in *.
  now rewrite IH.
Qed.

Lemma send_each_must l : forall ztx pc,
  ztx_posture_checks ztx = Some pc ->
  exists ztx' effs, send_each l ztx = Some (ztx', effs) /\ must ztx' = must ztx.
Proof.
  induction l as [| [k info] l IH]; intros ztx pc Hpc; cbn [send_each].
  - exists ztx, []. split; reflexivity.
  - destruct (should_send info); [| eauto].
    unfold ziti_pr_post, with_session, verify_api_session.
    destruct (api_session_token (controller ztx)); cbn [submit fst snd].
    + edestruct (IH (upd_pc ztx (fun pc =>
                set_responses pc (map_update (responses pc) k (fun i => set_should_send i false)))))
        as (ztx' & effs & Hrun & Hmust).
      { unfold upd_pc. cbn. rewrite Hpc. reflexivity. }
      rewrite Hrun. eexists _, _. split; [reflexivity |].
      now rewrite Hmust, must_upd_responses.
    + unfold ziti_pr_post_cb. rewrite Hpc. cbn [no_api_session_error].
      edestruct (IH (upd_pc (set_posture_checks ztx (Some (ziti_pr_set_info_errored pc (id info))))
                            (fun pc => set_responses pc
                               (map_update (responses pc) k (fun i => set_should_send i false)))))
        as (ztx' & effs & Hrun & Hmust).
      { unfold upd_pc. cbn. reflexivity. }
      rewrite Hrun. eexists _, _. split; [reflexivity |].
      rewrite Hmust, must_upd_responses. unfold must. cbn. now rewrite Hpc.
Qed.

(** Handing the batch to the transport leaves [must_send] set. *)
Lemma pr_send_must ztx pc :
  ztx_posture_checks ztx = Some pc ->
  must_send pc = true ->
  exists ztx' effs, ziti_pr_send ztx = Some (ztx', effs) /\ must ztx' = Some true.
Proof.
  intros Hpc Hmust. unfold ziti_pr_send, ziti_pr_send_individually.
  destruct (no_bulk_posture_response_api ztx).
  - rewrite Hpc. destruct (send_each_must (responses pc) ztx pc Hpc)
      as (ztx' & effs & Hrun & Hm).
    exists ztx', effs. split; [exact Hrun |]. rewrite Hm. unfold must. now rewrite Hpc, <- Hmust.
  - unfold ziti_pr_send_bulk. rewrite Hpc.
    destruct (negb (existsb _ (responses pc))).
    + exists ztx, []. split; [reflexivity |]. unfold must. now rewrite Hpc, <- Hmust.
    + cbn [controller set_posture_checks].
      unfold ziti_pr_post_bulk, with_session, verify_api_session.
      destruct (api_session_token (controller ztx)); cbn [submit fst snd].
      * eexists _, _. split; [reflexivity |]. unfold must. cbn. now rewrite Hmust.
      * unfold ziti_pr_post_bulk_cb. cbn. eexists _, _. split; [reflexivity |]. reflexivity.
Qed.

(** A tick that finds the controller's instance id different from the one
    it recorded sets [must_send], and the flag is still set when the tick
    returns. *)
Lemma new_instance_sets_must_send (ztx : ziti_ctx) (pc : posture_checks) (req : required) :
  tick_runs ztx = true ->
  ztx_posture_checks ztx = Some pc ->
  new_controller_instance (controller_instance_id pc) (instance_id (controller ztx))
  = Some true ->
  note_services (mk_required None None None []) (services ztx) = Some req ->
  exists ztx' effs,
    ziti_send_posture_data ztx = Some (ztx', effs) /\ must ztx' = Some true.
Proof.
  intros Hrun Hpc Hinst Hreq.
  unfold tick_runs in Hrun. unfold ziti_send_posture_data.
  destruct (ztx_api_session ztx) as [ses |]; [| discriminate Hrun].
  destruct (as_id ses) as [sid |]; [| discriminate Hrun].
  destruct (api_session_state ztx); try discriminate Hrun.
  rewrite Hpc, Hinst, Hreq. rewrite orb_true_r.
  match goal with
  | |- context [set_posture_checks ztx (Some ?pc1)] =>
    set (ztx0 := set_posture_checks ztx (Some pc1));
      assert (Hmust0 : must ztx0 = Some true) by reflexivity
  end.
  pose proof (must_require_opt ztx0 PC_DOMAIN_TYPE (domainInfo req) _ probe_domain_keeps_must) as H1.
  destruct (require_opt ztx0 PC_DOMAIN_TYPE (domainInfo req) probe_domain) as [ztx1 e1].
  pose proof (must_require_opt ztx1 PC_MAC_TYPE (macInfo req) _ probe_mac_keeps_must) as H2.
  destruct (require_opt ztx1 PC_MAC_TYPE (macInfo req) probe_mac) as [ztx2 e2].
  pose proof (must_require_opt ztx2 PC_OS_TYPE (osInfo req) _ probe_os_keeps_must) as H3.
  destruct (require_opt ztx2 PC_OS_TYPE (osInfo req) probe_os) as [ztx3 e3].
  pose proof (must_require_processes (procs req) ztx3) as H4.
  destruct (require_processes ztx3 (procs req)) as [ztx4 e4].
  cbn [fst] in *.
  set (ztx5 := upd_pc ztx4 _).
  assert (Hmust5 : must ztx5 = Some true).
  { subst ztx5. now rewrite must_upd_responses, H4, H3, H2, H1. }
  destruct (ztx_posture_checks ztx5) as [pc5 |] eqn:Hpc5;
    [| unfold must in Hmust5; rewrite Hpc5 in Hmust5; discriminate].
  assert (Hm5 : must_send pc5 = true).
  { unfold must in Hmust5. rewrite Hpc5 in Hmust5. now inversion Hmust5. }
  destruct (pr_send_must ztx5 pc5 Hpc5 Hm5) as (ztx' & e5 & Hsend & Hmust').
  rewrite Hsend. eexists _, _. split; [reflexivity | exact Hmust'].
Qed.

End TickMust.

(** ** Resubmission *)

(** The reply of a probe: [should_send] is the send-every-time flag, or the
    error state of the id, or a change of the body; [must_send] has no part
    in it. *)
Lemma collect_entry_should_send (pc : posture_checks) (o : string) (i : pr_info) :
  should_send (collect_entry pc o i)
  = (must_send_every_time pc || ziti_pr_is_info_errored pc (id i)
     || match obj i with None => true | Some old => negb (streq old o) end)%bool.
Proof.
  unfold collect_entry. cbn. now destruct (obj i) as [old |]; [destruct (streq old o) |].
Qed.

(** A per-item submission that ended in error marks the id; a bulk
    submission that ended in error marks nothing. *)
Lemma post_cb_error_marks r e info ztx pc :
  ztx_posture_checks ztx = Some pc ->
  exists ztx' effs pc',
    ziti_pr_post_cb r (Some e) info ztx = Some (ztx', effs)
    /\ ztx_posture_checks ztx' = Some pc'
    /\ ziti_pr_is_info_errored pc' (id info) = true.
Proof.
  intros Hpc. unfold ziti_pr_post_cb. rewrite Hpc.
  eexists _, _, _. split; [reflexivity |]. split; [reflexivity |].
  unfold ziti_pr_is_info_errored, ziti_pr_set_info_errored. cbn.
  now rewrite lookup_insert_eq.
Qed.

Lemma post_bulk_cb_error_marks_nothing r e ztx pc :
  ztx_posture_checks ztx = Some pc ->
  (error_states <$> ztx_posture_checks (fst (ziti_pr_post_bulk_cb r (Some e) ztx)))
  = Some (error_states pc)
  /\ must (fst (ziti_pr_post_bulk_cb r (Some e) ztx)) = Some true.
Proof.
  intros Hpc. unfold ziti_pr_post_bulk_cb, must. rewrite Hpc. cbn [fst].
  destruct (http_code e =? 404); split; reflexivity.
Qed.

(** C7, on the code. The tick after a change of the controller's instance
    id sets [must_send], yet sends nothing when no body changed: the first
    tick submits the OS body in bulk, the controller answers, then reports
    a new instance id, and the second tick records the new id, sets
    [must_send] to [true] and leaves the unchanged body in the cache
    unsent. *)
Theorem restart_sets_must_send_only :
  let ztx1 := Samples.fresh_ztx "instance-1" (Samples.service_with (-1)) in
  let ztx2 := Samples.after_bulk None (Samples.after_tick ztx1) in
  let ztx3 := Samples.with_controller ztx2
                (Samples.observe_instance (controller ztx2) "instance-2") in
  let ztx4 := Samples.after_tick ztx3 in
  Samples.sent_by_tick ztx1 = Some [PSent Samples.bulk_request BulkCb]
  /\ (controller_instance_id <$> ztx_posture_checks ztx3) = Some (Some "instance-1")
  /\ instance_id (controller ztx3) = Some "instance-2"
  /\ (controller_instance_id <$> ztx_posture_checks ztx4) = Some (Some "instance-2")
  /\ (must_send <$> ztx_posture_checks ztx4) = Some true
  /\ (responses <$> ztx_posture_checks ztx4) = Some [("OS", Samples.os_entry false)]
  /\ ziti_send_posture_data (P := Samples.sample_platform) ztx3 = Some (ztx4, []).
Proof. vm_compute. repeat split. Qed.

(** C9, on the code. After a bulk submission that ended in error the
    callback sets [must_send] and nothing else, and the next tick does not
    send the unchanged body again; after a per-item submission that ended
    in error the id's error state is set and the next tick sends the
    unchanged body again. *)
Theorem bulk_failure_not_retried :
  let ztx1 := Samples.fresh_ztx "instance-1" (Samples.service_with (-1)) in
  let ztx2 := Samples.after_bulk (Some Samples.server_error) (Samples.after_tick ztx1) in
  let ztx1' := set_no_bulk ztx1 true in
  let ztx2' := Samples.after_post (Some Samples.server_error) (Samples.os_entry true)
                                  (Samples.after_tick ztx1') in
  Samples.sent_by_tick ztx1 = Some [PSent Samples.bulk_request BulkCb]
  /\ (must_send <$> ztx_posture_checks ztx2) = Some true
  /\ (responses <$> ztx_posture_checks ztx2) = Some [("OS", Samples.os_entry false)]
  /\ ziti_send_posture_data (P := Samples.sample_platform) ztx2
     = Some (Samples.after_tick ztx2, [])
  /\ (responses <$> ztx_posture_checks (Samples.after_tick ztx2))
     = Some [("OS", Samples.os_entry false)]
  /\ Samples.sent_by_tick ztx1'
     = Some [PSent Samples.single_request (PostCb (Samples.os_entry true))]
  /\ Samples.sent_by_tick ztx2'
     = Some [PSent Samples.single_request (PostCb (Samples.os_entry true))].
Proof. vm_compute. repeat split. Qed.

(** ** One terminal callback per response context *)

Section Terminal.
Context {H : Host}.

Lemma default_cb_calls s e c resp cb :
  resp_cb resp = Some cb ->
  exists c' effs,
    ctrl_default_cb s e c resp = Some (c', None, effs)
    /\ calls effs = [ECall cb s e (ArgCtx (ctx resp))]
    /\ started effs = None.
Proof.
  intros Hcb. unfold ctrl_default_cb. rewrite Hcb.
  destruct (new_address resp) as [a |]; [destruct (negb (streq a (url c))) |];
    try (eexists _, _; repeat split; reflexivity).
  destruct (redirect_cb c); eexists _, _; repeat split; reflexivity.
Qed.

Lemma ctrl_cb_calls k obj e c resp cb :
  obj_fits k obj = true ->
  resp_cb resp = Some cb ->
  exists c' oresp effs obj',
    call_ctrl_cb k obj e c resp = Some (c', oresp, effs)
    /\ calls effs = [ECall cb obj' e (ArgCtx (ctx resp))]
    /\ started effs = None.
Proof.
  intros Hfit Hcb.
  destruct k; cbn [call_ctrl_cb].
  - destruct (default_cb_calls obj e c resp cb Hcb) as (c' & effs & -> & ? & ?).
    eexists _, _, _, _; eauto.
  - unfold ctrl_version_cb. destruct obj as [[] |]; try discriminate Hfit;
      match goal with
      | |- context [ctrl_default_cb ?o e ?c1 resp] =>
        destruct (default_cb_calls o e c1 resp cb Hcb) as (c' & effs & -> & ? & ?)
      end; eexists _, _, _, _; eauto.
  - unfold ctrl_login_cb. destruct obj as [[] |]; try discriminate Hfit;
      match goal with
      | |- context [ctrl_default_cb ?o e ?c1 resp] =>
        destruct (default_cb_calls o e c1 resp cb Hcb) as (c' & effs & -> & ? & ?)
      end; eexists _, _, _, _; eauto.
  - unfold ctrl_logout_cb.
    match goal with
    | |- context [ctrl_default_cb ?o e ?c1 resp] =>
      destruct (default_cb_calls o e c1 resp cb Hcb) as (c' & effs & -> & ? & ?)
    end; eexists _, _, _, _; eauto.
  - unfold ctrl_service_cb. destruct obj as [[] |]; try discriminate Hfit;
      match goal with
      | |- context [ctrl_default_cb ?o e ?c1 resp] =>
        destruct (default_cb_calls o e c1 resp cb Hcb) as (c' & effs & -> & ? & ?)
      end; eexists _, _, _, _; eauto.
  - unfold enroll_pem_cb. rewrite Hcb.
    eexists _, _, _, _. repeat split.
Qed.

(** The buffer set up for the body leaves the rest of the context. *)
Lemma alloc_body_in_flight hs resp resp' cb :
  alloc_body hs resp = Some resp' ->
  in_flight cb resp ->
  in_flight cb resp' /\ ctx resp' = ctx resp.
Proof.
  intros Ha [Hok Hcb]. unfold alloc_body in Ha.
  destruct (find_header hs "Content-Length") as [hv |].
  - destruct (atol hv) as [n |]; [| discriminate].
    destruct (n + 1 <=? LONG_MAX); [| discriminate].
    injection Ha as <-. destruct resp; repeat split; assumption.
  - destruct (find_header hs "transfer-encoding") as [hv |];
      [destruct (streq hv "chunked") |];
      injection Ha as <-; destruct resp; repeat split; assumption.
Qed.

(** The headers of an answer: where the step is defined, the context
    stays in flight and nobody is called. *)
Lemma resp_headers_step k r c resp cb c' oresp effs :
  (resp_code r <? 0) = false ->
  in_flight cb resp ->
  call_http_cb k r c resp = Some (c', oresp, effs) ->
  exists resp', oresp = Some resp' /\ effs = [] /\ in_flight cb resp'.
Proof.
  intros Hcode [Hok Hcb].
  assert (Hresp : forall resp0, in_flight cb resp0 ->
            ctrl_resp_cb r c resp0 = Some (c', oresp, effs) ->
            exists resp', oresp = Some resp' /\ effs = [] /\ in_flight cb resp').
  { intros resp0 Hfl0 Hrun. unfold ctrl_resp_cb in Hrun. rewrite Hcode in Hrun.
    destruct (alloc_body (resp_headers r) (set_status resp0 (resp_code r)))
      as [resp1 |] eqn:Ha; [| discriminate].
    apply alloc_body_in_flight with (cb := cb) in Ha as [[Hok1 Hcb1] _];
      [| destruct Hfl0; destruct resp0; split; assumption].
    inversion Hrun; subst. eexists. split; [reflexivity |]. split; [reflexivity |].
    destruct (find_header (resp_headers r) "ziti-ctrl-address");
      destruct resp1; split; assumption. }
  destruct k; cbn [call_http_cb].
  - apply Hresp. now split.
  - unfold ctrl_enroll_http_cb. rewrite Hcode.
    destruct (find_header (resp_headers r) "content-type") as [ct |];
      [destruct (strcaseeq "application/x-pem-file" ct) |]; apply Hresp; try now split.
    unfold in_flight, resp_ok in *. apply andb_true_iff in Hok as [Hpg _].
    destruct resp; cbn in *. rewrite Hpg. split; [reflexivity | assumption].
Qed.

Lemma resp_failure_step k r c resp cb :
  (resp_code r <? 0) = true ->
  resp_cb resp = Some cb ->
  exists c' effs,
    call_http_cb k r c resp = Some (c', None, effs)
    /\ calls effs = [ECall cb None (Some (resp_failure (resp_code r))) (ArgCtx (ctx resp))]
    /\ started effs = None.
Proof.
  intros Hcode Hcb.
  assert (Hresp : exists c' effs,
             ctrl_resp_cb r c resp = Some (c', None, effs)
             /\ calls effs = [ECall cb None (Some (resp_failure (resp_code r))) (ArgCtx (ctx resp))]
             /\ started effs = None).
  { unfold ctrl_resp_cb. rewrite Hcode.
    assert (Hcb2 : resp_cb (set_status resp (resp_code r)) = Some cb)
      by (destruct resp; exact Hcb).
    destruct (default_cb_calls None (Some (resp_failure (resp_code r))) c
                (set_status resp (resp_code r)) cb Hcb2) as (c' & effs & Hrun & Hcalls & Hst).
    rewrite Hrun. exists c', effs. repeat split; auto. }
  destruct k; cbn [call_http_cb]; [exact Hresp |].
  unfold ctrl_enroll_http_cb. now rewrite Hcode.
Qed.

Lemma body_failure_step r b len c resp cb :
  (0 <? len) = false ->
  (len =? UV_EOF) = false ->
  resp_cb resp = Some cb ->
  ctrl_body_cb r b len c resp
  = Some (c, Some (free_body resp),
          [ECall cb None (Some (body_failure len)) (ArgResp (free_body resp))]).
Proof.
  intros Hpos Heof Hcb. unfold ctrl_body_cb. now rewrite Hpos, Heof, Hcb.
Qed.

Lemma body_data_step r b len c resp cb c' oresp effs :
  (0 <? len) = true ->
  in_flight cb resp ->
  ctrl_body_cb r b len c resp = Some (c', oresp, effs) ->
  exists resp', oresp = Some resp' /\ effs = [] /\ in_flight cb resp'.
Proof.
  intros Hpos [Hok Hcb] Hrun. unfold ctrl_body_cb in Hrun. rewrite Hpos in Hrun.
  destruct (resp_chunked resp);
    [| destruct (body_cap resp) as [n |];
       [destruct (received resp + len <=? n) |]; try discriminate Hrun];
    inversion Hrun; subst; eexists; (split; [reflexivity |]);
    (split; [reflexivity |]); destruct resp; split; assumption.
Qed.

Lemma delivered_eof r b obj e :
  delivered_as (terminal_kind_of (HttpBody b UV_EOF) (remap_error r e)) r obj (remap_error r e).
Proof.
  unfold terminal_kind_of. rewrite Z.eqb_refl.
  destruct e as [e |]; cbn; [| reflexivity].
  eexists. repeat split.
Qed.

(** The array grown for a page leaves the rest of the context. *)
Lemma grow_array_in_flight t resp resp' cb :
  grow_array t resp = Some resp' ->
  in_flight cb resp ->
  in_flight cb resp' /\ ctx resp' = ctx resp /\ ctrl_cb resp' = ctrl_cb resp.
Proof.
  intros Hg [Hok Hcb]. unfold grow_array in Hg.
  destruct (total resp <? to_uint t); cbn in Hg.
  - destruct (to_uint (to_uint t + 1) =? 0); try discriminate Hg; injection Hg as <-;
      destruct resp; repeat split; assumption.
  - destruct (resp_array_cap resp) as [cap |]; [destruct (cap =? 0) |];
      try discriminate Hg; injection Hg as <-; try (repeat split; [assumption ..]);
      destruct resp; repeat split; assumption.
Qed.

(** The end of a body, where the step is defined: the completion routine
    runs and calls back once, or the context asks for its next page and
    calls nobody. *)
Lemma body_eof_step r b c resp cb c' oresp effs :
  in_flight cb resp ->
  ctrl_body_cb r b UV_EOF c resp = Some (c', oresp, effs) ->
  (exists obj e,
      calls effs = [ECall cb obj (remap_error r e) (ArgCtx (ctx resp))]
      /\ started effs = None)
  \/ (exists resp',
         oresp = Some resp'
         /\ calls effs = [] /\ started effs = Some On_ctrl_resp_cb
         /\ in_flight cb resp').
Proof.
  intros [Hok Hcb].
  assert (Hfinish : forall resp1 obj e,
             resp_cb resp1 = Some cb -> ctx resp1 = ctx resp ->
             obj_fits (ctrl_cb resp1) obj = true ->
             call_ctrl_cb (ctrl_cb resp1) obj (remap_error r e) c (free_body resp1)
             = Some (c', oresp, effs) ->
             exists obj' e',
               calls effs = [ECall cb obj' (remap_error r e') (ArgCtx (ctx resp))]
               /\ started effs = None).
  { intros resp1 obj e Hcb1 Hctx Hfit Hrun.
    assert (Hcb2 : resp_cb (free_body resp1) = Some cb) by (destruct resp1; exact Hcb1).
    destruct (ctrl_cb_calls (ctrl_cb resp1) obj (remap_error r e) c (free_body resp1) cb
                            Hfit Hcb2)
      as (c1 & oresp1 & effs1 & obj' & Hrun1 & Hcalls & Hst).
    rewrite Hrun1 in Hrun. inversion Hrun; subst.
    exists obj', e. repeat split; auto.
    rewrite Hcalls. destruct resp1; cbn in *. now rewrite Hctx. }
  unfold ctrl_body_cb. change (0 <? UV_EOF) with false. rewrite Z.eqb_refl. cbv zeta.
  unfold resp_ok in Hok. apply andb_true_iff in Hok as [Hpg Hk].
  destruct (resp_text_plain resp && (status resp <? 300))%bool eqn:Htext.
  { intros Hrun. left. revert Hrun. apply Hfinish; auto.
    apply andb_true_iff in Htext as [Htp _]. rewrite Htp in Hk.
    destruct (ctrl_cb resp); cbn in *; auto; discriminate. }
  destruct (parse_api_resp (body resp)) as [cr |];
    [| intros Hrun; left; revert Hrun; apply Hfinish; auto].
  destruct (body_parse_func resp) as [p |] eqn:Hp;
    [| intros Hrun; left; revert Hrun; apply Hfinish; auto].
  destruct (cr_data cr) as [d |];
    [| intros Hrun; left; revert Hrun; apply Hfinish; auto].
  destruct (run_parser p d) as [obj |] eqn:Hobj;
    [| intros Hrun; left; revert Hrun; apply Hfinish; auto].
  destruct (paging resp) eqn:Hpaging.
  - (* a page *)
    assert (exists l, obj = ObjArray l) as [l ->].
    { unfold run_parser in Hobj. rewrite Hpg in Hobj.
      destruct p; try discriminate Hpg; cbn in Hobj;
        destruct (parse_array _ d); inversion Hobj; eauto. }
    destruct (negb ((INT_MIN <=? _) && _)); [intros Hrun; discriminate Hrun |].
    destruct (grow_array (pg_total (cr_meta cr)) resp) as [resp1 |] eqn:Hg;
      [| intros Hrun; discriminate Hrun].
    destruct (grow_array_in_flight _ _ _ cb Hg) as ([Hok1 Hcb1] & Hctx1 & Hk1);
      [split; [| exact Hcb]; unfold resp_ok; rewrite Hpaging, Hp;
       apply andb_true_iff; split; assumption |].
    destruct (negb (fits resp1 (length l))); [intros Hrun; discriminate Hrun |].
    destruct (negb (pg_total (cr_meta cr) <=? pg_offset (cr_meta cr) + pg_limit (cr_meta cr))).
    + intros Hrun. right. unfold ctrl_paging_req in Hrun.
      inversion Hrun; subst. eexists. split; [reflexivity |]. repeat split.
      * match goal with
        | |- context [if ?a =? 0 then set_limit _ _ else _] => destruct (a =? 0)
        end; destruct resp1; exact Hok1.
      * match goal with
        | |- context [if ?a =? 0 then set_limit _ _ else _] => destruct (a =? 0)
        end; destruct resp1; exact Hcb1.
    + intros Hrun. left. revert Hrun. apply Hfinish.
      * destruct resp1; exact Hcb1.
      * destruct resp1; exact Hctx1.
      * assert (Hkk : ctrl_cb (free_body (set_received
                  (set_recd_array resp1
                     (to_uint (recd resp1 + Z.of_nat (length l)))
                     (resp_array resp1 ++ l)%list) 0)) = ctrl_cb resp)
          by (destruct resp1; exact Hk1).
        rewrite Hkk.
        destruct (ctrl_cb resp); cbn in *; auto;
          rewrite ?andb_false_r in Hk; cbn in Hk; try discriminate.
  - intros Hrun. left. revert Hrun. apply Hfinish; auto.
    unfold run_parser in Hobj.
    destruct (ctrl_cb resp); cbn in *; auto;
      destruct (resp_text_plain resp); cbn in Hk; try discriminate;
      destruct p; try discriminate Hk; cbn in Hobj;
      match type of Hobj with
      | _ <$> ?x = Some _ => destruct x; inversion Hobj; reflexivity
      end.
Qed.

Lemma calls_app l1 l2 : calls (l1 ++ l2) = (calls l1 ++ calls l2)%list.
Proof. apply List.filter_app. Qed.

Lemma delivered_resp_failure r :
  delivered_as (terminal_kind_of (HttpResp r) (Some (resp_failure (resp_code r)))) r
               None (Some (resp_failure (resp_code r))).
Proof.
  unfold terminal_kind_of, resp_failure.
  destruct (resp_code r =? UV_ECANCELED); cbn; eexists; repeat split.
Qed.

Lemma delivered_body_failure r b len :
  (len =? UV_EOF) = false ->
  delivered_as (terminal_kind_of (HttpBody b len) (Some (body_failure len))) r
               None (Some (body_failure len)).
Proof.
  intros Heof. unfold terminal_kind_of, body_failure. rewrite Heof.
  destruct (len =? UV_ECANCELED); cbn; eexists; repeat split.
Qed.

(** However far the transport has got with a context in flight, as long
    as the C code stays within defined behaviour: no callback yet while
    the operation is pending, one callback when it has ended. *)
Lemma run_one_call evs : forall c resp rq log cb,
  in_flight cb resp ->
  calls log = [] ->
  match run c resp rq log evs with
  | RunEnded _ _ log' rq' last _ =>
    exists obj e arg,
      calls log' = [ECall cb obj e arg]
      /\ delivered_as (terminal_kind_of last e) (resp_of rq' last) obj e
  | RunPending _ resp' _ log' => calls log' = [] /\ in_flight cb resp'
  | RunUndefined | RunOutOfProtocol => True
  end.
Proof.
  induction evs as [| ev evs IH]; intros c resp rq log cb Hfl Hlog; cbn [run].
  - now split.
  - destruct rq as [k | r], ev as [r' | b len]; try exact I.
    + (* the response callback *)
      destruct (resp_code r' <? 0) eqn:Hcode.
      * destruct (resp_failure_step k r' c resp cb Hcode (proj2 Hfl))
          as (c' & effs & -> & Hcalls & _).
        eexists _, _, _. rewrite calls_app, Hlog, Hcalls. split; [reflexivity |].
        apply delivered_resp_failure.
      * destruct (call_http_cb k r' c resp) as [[[c' oresp] effs] |] eqn:Hrun;
          [| exact I].
        destruct (resp_headers_step k r' c resp cb c' oresp effs Hcode Hfl Hrun)
          as (resp' & -> & -> & Hfl').
        apply IH; [exact Hfl' |]. now rewrite calls_app, Hlog.
    + (* the body callback *)
      destruct (len =? 0) eqn:Hzero; [exact I |].
      destruct (0 <? len) eqn:Hpos.
      * destruct (ctrl_body_cb r b len c resp) as [[[c' oresp] effs] |] eqn:Hrun;
          [| exact I].
        destruct (body_data_step r b len c resp cb c' oresp effs Hpos Hfl Hrun)
          as (resp' & -> & -> & Hfl').
        apply IH; [exact Hfl' |]. now rewrite calls_app, Hlog.
      * destruct (len =? UV_EOF) eqn:Heof.
        -- apply Z.eqb_eq in Heof. subst len.
           destruct (ctrl_body_cb r b UV_EOF c resp) as [[[c' oresp] effs] |] eqn:Hrun;
             [| exact I].
           destruct (body_eof_step r b c resp cb c' oresp effs Hfl Hrun)
             as [(obj & e & Hcalls & Hst) | (resp' & -> & Hcalls & Hst & Hfl')].
           ++ rewrite Hst.
              destruct oresp; eexists _, _, _; rewrite calls_app, Hlog, Hcalls;
                (split; [reflexivity | apply delivered_eof]).
           ++ rewrite Hst. apply IH; [exact Hfl' |]. now rewrite calls_app, Hlog, Hcalls.
        -- rewrite (body_failure_step r b len c resp cb Hpos Heof (proj2 Hfl)). cbn [started].
           eexists _, _, _. rewrite calls_app, Hlog. split; [reflexivity |].
           now apply delivered_body_failure.
Qed.

(** An operation that leaves a context in flight has started one request
    with it and has called nobody. *)
Lemma invoke_in_flight c op cb x resp effs :
  invoke c op (Some cb) x = Some (Some resp, effs) ->
  in_flight cb resp /\ calls effs = []
  /\ exists m p k hs b, effs = [ERequest m p k hs b].
Proof.
  intros Hinv.
  destruct (api_session_token c) as [t |] eqn:Htok.
  - destruct op; cbn [invoke] in Hinv;
      match type of Hinv with
      | ?f = _ => let h := get_head f in unfold h in Hinv
      end;
      rewrite ?(with_session_token _ _ _ _ t Htok) in Hinv;
      try (unfold verify_api_session in Hinv; rewrite Htok in Hinv);
      try (destruct (session_content _ _); [| discriminate Hinv]);
      try (destruct (enroll_path _ _); [| discriminate Hinv]);
      try (destruct csr);
      inversion Hinv; subst; cbn;
        (split; [split; reflexivity | split; [reflexivity | eexists _, _, _, _, _; reflexivity]]).
  - destruct op; cbn [invoke] in Hinv;
      match type of Hinv with
      | ?f = _ => let h := get_head f in unfold h in Hinv
      end;
      rewrite ?(with_session_no_token _ _ _ _ Htok) in Hinv;
      try (unfold verify_api_session in Hinv; rewrite Htok in Hinv);
      try (destruct (enroll_path _ _); [| discriminate Hinv]);
      try (destruct csr);
      inversion Hinv; subst; cbn;
        (split; [split; reflexivity | split; [reflexivity | eexists _, _, _, _, _; reflexivity]]).
Qed.

End Terminal.

(** A response context that a controller operation has created, for an
    operation with a callback, calls that callback exactly once wherever
    the C code stays within defined behaviour: not at all while the
    transport has not delivered the last event of the operation, once when
    it has. The call is a parsed success ([UV_EOF] and no error), an
    envelope error ([UV_EOF] and an error whose kind is [code_to_error] of
    its code and whose HTTP code is the response's), a transport error
    ([ZITI_CONTROLLER_UNAVAILABLE]) or a cancellation ([ZITI_DISABLED]), as
    the last event tells. *)
Lemma one_terminal_callback_where_defined :
  forall (H : Host) (c0 c : ziti_controller) (op : ctrl_op) (cb : callback) (x : user_ctx)
         (resp : ctrl_resp) (effs : list effect) (evs : list http_event),
    invoke c0 op (Some cb) x = Some (Some resp, effs) ->
    exists k,
      started effs = Some k
      /\ calls effs = []
      /\ match run c resp (AwaitResp k) [] evs with
         | RunEnded _ _ log rq last _ =>
           exists obj e arg,
             calls log = [ECall cb obj e arg]
             /\ delivered_as (terminal_kind_of last e) (resp_of rq last) obj e
         | RunPending _ _ _ log => calls log = []
         | RunUndefined | RunOutOfProtocol => True
         end.
Proof.
  intros H c0 c op cb x resp effs evs Hinv.
  destruct (invoke_in_flight c0 op cb x resp effs Hinv)
    as (Hfl & Hcalls & m & p & k & hs & b & ->).
  exists k. split; [reflexivity |]. split; [exact Hcalls |].
  pose proof (run_one_call evs c resp (AwaitResp k) [] cb Hfl eq_refl) as Hrun.
  destruct (run c resp (AwaitResp k) [] evs); auto. tauto.
Qed.

(** C1, on the code. [ziti_ctrl_get_services] leaves a context in flight
    with one request. Answered with a [Content-Length], a body and the end
    of the body, the context calls the callback once, with the array.
    Answered the same way but with neither a [Content-Length] nor a
    transfer encoding, [ctrl_resp_cb] sets up no buffer, [ctrl_body_cb]
    copies the data to the null pointer, and no callback is called. *)
Theorem unframed_answer_no_callback :
  let c := Samples.logged_in "instance-1" in
  let r := mk_http_resp 200 "OK" [] in
  invoke (H := Samples.sample_host) c OpGetServices (Some 7%nat) 3%nat
  = Some (Some Samples.services_ctx, Samples.services_request)
  /\ run (H := Samples.sample_host) c Samples.services_ctx (AwaitResp On_ctrl_resp_cb) []
         Samples.one_page
     = RunEnded c None [ECall 7%nat (Some (ObjArray ["[svc]"])) None (ArgCtx 3%nat)]
                (AwaitBody (mk_http_resp 200 "OK" [("Content-Length", "4")]))
                (HttpBody "" UV_EOF) []
  /\ ctrl_resp_cb (H := Samples.sample_host) r c Samples.services_ctx
     = Some (c, Some (set_status Samples.services_ctx 200), [])
  /\ body_cap (set_status Samples.services_ctx 200) = None
  /\ resp_chunked (set_status Samples.services_ctx 200) = false
  /\ ctrl_body_cb (H := Samples.sample_host) r "page" 4 c
                  (set_status Samples.services_ctx 200) = None
  /\ run (H := Samples.sample_host) c Samples.services_ctx (AwaitResp On_ctrl_resp_cb) []
         Samples.unframed_page
     = RunUndefined.
Proof. vm_compute. repeat split. Qed.

(** Where else the controller client leaves defined behaviour: a page
    with more elements than the array sized from the reported total
    holds, a pagination whose offset and limit overflow their sum, a
    service id that makes the session request longer than its buffer, a
    token that makes the enrollment path longer than its array. *)
Example page_overflows_array :
  run (H := Samples.odd_host) (Samples.logged_in "instance-1") Samples.services_ctx
      (AwaitResp On_ctrl_resp_cb) [] (Samples.answer_of "over")
  = RunUndefined.
Proof. vm_compute. reflexivity. Qed.

Example pagination_sum_overflows :
  run (H := Samples.odd_host) (Samples.logged_in "instance-1") Samples.services_ctx
      (AwaitResp On_ctrl_resp_cb) [] (Samples.answer_of "wrap")
  = RunUndefined.
Proof. vm_compute. reflexivity. Qed.

Example session_request_lengths :
  session_content (Samples.xs 94) "Dial"
  = Some ("{" ++ dquote ++ "serviceId" ++ dquote ++ ": " ++ dquote ++ Samples.xs 94
              ++ dquote ++ ", " ++ dquote ++ "type" ++ dquote ++ ": " ++ dquote
              ++ "Dial" ++ dquote ++ "}")%string
  /\ (String.length <$> session_content (Samples.xs 95) "Dial") = Some 128%nat
  /\ session_content (Samples.xs 96) "Dial" = None
  /\ invoke (H := Samples.sample_host) (Samples.logged_in "instance-1")
            (OpCreateSession (Samples.xs 96) 0) (Some 7%nat) 3%nat = None.
Proof. vm_compute. repeat split. Qed.

Example enrollment_path_lengths :
  (String.length <$> enroll_path "ott" (Some (Samples.xs 998))) = Some 1023%nat
  /\ enroll_path "ott" (Some (Samples.xs 999)) = None
  /\ invoke (H := Samples.sample_host) Samples.sample_ctrl
            (OpEnroll 0 (Some (Samples.xs 999)) None None) (Some 7%nat) 3%nat = None.
Proof. vm_compute. repeat split. Qed.

Example one_page_run :
  run (H := Samples.sample_host) (Samples.logged_in "instance-1")
      Samples.services_ctx (AwaitResp On_ctrl_resp_cb) [] Samples.one_page
  = RunEnded (Samples.logged_in "instance-1") None
             [ECall 7%nat (Some (ObjArray ["[svc]"])) None (ArgCtx 3%nat)]
             (AwaitBody (mk_http_resp 200 "OK" [("Content-Length", "4")]))
             (HttpBody "" UV_EOF) [].
Proof. vm_compute. reflexivity. Qed.

(** ** Pagination *)

Section Framing.
Context {H : Host}.



(** What [alloc_body] changes: the chunked flag and the buffer. *)
Lemma alloc_body_shape hs resp resp1 :
  alloc_body hs resp = Some resp1 ->
  exists ch cap, resp1 = set_body_cap (set_resp_chunked resp ch) cap.
Proof.
  intros Ha. unfold alloc_body in Ha.
  destruct (find_header hs "Content-Length") as [hv |].
  - destruct (atol hv) as [n |]; [| discriminate].
    destruct (n + 1 <=? LONG_MAX); [| discriminate].
    injection Ha as <-. eexists (resp_chunked resp), _. now destruct resp.
  - destruct (find_header hs "transfer-encoding") as [hv |];
      [destruct (streq hv "chunked") |]; injection Ha as <-;
      try (eexists _, _; reflexivity);
      exists (resp_chunked resp), (body_cap resp); now destruct resp.
Qed.




End Framing.

Section PagingWalk.
Context {H : Host}.
Variables (p : body_parse_fn) (cb : callback) (x : user_ctx) (base : string).
Variables (items : list string) (lim : Z).
Hypothesis Harray : is_array_parser p = true.
Hypothesis Hlim : 0 < lim.
Hypothesis Hfits : Z.of_nat (length items) + lim < 2 ^ 31.












End PagingWalk.




(** The request of a page carries the context's limit (the controller's
    page size when none is set yet) and, as offset, its count of elements
    received. *)
Lemma paging_req_fields `{H : Host} (c : ziti_controller) (resp : ctrl_resp) :
  snd (ctrl_paging_req c resp)
  = [page_request (base_path resp)
                  (if limit resp =? 0 then page_size c else limit resp) (recd resp)].
Proof.
  unfold ctrl_paging_req, page_request. cbn [snd].
  destruct (limit resp =? 0); destruct resp; reflexivity.
Qed.

(** *** The text of a page request *)











Example two_pages_run :
  run (H := Samples.sample_host) Samples.paging_by_two
      (set_limit Samples.services_ctx 2) (AwaitResp On_ctrl_resp_cb) []
      (List.concat (List.map events_of Samples.two_pages))
  = RunEnded Samples.paging_by_two None
             [ERequest "GET" "/services?limit=2&offset=2" On_ctrl_resp_cb [] None;
              ECall 7%nat (Some (ObjArray ["a"; "b"; "c"])) None (ArgCtx 3%nat)]
             (AwaitBody (mk_http_resp 200 "OK" [("transfer-encoding", "chunked")]))
             (HttpBody "" UV_EOF) [].
Proof. vm_compute. reflexivity. Qed.

(** ** Transport failures and cancellation *)

(** C6. A transport failure reaches the callback of the request as
    [ZITI_CONTROLLER_UNAVAILABLE], a cancellation as [ZITI_DISABLED]:
    whether the request fails before its headers (the response callback
    gets a negative code) or while its body is read (the body callback gets
    a length that is neither data nor [UV_EOF]). In particular the event a
    cancel delivers to a request in flight, whatever it is waiting for,
    ends the operation with one call of kind [ZITI_DISABLED]. *)
Theorem transport_failure_kinds :
  forall (H : Host) (c : ziti_controller) (resp : ctrl_resp) (cb : callback),
    resp_cb resp = Some cb ->
    (forall k r,
        resp_code r < 0 ->
        exists c' effs e,
          call_http_cb k r c resp = Some (c', None, effs)
          /\ calls effs = [ECall cb None (Some e) (ArgCtx (ctx resp))]
          /\ err e = if resp_code r =? UV_ECANCELED
                     then ZITI_DISABLED else ZITI_CONTROLLER_UNAVAILABLE)
    /\ (forall r b len,
           len <= 0 -> len <> UV_EOF ->
           exists resp' e,
             ctrl_body_cb r b len c resp
             = Some (c, Some resp', [ECall cb None (Some e) (ArgResp resp')])
             /\ err e = if len =? UV_ECANCELED
                        then ZITI_DISABLED else ZITI_CONTROLLER_UNAVAILABLE)
    /\ (forall rq log,
           exists c' oresp tail e arg,
             run c resp rq log [cancel_event rq]
             = RunEnded c' oresp (log ++ tail) rq (cancel_event rq) []
             /\ calls tail = [ECall cb None (Some e) arg]
             /\ err e = ZITI_DISABLED).
Proof.
  intros H c resp cb Hcb. split; [| split].
  - intros k r Hneg.
    assert (Hcode : (resp_code r <? 0) = true) by (apply Z.ltb_lt; lia).
    destruct (resp_failure_step k r c resp cb Hcode Hcb) as (c' & effs & Hrun & Hcalls & _).
    exists c', effs, (resp_failure (resp_code r)). repeat split; auto.
    unfold resp_failure. now destruct (resp_code r =? UV_ECANCELED).
  - intros r b len Hle Hne.
    assert (Hpos : (0 <? len) = false) by (apply Z.ltb_ge; lia).
    assert (Heof : (len =? UV_EOF) = false) by (now apply Z.eqb_neq).
    rewrite (body_failure_step r b len c resp cb Hpos Heof Hcb).
    eexists _, _. split; [reflexivity |].
    unfold body_failure. now destruct (len =? UV_ECANCELED).
  - intros rq log. destruct rq as [k | r]; cbn [cancel_event run].
    + destruct (resp_failure_step k (mk_http_resp UV_ECANCELED "" []) c resp cb eq_refl Hcb)
        as (c' & effs & -> & Hcalls & _).
      cbn [resp_code]. change (UV_ECANCELED <? 0) with true. cbv iota.
      exists c', None, effs, (resp_failure UV_ECANCELED), (ArgCtx (ctx resp)).
      repeat split; auto.
    + change (UV_ECANCELED =? 0) with false. cbv iota.
      rewrite (body_failure_step r "" UV_ECANCELED c resp cb eq_refl eq_refl Hcb).
      cbn [started]. change (0 <? UV_ECANCELED) with false. cbv iota.
      eexists _, _, _, _, _. repeat split.
Qed.

Lemma transport_failure_kinds_witness :
  exists c' effs e,
    call_http_cb (H := Samples.sample_host) On_ctrl_resp_cb (mk_http_resp (-104) "" [])
                 Samples.sample_ctrl Samples.services_ctx
    = Some (c', None, effs)
    /\ calls effs = [ECall 7%nat None (Some e) (ArgCtx (ctx Samples.services_ctx))]
    /\ err e = if resp_code (mk_http_resp (-104) "" []) =? UV_ECANCELED
               then ZITI_DISABLED else ZITI_CONTROLLER_UNAVAILABLE.
Proof.
  apply (proj1 (transport_failure_kinds Samples.sample_host Samples.sample_ctrl
                  Samples.services_ctx 7%nat eq_refl)).
  reflexivity.
Defined.

(** ** Controller rebinding *)

(** Every completion routine but [enroll_pem_cb] ends in
    [ctrl_default_cb]: the callback first, then the new address when it
    differs from the controller's, then the redirect observer. *)
Lemma rebind_follows_callback `{H : Host} k obj e c resp a :
  k <> Enroll_pem_cb ->
  obj_fits k obj = true ->
  new_address resp = Some a ->
  exists c' obj',
    call_ctrl_cb k obj e c resp
    = Some (c', None,
            (match resp_cb resp with
             | Some cb => [ECall cb obj' e (ArgCtx (ctx resp))]
             | None => []
             end
             ++ if streq a (url c) then []
                else match redirect_cb c with
                     | Some rcb => [ERedirect rcb a (redirect_ctx c)]
                     | None => []
                     end)%list)
    /\ url c' = (if streq a (url c) then url c else a)
    /\ http_url (client c') = (if streq a (url c) then http_url (client c) else a).
Proof.
  intros Hk Hfit Ha.
  assert (Hdef : forall s c1,
             url c1 = url c -> http_url (client c1) = http_url (client c) ->
             redirect_cb c1 = redirect_cb c -> redirect_ctx c1 = redirect_ctx c ->
             exists c',
               ctrl_default_cb s e c1 resp
               = Some (c', None,
                       (match resp_cb resp with
                        | Some cb => [ECall cb s e (ArgCtx (ctx resp))]
                        | None => []
                        end
                        ++ if streq a (url c) then []
                           else match redirect_cb c with
                                | Some rcb => [ERedirect rcb a (redirect_ctx c)]
                                | None => []
                                end)%list)
               /\ url c' = (if streq a (url c) then url c else a)
               /\ http_url (client c') = (if streq a (url c) then http_url (client c) else a)).
  { intros s c1 Hu Hh Hr Hx. unfold ctrl_default_cb. rewrite Ha, Hu, Hr, Hx.
    destruct (streq a (url c)); cbn [negb]; eexists; (split; [| split]);
      rewrite ?app_nil_r; try reflexivity; assumption. }
  destruct k; try congruence; cbn [call_ctrl_cb].
  - destruct (Hdef obj c) as (c' & ? & ? & ?); eauto.
  - unfold ctrl_version_cb. destruct obj as [[] |]; try discriminate Hfit;
      match goal with
      | |- context [ctrl_default_cb ?s e ?c1 resp] =>
        destruct (Hdef s c1) as (c' & ? & ? & ?); eauto
      end.
  - unfold ctrl_login_cb, ziti_ctrl_clear_api_session.
    destruct obj as [[] |]; try discriminate Hfit; destruct e;
      match goal with
      | |- context [ctrl_default_cb ?s _ ?c1 resp] =>
        destruct (Hdef s c1) as (c' & ? & ? & ?); eauto
      end.
  - unfold ctrl_logout_cb.
    match goal with
    | |- context [ctrl_default_cb ?s e ?c1 resp] =>
      destruct (Hdef s c1) as (c' & ? & ? & ?); eauto
    end.
  - unfold ctrl_service_cb. destruct obj as [[] |]; try discriminate Hfit;
      match goal with
      | |- context [ctrl_default_cb ?s e ?c1 resp] =>
        destruct (Hdef s c1) as (c' & ? & ? & ?); eauto
      end.
Qed.

(** C5, on the code. An enrollment answered with a PEM body and a
    [ziti-ctrl-address] header that differs from the controller's URL: the
    callback is called, and then nothing: the URL stays, the observer is
    not notified, the context keeps the address and is not freed. The same
    answer to a well-known-certs request ends in [ctrl_default_cb], which
    adopts the address and notifies the observer after the callback. *)
Theorem enroll_pem_drops_rebind :
  let c := Samples.observed_ctrl in
  invoke (H := Samples.sample_host) c (OpEnroll 0 (Some "tok") (Some "CSR") None) (Some 7%nat) 3%nat
  = Some (Some Samples.enroll_ctx,
          [ERequest "POST" "/enroll?method=ott&token=tok" On_ctrl_enroll_http_cb
                    [("Content-Type", "text/plain")] (Some "CSR")])
  /\ url c = "https://ctrl.example"
  /\ (exists leaked,
         run (H := Samples.sample_host) c Samples.enroll_ctx
             (AwaitResp On_ctrl_enroll_http_cb) [] Samples.rebind_answer
         = RunEnded c (Some leaked)
                    [ECall 7%nat (Some (ObjEnrollResp (Some (ObjText "CERT")))) None (ArgCtx 3%nat)]
                    (AwaitBody Samples.rebind_headers) (HttpBody "" UV_EOF) []
         /\ new_address leaked = Some "https://new.example")
  /\ run (H := Samples.sample_host) c Samples.certs_ctx
         (AwaitResp On_ctrl_resp_cb) [] Samples.rebind_answer
     = RunEnded (set_url c "https://new.example") None
                [ECall 7%nat (Some (ObjText "CERT")) None (ArgCtx 3%nat);
                 ERedirect 9%nat "https://new.example" 5%nat]
                (AwaitBody Samples.rebind_headers) (HttpBody "" UV_EOF) [].
Proof.
  cbv zeta. split; [vm_compute; reflexivity |]. split; [reflexivity |].
  split; [| vm_compute; reflexivity].
  eexists. split; [vm_compute; reflexivity | reflexivity].
Qed.

(** * Further properties

    Properties of the code beyond those the specification states: the
    string helpers, the header lookup, the life of the session token, what
    a caller is handed, paging against any server, the probes a tick
    requires, submission, the tick as a whole, the default MAC probe and
    the reply of a probe. *)

(** ** Utilities *)

Section UtilsFacts.
Import Utils.

Lemma str_app_cons (x : ascii) (a b : string) :
  (String x a ++ b)%string = String x (a ++ b)%string.
Proof. reflexivity. Qed.

Lemma str_app_nil_l (b : string) : ("" ++ b)%string = b.
Proof. reflexivity. Qed.

Local Ltac str_simpl := rewrite ?str_app_cons, ?str_app_nil_l; simpl.

Lemma str_length_app (a b : string) :
  String.length (a ++ b)%string = (String.length a + String.length b)%nat.
Proof. induction a as [| x a IH]; str_simpl; [reflexivity | f_equal; exact IH]. Qed.

Lemma str_app_nil_r (a : string) : (a ++ "")%string = a.
Proof. induction a as [| x a IH]; str_simpl; [reflexivity | f_equal; exact IH]. Qed.

Lemma str_app_assoc (a b c : string) : ((a ++ b) ++ c)%string = (a ++ (b ++ c))%string.
Proof. induction a as [| x a IH]; str_simpl; [reflexivity | f_equal; exact IH]. Qed.

Lemma substring_all (s : string) : String.substring 0 (String.length s) s = s.
Proof. induction s as [| x s IH]; simpl; [reflexivity | f_equal; exact IH]. Qed.

Lemma substring_app_prefix (a b : string) :
  String.substring 0 (String.length a) (a ++ b)%string = a.
Proof.
  induction a as [| x a IH]; str_simpl; [now destruct b | f_equal; exact IH].
Qed.

Lemma str_from_app (a b : string) : str_from (String.length a) (a ++ b)%string = b.
Proof.
  unfold str_from. rewrite str_length_app.
  replace (String.length a + String.length b - String.length a)%nat
    with (String.length b) by lia.
  induction a as [| x a IH]; str_simpl; [apply substring_all | exact IH].
Qed.

Lemma hexify_from_length (sep : ascii) (bin : list Z) : forall i,
  String.length (hexify_from i bin sep)
  = (2 * length bin
     + if has_sep sep then length bin - (if (0 <? i)%nat then 0 else 1) else 0)%nat.
Proof.
  induction bin as [| b bin IH]; intros i; cbn [hexify_from length].
  - cbn. now destruct (has_sep sep).
  - rewrite !str_length_app, IH. change (0 <? S i)%nat with true.
    destruct (has_sep sep), (0 <? i)%nat; simpl; lia.
Qed.

(** X1. [hexify] writes two digits for a byte and a separator between two
    bytes: [2 n] characters without a separator, [3 n - 1] with one. With
    its terminator the output fills the buffer [hexify] allocates, except
    for an empty input with a separator, where the buffer has size [0] and
    the terminator is still written. *)
Theorem hexify_length (bin : list Z) (sep : ascii) :
  String.length (hexify bin sep)
  = (if has_sep sep then 3 * length bin - 1 else 2 * length bin)%nat
  /\ (String.length (hexify bin sep) + 1 <=? hexify_out_size (length bin) sep)%nat
     = negb (has_sep sep && match bin with [] => true | _ :: _ => false end).
Proof.
  unfold hexify, hexify_out_size. rewrite hexify_from_length.
  change (0 <? 0)%nat with false. cbv iota.
  destruct (has_sep sep); (split; [lia |]); cbn [andb negb].
  - destruct bin as [| b bin]; cbn [length]; [reflexivity |]. apply Nat.leb_le. lia.
  - apply Nat.leb_le. lia.
Qed.

Lemma hex_val_at (i : Z) : 0 <= i < 16 -> hex_val (hex_at i) = i.
Proof.
  intros Hi.
  assert (Hcases : i = 0 \/ i = 1 \/ i = 2 \/ i = 3 \/ i = 4 \/ i = 5 \/ i = 6 \/ i = 7
                   \/ i = 8 \/ i = 9 \/ i = 10 \/ i = 11 \/ i = 12 \/ i = 13 \/ i = 14
                   \/ i = 15) by lia.
  repeat (destruct Hcases as [-> | Hcases]; [reflexivity |]). now subst.
Qed.

Lemma byte_split (b : Z) :
  is_byte b ->
  0 <= Z.shiftr b 4 < 16 /\ 0 <= Z.land b 15 < 16
  /\ b = 16 * Z.shiftr b 4 + Z.land b 15.
Proof.
  intros Hb. unfold is_byte in Hb.
  rewrite Z.shiftr_div_pow2 by lia.
  change 15 with (Z.ones 4). rewrite Z.land_ones by lia.
  change (2 ^ 4) with 16.
  pose proof (Z.div_mod b 16 ltac:(lia)).
  pose proof (Z.mod_pos_bound b 16 ltac:(lia)).
  assert (0 <= b / 16 < 16) by (split; [apply Z.div_pos; lia | apply Z.div_lt_upper_bound; lia]).
  lia.
Qed.

(** X2. [hexify] loses nothing: two byte strings with the same output,
    under the same separator, are the same byte string. *)
Theorem hexify_injective (sep : ascii) (a b : list Z) :
  List.Forall is_byte a -> List.Forall is_byte b ->
  hexify a sep = hexify b sep -> a = b.
Proof.
  unfold hexify. generalize 0%nat as i. revert b.
  induction a as [| x a IH]; intros b i Ha Hb Heq.
  - destruct b as [| y b]; [reflexivity |]. cbn [hexify_from] in Heq.
    destruct (has_sep sep && (0 <? i)%nat)%bool;
      rewrite ?str_app_cons, ?str_app_nil_l in Heq; discriminate Heq.
  - destruct b as [| y b].
    + cbn [hexify_from] in Heq.
      destruct (has_sep sep && (0 <? i)%nat)%bool;
        rewrite ?str_app_cons, ?str_app_nil_l in Heq; discriminate Heq.
    + inversion Ha as [| ? ? Hx Ha']; inversion Hb as [| ? ? Hy Hb']; subst.
      cbn [hexify_from] in Heq.
      assert (Hrest : String (hex_at (Z.shiftr x 4)) (String (hex_at (Z.land x 15))
                               (hexify_from (S i) a sep))
                      = String (hex_at (Z.shiftr y 4)) (String (hex_at (Z.land y 15))
                                 (hexify_from (S i) b sep))).
      { destruct (has_sep sep && (0 <? i)%nat)%bool;
          rewrite ?str_app_cons, ?str_app_nil_l in Heq; now inversion Heq. }
      inversion Hrest as [[Hhi Hlo Htail]].
      destruct (byte_split x Hx) as (Hxh & Hxl & Hxs).
      destruct (byte_split y Hy) as (Hyh & Hyl & Hys).
      apply (f_equal hex_val) in Hhi, Hlo.
      rewrite !hex_val_at in Hhi, Hlo by assumption.
      f_equal; [lia |]. eapply IH; eauto.
Qed.

Lemma hexify_injective_witness :
  hexify [0; 26; 255] ":"%char = "00:1a:ff" /\ [0; 26; 255] = [0; 26; 255].
Proof.
  split; [reflexivity |].
  apply (hexify_injective ":"%char [0; 26; 255] [0; 26; 255]);
    try reflexivity; repeat constructor; unfold is_byte; lia.
Defined.

Lemma strpbrk_some (delim : string) (s : string) : forall i,
  strpbrk s delim = Some i ->
  exists pre d rest,
    s = (pre ++ String d rest)%string /\ String.length pre = i
    /\ count_delims pre delim = 0%nat /\ strchr delim d = true.
Proof.
  induction s as [| c s IH]; intros i Hi; cbn in Hi; [discriminate Hi |].
  destruct (strchr delim c) eqn:Hc.
  - inversion Hi; subst. exists "", c, s. repeat split; auto.
  - destruct (strpbrk s delim) as [j |]; [| discriminate Hi]. inversion Hi; subst.
    destruct (IH j eq_refl) as (pre & d & rest & -> & Hlen & Hcount & Hd).
    exists (String c pre), d, rest. cbn. rewrite Hc, Hlen, Hcount. repeat split; auto.
Qed.

Lemma strpbrk_none (delim : string) (s : string) :
  strpbrk s delim = None -> count_delims s delim = 0%nat.
Proof.
  induction s as [| c s IH]; cbn; [reflexivity |].
  destruct (strchr delim c); [discriminate |].
  destruct (strpbrk s delim); [discriminate | auto].
Qed.

Lemma count_delims_app (delim a b : string) :
  count_delims (a ++ b) delim = (count_delims a delim + count_delims b delim)%nat.
Proof.
  induction a as [| x a IH]; str_simpl; [reflexivity |].
  rewrite IH. destruct (strchr delim x); lia.
Qed.

Lemma str_split_loop_spec (delim : string) (fuel : nat) : forall s,
  (String.length s < fuel)%nat ->
  length (str_split_loop fuel s delim) = S (count_delims s delim)
  /\ List.Forall (fun t => count_delims t delim = 0%nat) (str_split_loop fuel s delim).
Proof.
  induction fuel as [| fuel IH]; intros s Hlen; [lia |].
  cbn [str_split_loop].
  destruct (strpbrk s delim) as [i |] eqn:Hbrk.
  - destruct (strpbrk_some delim s i Hbrk) as (pre & d & rest & -> & Hpre & Hcount & Hd).
    subst i. rewrite substring_app_prefix.
    change (S (String.length pre)) with (String.length (String d "") + String.length pre)%nat.
    replace (String.length (String d "") + String.length pre)%nat
      with (String.length (pre ++ String d "")) by (rewrite str_length_app; cbn; lia).
    replace (pre ++ String d rest)%string with ((pre ++ String d "") ++ rest)%string
      by (now rewrite str_app_assoc).
    rewrite str_from_app.
    rewrite str_length_app in Hlen. simpl in Hlen.
    destruct (IH rest ltac:(lia)) as [Hn Hall].
    cbn [length]. rewrite Hn, !count_delims_app. cbn [count_delims]. rewrite Hd, Hcount.
    split; [lia |]. constructor; assumption.
  - cbn [length]. rewrite (strpbrk_none delim s Hbrk). split; [reflexivity |].
    constructor; [now apply strpbrk_none | constructor].
Qed.

(** X3. [str_split] appends one token more than the string has delimiter
    characters, returns that count, leaves what the list held in place, and
    no token contains a delimiter; a null string appends nothing. In
    particular the empty string yields one empty token. *)
Theorem str_split_tokens (s delim : string) (result : list string) :
  str_split None delim result = (0%nat, result)
  /\ exists toks,
       str_split (Some s) delim result = (S (count_delims s delim), (result ++ toks)%list)
       /\ length toks = S (count_delims s delim)
       /\ List.Forall (fun t => count_delims t delim = 0%nat) toks.
Proof.
  split; [reflexivity |]. unfold str_split.
  destruct (str_split_loop_spec delim (S (String.length s)) s ltac:(lia)) as [Hn Hall].
  eexists. rewrite Hn. repeat split; auto.
Qed.

Lemma str_split_loop_concat (d : ascii) (fuel : nat) : forall s,
  (String.length s < fuel)%nat ->
  String.concat (String d "") (str_split_loop fuel s (String d "")) = s.
Proof.
  induction fuel as [| fuel IH]; intros s Hlen; [lia |].
  cbn [str_split_loop].
  destruct (strpbrk s (String d "")) as [i |] eqn:Hbrk; [| reflexivity].
  destruct (strpbrk_some _ s i Hbrk) as (pre & x & rest & -> & Hpre & Hcount & Hx).
  assert (x = d) as ->.
  { cbn in Hx. destruct (Ascii.eqb_spec d x); [now subst | discriminate Hx]. }
  subst i. rewrite substring_app_prefix.
  change (S (String.length pre)) with (String.length (String d "") + String.length pre)%nat.
  replace (String.length (String d "") + String.length pre)%nat
    with (String.length (pre ++ String d "")) by (rewrite str_length_app; cbn; lia).
  replace (pre ++ String d rest)%string with ((pre ++ String d "") ++ rest)%string
    by (now rewrite str_app_assoc).
  rewrite str_from_app.
  rewrite str_length_app in Hlen. simpl in Hlen.
  pose proof (IH rest ltac:(lia)) as Hrest.
  destruct (str_split_loop_spec (String d "") fuel rest ltac:(lia)) as [Hn _].
  destruct (str_split_loop fuel rest (String d "")) as [| t ts]; [discriminate Hn |].
  change (String.concat (String d "") (pre :: t :: ts))
    with (pre ++ String d "" ++ String.concat (String d "") (t :: ts))%string.
  rewrite Hrest. now rewrite str_app_assoc.
Qed.

(** X4. Splitting at a single delimiter character and joining the tokens
    with that character gives the string back. *)
Theorem str_split_join (s : string) (d : ascii) :
  String.concat (String d "") (snd (str_split (Some s) (String d "") [])) = s.
Proof.
  unfold str_split. cbn [snd app]. apply str_split_loop_concat. lia.
Qed.

Lemma strrchr_some (c : ascii) (s : string) : forall i,
  strrchr s c = Some i ->
  exists pre rest,
    s = (pre ++ String c rest)%string /\ String.length pre = i /\ strchr rest c = false.
Proof.
  induction s as [| x s IH]; intros i Hi; cbn in Hi; [discriminate Hi |].
  destruct (strrchr s c) as [j |] eqn:Hs.
  - inversion Hi; subst. destruct (IH j eq_refl) as (pre & rest & -> & Hlen & Hrest).
    exists (String x pre), rest. cbn. rewrite Hlen. auto.
  - destruct (Ascii.eqb_spec x c); [| discriminate Hi]. inversion Hi; subst.
    exists "", s. repeat split.
    clear -Hs. induction s as [| y s IH]; cbn in *; [reflexivity |].
    destruct (strrchr s c); [discriminate Hs |].
    destruct (Ascii.eqb y c); [discriminate Hs | auto].
Qed.

Lemma strrchr_none (c : ascii) (s : string) : strrchr s c = None -> strchr s c = false.
Proof.
  induction s as [| y s IH]; cbn; [reflexivity |].
  destruct (strrchr s c); [discriminate |].
  destruct (Ascii.eqb y c); [discriminate | auto].
Qed.

(** X5. [basename] answers the part of the path after its last directory
    separator: the path is a directory prefix, empty or ending in the
    separator, followed by the answer, and the answer holds no separator;
    a null path gives null. *)
Theorem basename_suffix (p : string) :
  basename None = None
  /\ exists dir base,
       basename (Some p) = Some base
       /\ p = (dir ++ base)%string
       /\ strchr base DIR_SEP = false
       /\ (dir = "" \/ exists d, dir = (d ++ String DIR_SEP "")%string).
Proof.
  split; [reflexivity |]. unfold basename.
  destruct (strrchr p DIR_SEP) as [i |] eqn:Hp.
  - destruct (strrchr_some _ p i Hp) as (pre & rest & -> & Hlen & Hrest). subst i.
    exists (pre ++ String DIR_SEP "")%string, rest.
    change (S (String.length pre)) with (String.length (String DIR_SEP "") + String.length pre)%nat.
    replace (String.length (String DIR_SEP "") + String.length pre)%nat
      with (String.length (pre ++ String DIR_SEP "")) by (rewrite str_length_app; cbn; lia).
    replace (pre ++ String DIR_SEP rest)%string
      with ((pre ++ String DIR_SEP "") ++ rest)%string by (now rewrite str_app_assoc).
    rewrite str_from_app. repeat split; eauto.
  - exists "", p. repeat split; auto. now apply strrchr_none.
Qed.

End UtilsFacts.


(** ** Response headers *)

Lemma strcaseeq_same_class (n : string) : forall a b,
  strcaseeq a b = true -> strcaseeq n a = strcaseeq n b.
Proof.
  induction n as [| x n IH]; intros [| y a] [| z b] Hab; simpl in *;
    try reflexivity; try discriminate Hab.
  destruct (Ascii.eqb_spec (tolower y) (tolower z)) as [Heq |]; [| discriminate Hab].
  rewrite Heq. destruct (Ascii.eqb (tolower x) (tolower z)); [now apply IH | reflexivity].
Qed.

(** X6. A header is found whatever the case of the letters in the name
    asked for: names that [strcasecmp] equates find the same value, the
    first one in the order of the response. *)
Theorem find_header_ignores_case (hs : list (string * string)) (a b : string) :
  strcaseeq a b = true -> find_header hs a = find_header hs b.
Proof.
  intros Hab. induction hs as [| [n v] hs IH]; simpl; [reflexivity |].
  rewrite (strcaseeq_same_class n a b Hab), IH. reflexivity.
Qed.

Lemma find_header_ignores_case_witness :
  find_header [("Content-Type", "text/plain"); ("content-type", "other")] "content-type"
  = find_header [("Content-Type", "text/plain"); ("content-type", "other")] "CONTENT-TYPE".
Proof. apply (find_header_ignores_case _ "content-type" "CONTENT-TYPE"). reflexivity. Defined.

(** ** The session token *)

Section SessionToken.
Context {H : Host}.

Lemma same_session_refl c : same_session c c.
Proof. split; reflexivity. Qed.

Lemma same_session_trans c1 c2 c3 :
  same_session c1 c2 -> same_session c2 c3 -> same_session c1 c3.
Proof. intros [A B] [C D]. split; congruence. Qed.

Lemma default_cb_session s e c resp c' oresp effs :
  ctrl_default_cb s e c resp = Some (c', oresp, effs) ->
  same_session c c' /\ oresp = None.
Proof.
  unfold ctrl_default_cb. intros Hd.
  destruct (new_address resp) as [a |];
    [destruct (negb (streq a (url c))) |]; inversion Hd; subst;
    (split; [split; reflexivity | reflexivity]).
Qed.

Lemma ctrl_cb_session k obj e c resp c' oresp effs :
  keeps_session resp = true ->
  ctrl_cb resp = k ->
  call_ctrl_cb k obj e c resp = Some (c', oresp, effs) ->
  same_session c c'.
Proof.
  unfold keeps_session. intros Hk <- Hc.
  destruct (ctrl_cb resp); try discriminate Hk; cbn [call_ctrl_cb] in Hc.
  - now apply default_cb_session in Hc.
  - unfold ctrl_version_cb in Hc.
    destruct obj as [[v | | | | |] |]; try discriminate Hc;
      apply default_cb_session in Hc; destruct Hc as [[A B] _]; split; assumption.
  - unfold ctrl_service_cb in Hc.
    destruct obj as [[| | | l | |] |]; try discriminate Hc;
      now apply default_cb_session in Hc.
  - unfold enroll_pem_cb in Hc. inversion Hc; subst. apply same_session_refl.
Qed.

Lemma resp_cb_session r c resp c' oresp effs :
  ctrl_resp_cb r c resp = Some (c', oresp, effs) ->
  same_session c c'
  /\ match oresp with
     | Some resp' => ctrl_cb resp' = ctrl_cb resp
     | None => True
     end.
Proof.
  unfold ctrl_resp_cb. intros Hr.
  destruct (resp_code r <? 0).
  - apply default_cb_session in Hr. destruct Hr as [Hs ->]. now split.
  - destruct (alloc_body (resp_headers r) (set_status resp (resp_code r)))
      as [resp1 |] eqn:Ha; [| discriminate Hr].
    destruct (alloc_body_shape _ _ _ Ha) as (ch & cap & ->).
    inversion Hr; subst; clear Hr. split.
    + destruct (find_header (resp_headers r) "ziti-instance-id") as [i |];
        [| apply same_session_refl].
      destruct (instance_id c) as [old |]; [destruct (negb (streq i old)) |];
        split; reflexivity.
    + destruct (find_header (resp_headers r) "ziti-ctrl-address"); reflexivity.
Qed.

Lemma http_cb_session k r c resp c' oresp effs :
  keeps_session resp = true ->
  call_http_cb k r c resp = Some (c', oresp, effs) ->
  same_session c c'
  /\ match oresp with
     | Some resp' => keeps_session resp' = true
     | None => True
     end.
Proof.
  intros Hk Hc.
  assert (Hgen : forall resp0, keeps_session resp0 = true ->
            ctrl_resp_cb r c resp0 = Some (c', oresp, effs) ->
            same_session c c'
            /\ match oresp with
               | Some resp' => keeps_session resp' = true
               | None => True
               end).
  { intros resp0 Hk0 Hr. apply resp_cb_session in Hr. destruct Hr as [Hs Hcb].
    split; [exact Hs |]. destruct oresp as [resp' |]; [| exact I].
    unfold keeps_session in *. now rewrite Hcb. }
  destruct k; cbn [call_http_cb] in Hc; [now apply (Hgen resp) |].
  unfold ctrl_enroll_http_cb in Hc.
  destruct (resp_code r <? 0); [now apply (Hgen resp) |].
  destruct (find_header (resp_headers r) "content-type") as [ct |]; [| now apply (Hgen resp)].
  destruct (strcaseeq "application/x-pem-file" ct); [| now apply (Hgen resp)].
  eapply Hgen; [| exact Hc]. reflexivity.
Qed.

Lemma body_cb_session r b len c resp c' oresp effs :
  keeps_session resp = true ->
  ctrl_body_cb r b len c resp = Some (c', oresp, effs) ->
  same_session c c'
  /\ match oresp with
     | Some resp' => keeps_session resp' = true
     | None => True
     end.
Proof.
  intros Hk Hb. unfold ctrl_body_cb in Hb.
  assert (Hfin : forall resp0 obj e,
            ctrl_cb resp0 = ctrl_cb resp ->
            call_ctrl_cb (ctrl_cb resp0) obj e c (free_body resp0) = Some (c', oresp, effs) ->
            same_session c c'
            /\ match oresp with
               | Some resp' => keeps_session resp' = true
               | None => True
               end).
  { intros resp0 obj e Hcb Hc. split.
    - eapply ctrl_cb_session; [| | exact Hc]; [| reflexivity].
      unfold keeps_session in *. cbn. now rewrite Hcb.
    - destruct oresp as [resp' |]; [| exact I].
      rewrite Hcb in Hc. unfold keeps_session in Hk.
      destruct (ctrl_cb resp) eqn:Hcr; try discriminate Hk; cbn [call_ctrl_cb] in Hc.
      + apply default_cb_session in Hc. destruct Hc as [_ Hc]. discriminate Hc.
      + unfold ctrl_version_cb in Hc.
        destruct obj as [[v | | | | |] |]; try discriminate Hc;
          apply default_cb_session in Hc; destruct Hc as [_ Hc]; discriminate Hc.
      + unfold ctrl_service_cb in Hc.
        destruct obj as [[| | | l | |] |]; try discriminate Hc;
          apply default_cb_session in Hc; destruct Hc as [_ Hc]; discriminate Hc.
      + unfold enroll_pem_cb in Hc. inversion Hc; subst.
        unfold keeps_session. cbn. now rewrite Hcb. }
  destruct (0 <? len).
  { destruct (resp_chunked resp);
      [| destruct (body_cap resp) as [n |];
         [destruct (received resp + len <=? n) |]; try discriminate Hb];
      inversion Hb; subst; (split; [apply same_session_refl | exact Hk]). }
  destruct (len =? UV_EOF).
  2:{ destruct (resp_cb resp); [| discriminate Hb]. inversion Hb; subst.
      split; [apply same_session_refl | exact Hk]. }
  destruct (resp_text_plain resp && (status resp <? 300))%bool; [now apply Hfin in Hb |].
  destruct (parse_api_resp (body resp)) as [cr |]; [| now apply Hfin in Hb].
  destruct (body_parse_func resp) as [p |]; [| now apply Hfin in Hb].
  destruct (cr_data cr) as [d |]; [| now apply Hfin in Hb].
  destruct (run_parser p d) as [obj |]; [| now apply Hfin in Hb].
  destruct (paging resp); [| now apply Hfin in Hb].
  destruct obj as [| | | chunk | |]; try discriminate Hb.
  destruct (negb ((INT_MIN <=? _) && _)); [discriminate Hb |].
  destruct (grow_array (pg_total (cr_meta cr)) resp) as [resp1 |] eqn:Hg;
    [| discriminate Hb].
  assert (Hk1 : ctrl_cb resp1 = ctrl_cb resp).
  { unfold grow_array in Hg.
    destruct (total resp <? to_uint (pg_total (cr_meta cr))); cbn in Hg;
      [destruct (_ =? 0)
      | destruct (resp_array_cap resp) as [cap |]; [destruct (cap =? 0) |]];
      try discriminate Hg; injection Hg as <-; reflexivity. }
  destruct (negb (fits resp1 (length chunk))); [discriminate Hb |].
  destruct (negb (pg_total (cr_meta cr) <=? pg_offset (cr_meta cr) + pg_limit (cr_meta cr))).
  - unfold ctrl_paging_req in Hb. inversion Hb; subst. split; [apply same_session_refl |].
    unfold keeps_session in *.
    match goal with |- context [if ?a =? 0 then _ else _] => destruct (a =? 0) end;
      cbn; rewrite Hk1; exact Hk.
  - apply Hfin in Hb; [exact Hb |]. cbn. exact Hk1.
Qed.

Lemma run_keeps_session evs : forall c resp rq log,
  keeps_session resp = true ->
  match run_ctrl (run c resp rq log evs) with
  | Some c' => same_session c c'
  | None => True
  end.
Proof.
  induction evs as [| ev evs IH]; intros c resp rq log Hk; [apply same_session_refl |].
  destruct rq as [k | r], ev as [r' | b len]; cbn [run]; try exact I.
  - destruct (call_http_cb k r' c resp) as [[[c' oresp] effs] |] eqn:Hc; [| exact I].
    destruct (http_cb_session _ _ _ _ _ _ _ Hk Hc) as [Hs Hk'].
    destruct (resp_code r' <? 0); [exact Hs |].
    destruct oresp as [resp' |]; [| exact Hs].
    specialize (IH c' resp' (AwaitBody r') (log ++ effs)%list Hk').
    destruct (run_ctrl _); [| exact I]. eapply same_session_trans; eauto.
  - destruct (len =? 0); [exact I |].
    destruct (ctrl_body_cb r b len c resp) as [[[c' oresp] effs] |] eqn:Hc; [| exact I].
    destruct (body_cb_session _ _ _ _ _ _ _ _ Hk Hc) as [Hs Hk'].
    destruct (0 <? len), oresp as [resp' |]; try exact Hs.
    + specialize (IH c' resp' (AwaitBody r) (log ++ effs)%list Hk').
      destruct (run_ctrl _); [| exact I]. eapply same_session_trans; eauto.
    + destruct (started effs) as [k |]; [| exact Hs].
      specialize (IH c' resp' (AwaitResp k) (log ++ effs)%list Hk').
      destruct (run_ctrl _); [| exact I]. eapply same_session_trans; eauto.
Qed.

(** X7. Only login and logout touch the session: an operation other than
    login, current-api-session and logout leaves the stored token and the
    [zt-session] header of the HTTP client as they were, whatever the
    controller answers and however the transfer ends. *)
Theorem session_untouched_by_other_operations
        (c0 c : ziti_controller) (op : ctrl_op) (cb : option callback) (x : user_ctx)
        (resp : ctrl_resp) (effs : list effect) (k : http_cb_t) (evs : list http_event) :
  invoke c0 op cb x = Some (Some resp, effs) ->
  (forall t, op <> OpLogin t) -> op <> OpCurrentApiSession -> op <> OpLogout ->
  match run_ctrl (run c resp (AwaitResp k) [] evs) with
  | Some c' => same_session c c'
  | None => True
  end.
Proof.
  intros Hinv Hl Hc Ho. apply run_keeps_session.
  destruct op; cbn [invoke] in Hinv;
    try (exfalso; first [now apply (Hl cfg_types) | now apply Hc | now apply Ho]);
    unfold ziti_ctrl_get_version, ziti_ctrl_current_identity, ziti_ctrl_get_services_update,
      ziti_ctrl_get_services, ziti_ctrl_current_edge_routers, ziti_ctrl_get_service,
      ziti_ctrl_get_session, ziti_ctrl_create_session, ziti_ctrl_get_sessions,
      ziti_ctrl_enroll, ziti_ctrl_get_well_known_certs, ziti_pr_post, ziti_pr_post_bulk,
      ziti_ctrl_login_mfa, ziti_ctrl_post_mfa, ziti_ctrl_get_mfa, ziti_ctrl_delete_mfa,
      ziti_ctrl_post_mfa_verify, ziti_ctrl_get_mfa_recovery_codes,
      ziti_ctrl_post_mfa_recovery_codes, ziti_ctrl_extend_cert_authenticator,
      ziti_ctrl_verify_extend_cert_authenticator, ziti_ctrl_create_api_certificate,
      with_session in Hinv;
    try (destruct (verify_api_session c0 cb x) as [[[|] ?] |]; try discriminate Hinv);
    try (destruct (session_content _ _); [| discriminate Hinv]);
    try (destruct (enroll_path _ _); [| discriminate Hinv]);
    inversion Hinv; subst; try reflexivity;
    unfold ctrl_paging_req, keeps_session; cbn;
    match goal with |- context [if ?a then _ else _] => destruct a end; reflexivity.
Qed.

End SessionToken.

Lemma session_untouched_by_other_operations_witness :
  match run_ctrl (run (H := Samples.sample_host) (Samples.logged_in "instance-1")
                      Samples.services_ctx (AwaitResp On_ctrl_resp_cb) [] Samples.one_page) with
  | Some c' => same_session (Samples.logged_in "instance-1") c'
  | None => True
  end.
Proof.
  apply (session_untouched_by_other_operations (H := Samples.sample_host)
           (Samples.logged_in "instance-1") (Samples.logged_in "instance-1")
           OpGetServices (Some 7%nat) 3%nat Samples.services_ctx Samples.services_request
           On_ctrl_resp_cb Samples.one_page);
    [reflexivity | discriminate | discriminate | discriminate].
Defined.


(** ** One answered request *)

Section Answered.
Context {H : Host}.




Lemma default_cb_outcome s e c resp :
  exists c',
    ctrl_default_cb s e c resp
    = Some (c', None,
            (match resp_cb resp with
             | Some cb => [ECall cb s e (ArgCtx (ctx resp))]
             | None => []
             end
             ++ match new_address resp with
                | Some a =>
                  if negb (streq a (url c)) then
                    match redirect_cb c with
                    | Some rcb => [ERedirect rcb a (redirect_ctx c)]
                    | None => []
                    end
                  else []
                | None => []
                end)%list)
    /\ same_session c c'.
Proof.
  unfold ctrl_default_cb.
  destruct (new_address resp) as [a |]; [destruct (negb (streq a (url c))) |];
    eexists; (split; [rewrite ?app_nil_r; reflexivity | split; reflexivity]).
Qed.

Lemma default_cb_ends s e c resp :
  exists c' effs,
    ctrl_default_cb s e c resp = Some (c', None, effs)
    /\ same_session c c'
    /\ calls effs = match resp_cb resp with
                    | Some cb => [ECall cb s e (ArgCtx (ctx resp))]
                    | None => []
                    end
    /\ started effs = None.
Proof.
  destruct (default_cb_outcome s e c resp) as (c' & Hd & Hs).
  eexists _, _. split; [exact Hd |]. split; [exact Hs |].
  destruct (resp_cb resp), (new_address resp) as [a |];
    try destruct (negb (streq a (url c))); try destruct (redirect_cb c); split; reflexivity.
Qed.

End Answered.


(** ** Login and logout *)

Section LoginLogout.
Context {H : Host}.

Local Ltac at_eof :=
  unfold ctrl_body_cb; change (0 <? UV_EOF) with false;
  change (UV_EOF =? UV_EOF) with true; cbv iota;
  cbn [resp_text_plain status body body_parse_func paging ctrl_cb resp_cb ctx set_body].





End LoginLogout.




(** ** What the caller is handed *)

Section Delivered.
Context {H : Host}.

Local Ltac at_eof :=
  unfold ctrl_body_cb; change (0 <? UV_EOF) with false;
  change (UV_EOF =? UV_EOF) with true; cbv iota;
  cbn [resp_text_plain status body body_parse_func paging ctrl_cb resp_cb ctx set_body].


(** X11. A body that cannot be decoded is reported as [ZITI_WTF]: both
    for a body that is no envelope and for an envelope whose data the
    operation's parser refuses, the caller gets no object and an error of
    kind [ZITI_WTF] with the code [INVALID_CONTROLLER_RESPONSE] and the
    HTTP status of the response. The kind [ZITI_INVALID_STATE] the second
    case assigns does not reach the caller. *)
Theorem decode_failure_reported_as_wtf (r : tlsuv_http_resp) (b : string)
        (c : ziti_controller) (resp : ctrl_resp) (cb : callback) :
  resp_cb resp = Some cb ->
  (resp_text_plain resp && (status resp <? 300))%bool = false ->
  parse_api_resp (body resp) = None
  \/ (exists cr p d,
         parse_api_resp (body resp) = Some cr /\ body_parse_func resp = Some p
         /\ cr_data cr = Some d /\ run_parser p d = None) ->
  exists c' oresp effs obj e,
    ctrl_body_cb r b UV_EOF c resp = Some (c', oresp, effs)
    /\ calls effs = [ECall cb obj (Some e) (ArgCtx (ctx resp))]
    /\ (obj = None \/ obj = Some (ObjEnrollResp None))
    /\ err e = ZITI_WTF /\ code e = Some "INVALID_CONTROLLER_RESPONSE"
    /\ http_code e = resp_code r
    /\ message e = Some (match parse_api_resp (body resp) with
                         | None => resp_status r
                         | Some _ => "unexpected response JSON"
                         end).
Proof.
  intros Hcb Htp Hfail. at_eof. rewrite Htp.
  assert (Hfin : forall e,
            exists c' oresp effs obj,
              call_ctrl_cb (ctrl_cb resp) None (Some e) c (free_body resp)
              = Some (c', oresp, effs)
              /\ calls effs = [ECall cb obj (Some e) (ArgCtx (ctx resp))]
              /\ (obj = None \/ obj = Some (ObjEnrollResp None))).
  { intros e. destruct (ctrl_cb resp); cbn [call_ctrl_cb];
      unfold ctrl_version_cb, ctrl_login_cb, ctrl_logout_cb, ctrl_service_cb, enroll_pem_cb;
      try (match goal with |- context [ctrl_default_cb ?o ?e' ?cc ?rs] =>
             destruct (default_cb_ends o e' cc rs) as (c' & effs' & Hd & _ & Hcalls & _) end;
           cbn [resp_cb ctx set_body set_body_cap free_body] in Hcalls; rewrite Hcb in Hcalls;
           rewrite Hd; eexists _, _, _, _; split; [reflexivity |];
           split; [exact Hcalls | now left]).
    cbn [resp_cb ctx set_body set_body_cap free_body]. rewrite Hcb.
    eexists _, _, _, _. split; [reflexivity |]. split; [reflexivity | now right]. }
  destruct Hfail as [Hp | (cr & p & d & Hp & Hpf & Hd & Hrun)]; rewrite Hp.
  - cbn [remap_error]. destruct (Hfin (mk_error (code_to_error (Some "INVALID_CONTROLLER_RESPONSE"))
                                  (Some "INVALID_CONTROLLER_RESPONSE") (resp_code r)
                                  (Some (resp_status r))))
      as (c' & oresp & effs & obj & Hc & Hcalls & Hobj).
    exists c', oresp, effs, obj. eexists. split; [exact Hc |]. split; [exact Hcalls |].
    split; [exact Hobj |]. repeat split; reflexivity.
  - rewrite Hpf, Hd, Hrun. cbn [remap_error].
    destruct (Hfin (mk_error (code_to_error (Some "INVALID_CONTROLLER_RESPONSE"))
                             (Some "INVALID_CONTROLLER_RESPONSE") (resp_code r)
                             (Some "unexpected response JSON")))
      as (c' & oresp & effs & obj & Hc & Hcalls & Hobj).
    exists c', oresp, effs, obj. eexists. split; [exact Hc |]. split; [exact Hcalls |].
    split; [exact Hobj |]. repeat split; reflexivity.
Qed.


End Delivered.



Lemma decode_failure_reported_as_wtf_witness :
  exists c' oresp effs obj e,
    ctrl_body_cb (H := Samples.sample_host) Samples.ok_headers "" UV_EOF Samples.sample_ctrl
                 (set_body Samples.services_ctx "<html>") = Some (c', oresp, effs)
    /\ calls effs = [ECall 7%nat obj (Some e) (ArgCtx (ctx (set_body Samples.services_ctx "<html>")))]
    /\ (obj = None \/ obj = Some (ObjEnrollResp None))
    /\ err e = ZITI_WTF /\ code e = Some "INVALID_CONTROLLER_RESPONSE"
    /\ http_code e = resp_code Samples.ok_headers
    /\ message e = Some (match parse_api_resp (Host := Samples.sample_host)
                                 (body (set_body Samples.services_ctx "<html>")) with
                         | None => resp_status Samples.ok_headers
                         | Some _ => "unexpected response JSON"
                         end).
Proof.
  apply (decode_failure_reported_as_wtf (H := Samples.sample_host) Samples.ok_headers ""
           Samples.sample_ctrl (set_body Samples.services_ctx "<html>") 7%nat).
  - reflexivity.
  - reflexivity.
  - left. reflexivity.
Defined.


(** ** A paged walk against any server *)

Section AnyServer.
Context {H : Host}.
Variables (base : string) (lim : Z).
Hypothesis Hquery : strchr base "?"%char = false.
Hypothesis Hbase : (String.length base <= 90)%nat.
Hypothesis Hlim : 0 < lim < 2 ^ 31.






End AnyServer.

Section AnyServerOp.
Context {H : Host}.


End AnyServerOp.



(** ** The probes a tick requires *)

Section Required.

Lemma streq_eq (a b : string) : streq a b = true <-> a = b.
Proof. unfold streq. apply String.eqb_eq. Qed.

Lemma streq_refl (a : string) : streq a a = true.
Proof. now apply streq_eq. Qed.

Lemma streq_neq (a b : string) : streq a b = false <-> a <> b.
Proof. unfold streq. apply String.eqb_neq. Qed.

Lemma map_get_none {A : Type} (m : list (string * A)) (k : string) :
  map_get m k = None <-> ~ In k (List.map fst m).
Proof.
  induction m as [| [k' v] m IH]; simpl; [tauto |].
  destruct (streq k' k) eqn:Hk.
  - apply streq_eq in Hk. split; [discriminate | intros Hn; exfalso; apply Hn; now left].
  - apply streq_neq in Hk. rewrite IH. tauto.
Qed.

Lemma map_get_some_in {A : Type} (m : list (string * A)) (k : string) (v : A) :
  map_get m k = Some v -> In (k, v) m.
Proof.
  induction m as [| [k' v'] m IH]; simpl; [discriminate |].
  destruct (streq k' k) eqn:Hk; [| auto].
  apply streq_eq in Hk. intros [= ->]. subst. now left.
Qed.

Lemma add_process_spec (acc : required) (p : string) (q : ziti_posture_query) :
  (List.NoDup (List.map fst (procs acc))
   -> List.NoDup (List.map fst (procs (add_process acc p q))))
  /\ (forall p', In p' (List.map fst (procs (add_process acc p q)))
                 <-> In p' (List.map fst (procs acc)) \/ p' = p)
  /\ domainInfo (add_process acc p q) = domainInfo acc
  /\ macInfo (add_process acc p q) = macInfo acc
  /\ osInfo (add_process acc p q) = osInfo acc.
Proof.
  unfold add_process. destruct (map_get (procs acc) p) eqn:Hg.
  - assert (Hin : In p (List.map fst (procs acc))).
    { apply map_get_some_in in Hg. apply in_map_iff. now exists (p, z). }
    repeat split; auto. intros [? | ->]; assumption.
  - apply map_get_none in Hg. cbn [procs domainInfo macInfo osInfo].
    rewrite List.map_app. cbn [List.map fst]. repeat split.
    + intros Hnd. apply List.NoDup_app; [exact Hnd | |].
      * constructor; [simpl; tauto | constructor].
      * intros x Hx [<- | []]. exact (Hg Hx).
    + rewrite in_app_iff. simpl. intros [? | [<- | []]]; auto.
    + rewrite in_app_iff. simpl. intros [? | ->]; auto.
Qed.

Lemma add_processes_spec (q : ziti_posture_query) (ps : list ziti_process) :
  forall acc,
    let acc' := List.fold_left (fun acc p => add_process acc (path p) q) ps acc in
    (List.NoDup (List.map fst (procs acc)) -> List.NoDup (List.map fst (procs acc')))
    /\ (forall p', In p' (List.map fst (procs acc'))
                   <-> In p' (List.map fst (procs acc)) \/ In p' (List.map path ps))
    /\ domainInfo acc' = domainInfo acc
    /\ macInfo acc' = macInfo acc
    /\ osInfo acc' = osInfo acc.
Proof.
  induction ps as [| p ps IH]; intros acc; cbn [List.fold_left List.map].
  - repeat split; auto. intros [? | []]; assumption.
  - destruct (add_process_spec acc (path p) q) as (N1 & I1 & D1 & M1 & O1).
    destruct (IH (add_process acc (path p) q)) as (N2 & I2 & D2 & M2 & O2).
    cbv zeta in *. repeat split; try congruence; auto.
    + intros Hin. apply I2 in Hin. destruct Hin as [Hin | Hin]; [| right; now right].
      apply I1 in Hin. destruct Hin as [? | ->]; [now left | right; now left].
    + intros [Hin | [<- | Hin]]; apply I2; [left; apply I1; now left | left; apply I1; now right
                                          | now right].
Qed.

Lemma note_query_spec (acc acc' : required) (q : ziti_posture_query) :
  note_query acc q = Some acc' ->
  (List.NoDup (List.map fst (procs acc)) -> List.NoDup (List.map fst (procs acc')))
  /\ (forall p, In p (List.map fst (procs acc'))
                <-> In p (List.map fst (procs acc)) \/ In p (declared_paths q))
  /\ domainInfo acc' = (if streq (query_type q) PC_DOMAIN_TYPE then Some q else domainInfo acc)
  /\ macInfo acc' = (if streq (query_type q) PC_MAC_TYPE then Some q else macInfo acc)
  /\ osInfo acc' = (if streq (query_type q) PC_OS_TYPE then Some q else osInfo acc).
Proof.
  unfold note_query, declared_paths.
  destruct (streq (query_type q) PC_MAC_TYPE) eqn:Hmac.
  { apply streq_eq in Hmac. rewrite Hmac. intros [= <-]. cbn.
    repeat split; auto. intros [? | []]; assumption. }
  destruct (streq (query_type q) PC_DOMAIN_TYPE) eqn:Hdom.
  { apply streq_eq in Hdom. rewrite Hdom. intros [= <-]. cbn.
    repeat split; auto. intros [? | []]; assumption. }
  destruct (streq (query_type q) PC_OS_TYPE) eqn:Hos.
  { apply streq_eq in Hos. rewrite Hos. intros [= <-]. cbn.
    repeat split; auto. intros [? | []]; assumption. }
  destruct (streq (query_type q) PC_PROCESS_TYPE) eqn:Hproc.
  { destruct (process q) as [p |]; [| discriminate]. intros [= <-].
    destruct (add_process_spec acc (path p) q) as (N1 & I1 & D1 & M1 & O1).
    repeat split; auto.
    - intros Hin. apply I1 in Hin. destruct Hin as [? | ->]; [now left | right; now left].
    - intros [Hin | [<- | []]]; apply I1; auto. }
  destruct (streq (query_type q) PC_PROCESS_MULTI_TYPE) eqn:Hmulti.
  { intros [= <-]. exact (add_processes_spec q (processes q) acc). }
  intros [= <-]. repeat split; auto. intros [? | []]; assumption.
Qed.

Lemma note_queries_spec (qs : list ziti_posture_query) : forall acc acc',
  note_queries acc qs = Some acc' ->
  (List.NoDup (List.map fst (procs acc)) -> List.NoDup (List.map fst (procs acc')))
  /\ (forall p, In p (List.map fst (procs acc'))
                <-> In p (List.map fst (procs acc))
                    \/ exists q, In q qs /\ In p (declared_paths q))
  /\ domainInfo acc'
     = List.fold_left (fun a q => if streq (query_type q) PC_DOMAIN_TYPE then Some q else a)
                      qs (domainInfo acc)
  /\ macInfo acc'
     = List.fold_left (fun a q => if streq (query_type q) PC_MAC_TYPE then Some q else a)
                      qs (macInfo acc)
  /\ osInfo acc'
     = List.fold_left (fun a q => if streq (query_type q) PC_OS_TYPE then Some q else a)
                      qs (osInfo acc).
Proof.
  induction qs as [| q qs IH]; intros acc acc'; cbn [note_queries List.fold_left].
  - intros [= <-]. repeat split; auto. intros [? | (q & [] & _)]; assumption.
  - destruct (note_query acc q) as [acc1 |] eqn:Hq; [| discriminate]. intros Hrest.
    destruct (note_query_spec _ _ _ Hq) as (N1 & I1 & D1 & M1 & O1).
    destruct (IH _ _ Hrest) as (N2 & I2 & D2 & M2 & O2).
    rewrite <- D1, <- M1, <- O1. repeat split; auto.
    + intros Hin. apply I2 in Hin. destruct Hin as [Hin | (q' & Hq' & Hp)].
      * apply I1 in Hin. destruct Hin as [? | Hp]; [now left |].
        right. exists q. split; [now left | exact Hp].
      * right. exists q'. split; [now right | exact Hp].
    + intros [Hin | (q' & [<- | Hq'] & Hp)]; apply I2.
      * left. apply I1. now left.
      * left. apply I1. now right.
      * right. now exists q'.
Qed.

Lemma note_queries_app (a b : list ziti_posture_query) : forall acc,
  note_queries acc (a ++ b)
  = match note_queries acc a with
    | Some acc' => note_queries acc' b
    | None => None
    end.
Proof.
  induction a as [| q a IH]; intros acc; cbn [note_queries app]; [reflexivity |].
  destruct (note_query acc q); [apply IH | reflexivity].
Qed.

Lemma note_sets_flat (sets : list (string * ziti_posture_query_set)) : forall acc,
  note_sets acc sets
  = note_queries acc (List.concat (List.map (fun qs => posture_queries (snd qs)) sets)).
Proof.
  induction sets as [| [k s] sets IH]; intros acc; cbn [note_sets List.map List.concat snd];
    [reflexivity |].
  rewrite note_queries_app. destruct (note_queries acc (posture_queries s)); [apply IH | reflexivity].
Qed.

Lemma note_services_flat (svcs : list (string * ziti_service)) : forall acc,
  note_services acc svcs = note_queries acc (all_queries svcs).
Proof.
  unfold all_queries.
  induction svcs as [| [k s] svcs IH]; intros acc; cbn [note_services List.map List.concat snd];
    [reflexivity |].
  rewrite note_queries_app, note_sets_flat.
  destruct (note_queries acc _); [apply IH | reflexivity].
Qed.

(** X14. The process checks of a tick go by path: every path that a
    process query of any service declares (the one of a [PROCESS] query,
    each of a [PROCESS_MULTI] query) is required, each path once however
    many queries name it, and nothing else is. *)
Theorem required_process_paths (svcs : list (string * ziti_service)) (req : required) :
  note_services (mk_required None None None []) svcs = Some req ->
  List.NoDup (List.map fst (procs req))
  /\ forall p, In p (List.map fst (procs req))
               <-> exists q, In q (all_queries svcs) /\ In p (declared_paths q).
Proof.
  rewrite note_services_flat. intros Hn.
  destruct (note_queries_spec _ _ _ Hn) as (N & I & _). split.
  - apply N. constructor.
  - intros p. rewrite I. cbn. tauto.
Qed.

(** X15. Of the OS, MAC and domain queries the services declare, the one
    the tick goes by (its id is put in the response, its timeout decides
    on the send-every-time flag) is the last of its type in the order the
    services, their query sets and their queries are visited; without a
    query of the type the probe is not required. *)
Theorem required_singletons (svcs : list (string * ziti_service)) (req : required) :
  note_services (mk_required None None None []) svcs = Some req ->
  domainInfo req = last_of_type PC_DOMAIN_TYPE (all_queries svcs)
  /\ macInfo req = last_of_type PC_MAC_TYPE (all_queries svcs)
  /\ osInfo req = last_of_type PC_OS_TYPE (all_queries svcs).
Proof.
  rewrite note_services_flat. intros Hn.
  destruct (note_queries_spec _ _ _ Hn) as (_ & _ & D & M & O).
  unfold last_of_type. now rewrite D, M, O.
Qed.

End Required.


(** ** The cache during a tick *)

Section CacheFacts.

Lemma map_get_update {A : Type} (m : list (string * A)) (k k' : string) (f : A -> A) :
  map_get (map_update m k f) k'
  = if streq k k' then f <$> map_get m k' else map_get m k'.
Proof.
  induction m as [| [k0 v] m IH]; cbn [map_update map_get].
  - now destruct (streq k k').
  - destruct (streq k0 k) eqn:H0; cbn [map_get].
    + apply streq_eq in H0. subst k0. destruct (streq k k'); reflexivity.
    + destruct (streq k0 k') eqn:H1.
      * apply streq_eq in H1. subst k0.
        assert (Hf : streq k k' = false) by (apply streq_neq; apply streq_neq in H0; congruence).
        now rewrite Hf.
      * exact IH.
Qed.

Lemma map_get_snoc {A : Type} (m : list (string * A)) (k k' : string) (v : A) :
  map_get (m ++ [(k, v)]) k'
  = match map_get m k' with
    | Some x => Some x
    | None => if streq k k' then Some v else None
    end.
Proof.
  induction m as [| [k0 v0] m IH]; cbn [app map_get]; [reflexivity |].
  destruct (streq k0 k'); [reflexivity | exact IH].
Qed.

Lemma map_get_map {A : Type} (g : A -> A) (m : list (string * A)) (k : string) :
  map_get (List.map (fun kv => (fst kv, g (snd kv))) m) k = g <$> map_get m k.
Proof.
  induction m as [| [k0 v0] m IH]; cbn [List.map map_get fst snd]; [reflexivity |].
  destruct (streq k0 k); [reflexivity | exact IH].
Qed.

Lemma map_get_filter {A : Type} (keep : string * A -> bool) (m : list (string * A))
      (k : string) (v : A) :
  map_get m k = Some v -> (forall k0, keep (k0, v) = true) ->
  map_get (List.filter keep m) k = Some v.
Proof.
  intros Hg Hkeep. induction m as [| [k0 v0] m IH]; cbn [map_get List.filter] in *;
    [discriminate Hg |].
  destruct (streq k0 k) eqn:H0.
  - inversion Hg; subst. rewrite Hkeep. cbn [map_get]. now rewrite H0.
  - destruct (keep (k0, v0)); [cbn [map_get]; rewrite H0 |]; auto.
Qed.

Lemma map_update_keys {A : Type} (m : list (string * A)) (k : string) (f : A -> A) :
  List.map fst (map_update m k f) = List.map fst m.
Proof.
  induction m as [| [k0 v0] m IH]; cbn [map_update List.map]; [reflexivity |].
  destruct (streq k0 k); cbn [List.map fst]; [reflexivity | now rewrite IH].
Qed.

Lemma entries_of_update (m : list (string * pr_info)) (k k' : string) (f : pr_info -> pr_info) :
  k <> k' -> entries_of k (map_update m k' f) = entries_of k m.
Proof.
  intros Hne. unfold entries_of.
  induction m as [| [k0 v0] m IH]; cbn [map_update List.filter fst]; [reflexivity |].
  destruct (streq k0 k') eqn:H0; cbn [List.filter fst].
  - apply streq_eq in H0. subst k0.
    assert (Hf : streq k' k = false) by (apply streq_neq; congruence). now rewrite Hf.
  - now rewrite IH.
Qed.

Lemma entries_of_none (m : list (string * pr_info)) (k : string) :
  entries_of k m = [] -> map_get m k = None.
Proof.
  unfold entries_of. induction m as [| [k0 v0] m IH]; cbn [List.filter map_get fst];
    [reflexivity |].
  destruct (streq k0 k); [discriminate | exact IH].
Qed.

Lemma cache_set ztx pc : cache (set_posture_checks ztx (Some pc)) = responses pc.
Proof. reflexivity. Qed.

Lemma cache_upd ztx pc f :
  ztx_posture_checks ztx = Some pc -> cache (upd_pc ztx f) = responses (f pc).
Proof. intros Hpc. unfold cache, upd_pc. cbn. now rewrite Hpc. Qed.

Lemma pc_upd ztx pc f :
  ztx_posture_checks ztx = Some pc -> ztx_posture_checks (upd_pc ztx f) = Some (f pc).
Proof. intros Hpc. unfold upd_pc. cbn. now rewrite Hpc. Qed.

Lemma outside_upd ztx f : outside (upd_pc ztx f) = outside ztx.
Proof. reflexivity. Qed.

Lemma collect_pr_spec ztx pc k b :
  ztx_posture_checks ztx = Some pc ->
  outside (ziti_collect_pr ztx k b) = outside ztx
  /\ exists pc',
       ztx_posture_checks (ziti_collect_pr ztx k b) = Some pc'
       /\ responses pc' = map_update (responses pc) k (collect_entry pc b).
Proof.
  intros Hpc. unfold ziti_collect_pr. rewrite Hpc.
  destruct (map_get (responses pc) k) eqn:Hg.
  - split; [reflexivity |]. eexists. split; reflexivity.
  - split; [reflexivity |]. exists pc. split; [exact Hpc |].
    clear Hpc. induction (responses pc) as [| [k0 v0] m IH]; cbn [map_update map_get] in *;
      [reflexivity |].
    destruct (streq k0 k); [discriminate Hg |]. now rewrite <- IH.
Qed.

End CacheFacts.


Section Probing.
Context {P : Platform}.

Lemma map_update_compose {A : Type} (m : list (string * A)) (k : string) (f g : A -> A) :
  map_update (map_update m k f) k g = map_update m k (fun x => g (f x)).
Proof.
  induction m as [| [k0 v0] m IH]; cbn [map_update]; [reflexivity |].
  destruct (streq k0 k) eqn:H0; cbn [map_update]; rewrite H0; [reflexivity | now rewrite IH].
Qed.

Lemma collect_entry_obsolete pc b i : obsolete (collect_entry pc b i) = obsolete i.
Proof.
  unfold collect_entry. cbn.
  destruct (obj i) as [o |]; [destruct (negb (streq o b)) |]; reflexivity.
Qed.

Lemma get_resp_info_get pc k k' :
  k' <> k -> map_get (responses (get_resp_info pc k)) k' = map_get (responses pc) k'.
Proof.
  intros Hne. unfold get_resp_info. destruct (map_get (responses pc) k); [reflexivity |].
  cbn [responses set_responses]. rewrite map_get_snoc.
  destruct (map_get (responses pc) k'); [reflexivity |].
  assert (Hf : streq k k' = false) by (apply streq_neq; congruence). now rewrite Hf.
Qed.

Lemma get_resp_info_own pc k :
  exists i, map_get (responses (get_resp_info pc k)) k = Some i
            /\ match map_get (responses pc) k with
               | Some j => i = j
               | None => pending i = false
               end.
Proof.
  unfold get_resp_info. destruct (map_get (responses pc) k) as [j |] eqn:Hg.
  - exists j. rewrite Hg. now split.
  - cbn [responses set_responses]. rewrite map_get_snoc, Hg, streq_refl.
    eexists. split; reflexivity.
Qed.

Lemma get_resp_info_entries pc k k' :
  k' <> k -> entries_of k' (responses (get_resp_info pc k)) = entries_of k' (responses pc).
Proof.
  intros Hne. unfold get_resp_info. destruct (map_get (responses pc) k); [reflexivity |].
  cbn [responses set_responses]. unfold entries_of. rewrite List.filter_app.
  cbn [List.filter fst].
  assert (Hf : streq k k' = false) by (apply streq_neq; congruence).
  now rewrite Hf, app_nil_r.
Qed.

Lemma require_probe_cache ztx pc k q probe :
  ztx_posture_checks ztx = Some pc ->
  probe_for k probe ->
  exists pc' g,
    ztx_posture_checks (fst (require_probe ztx k q probe)) = Some pc'
    /\ outside (fst (require_probe ztx k q probe)) = outside ztx
    /\ responses pc' = map_update (responses (get_resp_info pc k)) k g
    /\ (forall i, obsolete (g i) = false)
    /\ (is_pending ztx k = true -> forall i, g i = set_obsolete i false)
    /\ (forall e, In e (snd (require_probe ztx k q probe)) ->
          is_pending ztx k = false /\ (exists wid, e = PQueueWork wid k)
          /\ forall i, pending (g i) = true).
Proof.
  intros Hpc Hprobe. unfold require_probe.
  set (ztx1 := if timeout q =? NO_TIMEOUTS
               then upd_pc ztx (fun pc => set_must_send_every_time pc false) else ztx).
  assert (H1 : exists pc1, ztx_posture_checks ztx1 = Some pc1
                           /\ responses pc1 = responses pc /\ outside ztx1 = outside ztx).
  { subst ztx1. destruct (timeout q =? NO_TIMEOUTS).
    - eexists. split; [exact (pc_upd ztx pc (fun pc => set_must_send_every_time pc false) Hpc) |].
      split; reflexivity.
    - exists pc. auto. }
  destruct H1 as (pc1 & Hpc1 & Hr1 & Ho1). clearbody ztx1.
  set (ztx2 := upd_pc ztx1 (fun pc => get_resp_info pc k)).
  assert (Hpc2 : ztx_posture_checks ztx2 = Some (get_resp_info pc1 k))
    by (exact (pc_upd ztx1 pc1 (fun pc => get_resp_info pc k) Hpc1)).
  assert (Hr2 : responses (get_resp_info pc1 k) = responses (get_resp_info pc k)).
  { unfold get_resp_info. rewrite Hr1. destruct (map_get (responses pc) k); cbn; congruence. }
  set (ztx3 := upd_pc ztx2 (fun pc => set_responses pc
                 (map_update (responses pc) k (fun i => set_obsolete i false)))).
  assert (Hpc3 : ztx_posture_checks ztx3
                 = Some (set_responses (get_resp_info pc1 k)
                           (map_update (responses (get_resp_info pc1 k)) k
                                       (fun i => set_obsolete i false))))
    by (exact (pc_upd ztx2 _ (fun pc => set_responses pc
                 (map_update (responses pc) k (fun i => set_obsolete i false))) Hpc2)).
  assert (Hpend : is_pending ztx3 k = is_pending ztx k).
  { unfold is_pending. rewrite Hpc3, Hpc. cbn [responses set_responses].
    rewrite map_get_update, streq_refl, Hr2.
    destruct (get_resp_info_own pc k) as (i & Hi & Hrel). rewrite Hi. cbn.
    destruct (map_get (responses pc) k); [now subst | exact Hrel]. }
  destruct (is_pending ztx3 k) eqn:Hp3.
  - cbn [fst snd]. eexists _, (fun i => set_obsolete i false).
    split; [exact Hpc3 |]. split; [subst ztx3 ztx2; now rewrite !outside_upd |].
    cbn [responses set_responses]. rewrite Hr2. split; [reflexivity |].
    split; [reflexivity |]. split; [reflexivity |]. intros e [].
  - set (ztx4 := upd_pc ztx3 (fun pc => set_responses pc
                   (map_update (responses pc) k (fun i => set_pending i true)))).
    assert (Hpc4 : exists pc4, ztx_posture_checks ztx4 = Some pc4
                     /\ responses pc4
                        = map_update (responses (get_resp_info pc k)) k
                            (fun i => set_pending (set_obsolete i false) true)).
    { eexists. split; [exact (pc_upd ztx3 _ (fun pc => set_responses pc
                   (map_update (responses pc) k (fun i => set_pending i true))) Hpc3) |].
      cbn [responses set_responses]. now rewrite map_update_compose, Hr2. }
    destruct Hpc4 as (pc4 & Hpc4 & Hr4).
    assert (Ho4 : outside ztx4 = outside ztx)
      by (subst ztx4 ztx3 ztx2; now rewrite !outside_upd).
    clearbody ztx4.
    destruct (Hprobe ztx4) as [(b & Hb) | [Hb | (wid & Hb)]]; rewrite Hb; cbn [fst snd].
    + destruct (collect_pr_spec ztx4 pc4 k b Hpc4) as (Hout & pc5 & Hpc5 & Hr5).
      exists pc5, (fun i => collect_entry pc4 b (set_pending (set_obsolete i false) true)).
      split; [exact Hpc5 |]. split; [congruence |].
      split; [now rewrite Hr5, Hr4, map_update_compose |].
      split; [intros i; now rewrite collect_entry_obsolete |].
      split; [intros Habs; rewrite Habs in Hpend; discriminate Hpend | intros e []].
    + exists pc4, (fun i => set_pending (set_obsolete i false) true).
      split; [exact Hpc4 |]. split; [exact Ho4 |]. split; [exact Hr4 |].
      split; [reflexivity |].
      split; [intros Habs; rewrite Habs in Hpend; discriminate Hpend | intros e []].
    + exists pc4, (fun i => set_pending (set_obsolete i false) true).
      split; [exact Hpc4 |]. split; [exact Ho4 |]. split; [exact Hr4 |].
      split; [reflexivity |].
      split; [intros Habs; rewrite Habs in Hpend; discriminate Hpend |].
      intros e [<- | []]. split; [now rewrite <- Hpend |]. split; [now exists wid | reflexivity].
Qed.

Lemma require_probe_probing ztx pc k q probe :
  ztx_posture_checks ztx = Some pc ->
  probe_for k probe ->
  probing [k] ztx (fst (require_probe ztx k q probe)) (snd (require_probe ztx k q probe)).
Proof.
  intros Hpc Hprobe.
  destruct (require_probe_cache ztx pc k q probe Hpc Hprobe)
    as (pc' & g & Hpc' & Hout & Hr & Hobs & Hkeep & Heffs).
  destruct (get_resp_info_own pc k) as (i0 & Hi0 & Hrel).
  assert (Hown : map_get (responses pc') k = Some (g i0)).
  { rewrite Hr, map_get_update, streq_refl, Hi0. reflexivity. }
  assert (Hother : forall k', k' <> k -> map_get (responses pc') k' = map_get (responses pc) k').
  { intros k' Hne. rewrite Hr, map_get_update.
    assert (Hf : streq k k' = false) by (apply streq_neq; congruence).
    rewrite Hf. now apply get_resp_info_get. }
  assert (Hcache' : cache (fst (require_probe ztx k q probe)) = responses pc')
    by (unfold cache; now rewrite Hpc').
  assert (Hcache : cache ztx = responses pc) by (unfold cache; now rewrite Hpc).
  assert (Hpk : is_pending ztx k = true ->
                is_pending (fst (require_probe ztx k q probe)) k = true).
  { intros Hp. unfold is_pending in *. rewrite Hpc', Hown. rewrite Hpc in Hp.
    rewrite (Hkeep ltac:(unfold is_pending; rewrite Hpc; exact Hp)). cbn.
    destruct (map_get (responses pc) k); [now subst | discriminate Hp]. }
  repeat split.
  - exact Hout.
  - now rewrite Hpc'.
  - intros k' [<- | []]. exists (g i0). rewrite Hcache'. split; [exact Hown | apply Hobs].
  - intros k' (i & Hi & Hlive). rewrite Hcache in Hi. unfold live. rewrite Hcache'.
    destruct (String.eqb_spec k' k) as [-> | Hne].
    + exists (g i0). split; [exact Hown | apply Hobs].
    + exists i. rewrite (Hother k' Hne). now split.
  - intros k' Hnot. rewrite Hcache', Hcache, Hr.
    assert (Hne : k' <> k) by (intros ->; apply Hnot; now left).
    rewrite entries_of_update by exact Hne. now apply get_resp_info_entries.
  - intros k' Hp. destruct (String.eqb_spec k' k) as [-> | Hne]; [now apply Hpk |].
    unfold is_pending in *. rewrite Hpc'. rewrite Hpc in Hp. now rewrite (Hother k' Hne).
  - intros e He. destruct (Heffs e He) as (Hnp & (wid & ->) & Hg).
    exists wid, k. split; [reflexivity |]. split; [now left |]. split; [exact Hnp |].
    unfold is_pending. rewrite Hpc', Hown. apply Hg.
Qed.

Lemma probing_refl ks ztx pc :
  ztx_posture_checks ztx = Some pc -> ks = [] -> probing ks ztx ztx [].
Proof.
  intros Hpc ->. repeat split; auto; try (intros ? []). now rewrite Hpc.
Qed.

Lemma probing_seq ks1 ks2 a b c e1 e2 :
  probing ks1 a b e1 -> probing ks2 b c e2 -> probing (ks1 ++ ks2) a c (e1 ++ e2).
Proof.
  intros (O1 & S1 & L1 & K1 & E1 & P1 & Q1) (O2 & S2 & L2 & K2 & E2 & P2 & Q2).
  repeat split.
  - congruence.
  - exact S2.
  - intros k Hin. apply in_app_iff in Hin. destruct Hin as [Hin | Hin]; auto.
  - auto.
  - intros k Hnot. rewrite E2, E1; [reflexivity | |]; intros Hin; apply Hnot;
      apply in_app_iff; auto.
  - auto.
  - intros e He. apply in_app_iff in He. destruct He as [He | He].
    + destruct (Q1 e He) as (wid & p & -> & Hin & Hb & Ha).
      exists wid, p. repeat split; auto. apply in_app_iff; auto.
    + destruct (Q2 e He) as (wid & p & -> & Hin & Hb & Ha).
      exists wid, p. repeat split; auto; [apply in_app_iff; auto |].
      destruct (is_pending a p) eqn:Hp; [| reflexivity].
      apply P1 in Hp. congruence.
Qed.

Lemma probe_domain_for q : probe_for PC_DOMAIN_TYPE (probe_domain q).
Proof.
  intros ztx. unfold probe_domain, ziti_pr_handle_domain.
  destruct (pq_domain_cb (opts ztx)) as [f |]; [destruct (f (query_id q)) |]; eauto.
Qed.

Lemma probe_mac_for q : probe_for PC_MAC_TYPE (probe_mac q).
Proof.
  intros ztx. unfold probe_mac, ziti_pr_handle_mac.
  destruct (pq_mac_cb (opts ztx)) as [f |]; [destruct (f (query_id q)) |]; eauto.
Qed.

Lemma probe_os_for q : probe_for PC_OS_TYPE (probe_os q).
Proof.
  intros ztx. unfold probe_os, ziti_pr_handle_os.
  destruct (pq_os_cb (opts ztx)) as [f |];
    [destruct (f (query_id q)) as [[[t v] b] |] | destruct host_os as [[t v] b]]; eauto.
Qed.

Lemma probe_process_for p q : probe_for p (probe_process p q).
Proof.
  intros ztx. unfold probe_process, ziti_pr_handle_process.
  destruct (pq_process_cb (opts ztx)) as [f |];
    [destruct (f (query_id q) p) as [[[r h] s] |] |]; eauto.
Qed.

Lemma require_opt_probing ztx pc k q probe :
  ztx_posture_checks ztx = Some pc ->
  (forall q', probe_for k (probe q')) ->
  probing (match q with Some _ => [k] | None => [] end) ztx
          (fst (require_opt ztx k q probe)) (snd (require_opt ztx k q probe)).
Proof.
  intros Hpc Hprobe. destruct q as [q |]; cbn [require_opt fst snd].
  - now apply (require_probe_probing ztx pc).
  - now apply (probing_refl [] ztx pc).
Qed.

Lemma require_processes_probing l : forall ztx pc,
  ztx_posture_checks ztx = Some pc ->
  probing (List.map fst l) ztx
          (fst (require_processes ztx l)) (snd (require_processes ztx l)).
Proof.
  induction l as [| [p q] l IH]; intros ztx pc Hpc; cbn [require_processes List.map fst snd].
  - now apply (probing_refl [] ztx pc).
  - pose proof (require_probe_probing ztx pc p q (probe_process p q) Hpc
                  (probe_process_for p q)) as H1.
    destruct (require_probe ztx p q (probe_process p q)) as [z1 e1]. cbn [fst snd] in H1.
    destruct (ztx_posture_checks z1) as [pc1 |] eqn:Hpc1;
      [| destruct H1 as (_ & Hs & _); now rewrite Hpc1 in Hs].
    specialize (IH z1 pc1 Hpc1).
    destruct (require_processes z1 l) as [z2 e2]. cbn [fst snd] in *.
    exact (probing_seq [p] _ _ _ _ _ _ H1 IH).
Qed.

End Probing.


(** ** Submission *)

Section Submission.

Lemma bulk_items_concat (l : list (string * pr_info)) :
  bulk_items l true
  = match flagged l with
    | [] => ""
    | _ :: _ => ("," ++ String.concat "," (List.map body_of (flagged l)))%string
    end
  /\ bulk_items l false = String.concat "," (List.map body_of (flagged l)).
Proof.
  unfold flagged.
  induction l as [| [k i] l [IHt IHf]]; cbn [bulk_items List.map List.filter snd];
    [split; reflexivity |].
  destruct (should_send i); [| split; assumption].
  cbn [List.map]. rewrite IHt.
  destruct (List.filter should_send (List.map snd l)) as [| j fl]; cbn [List.map String.concat].
  - rewrite !str_app_nil_r. split; reflexivity.
  - split; reflexivity.
Qed.

Lemma clear_should_send_flagged (l : list (string * pr_info)) :
  flagged (clear_should_send l) = [].
Proof.
  unfold flagged, clear_should_send.
  induction l as [| [k i] l IH]; cbn [List.map List.filter snd fst]; [reflexivity |].
  destruct (should_send i) eqn:Hs; cbn [should_send set_should_send]; [exact IH |].
  rewrite Hs. exact IH.
Qed.

Lemma clear_should_send_unflagged (l : list (string * pr_info)) :
  unflagged (clear_should_send l) = unflagged l.
Proof.
  unfold unflagged, clear_should_send. rewrite List.map_map. apply List.map_ext.
  intros [k i]. cbn [fst snd]. now destruct (should_send i).
Qed.

Lemma flagged_none (l : list (string * pr_info)) :
  existsb (fun kv => should_send (snd kv)) l = false <-> flagged l = [].
Proof.
  unfold flagged. induction l as [| [k i] l IH]; cbn [existsb List.map List.filter snd];
    [tauto |].
  destruct (should_send i); cbn [orb]; [split; discriminate | exact IH].
Qed.

Lemma map_update_unflagged (l : list (string * pr_info)) (k : string) :
  unflagged (map_update l k (fun i => set_should_send i false)) = unflagged l.
Proof.
  unfold unflagged. induction l as [| [k0 i] l IH]; cbn [map_update List.map]; [reflexivity |].
  destruct (streq k0 k); cbn [List.map fst snd]; [reflexivity | now rewrite IH].
Qed.

Lemma unflagged_get (l l' : list (string * pr_info)) (k : string) :
  unflagged l' = unflagged l ->
  (fun i => set_should_send i false) <$> map_get l' k
  = (fun i => set_should_send i false) <$> map_get l k.
Proof.
  intros Hu. unfold unflagged in Hu. rewrite <- !(map_get_map (fun i => set_should_send i false)).
  now rewrite Hu.
Qed.

Lemma rejected_without_token (c : ziti_controller) (op : started_op) (cb : callback)
      (x : user_ctx) (k : ctrl_resp * list effect) :
  op = with_session c (Some cb) x k ->
  match api_session_token c with
  | Some _ => submit op = Some (InFlight (snd k))
  | None => submit op = Some (Rejected (Some no_api_session_error))
  end.
Proof.
  intros ->. unfold with_session, verify_api_session.
  destruct (api_session_token c); reflexivity.
Qed.

Lemma send_bulk_outcome (ztx : ziti_ctx) (pc : posture_checks) :
  ztx_posture_checks ztx = Some pc ->
  exists ztx',
    ziti_pr_send_bulk ztx
    = Some (ztx',
            if existsb (fun kv => should_send (snd kv)) (responses pc) then
              match api_session_token (controller ztx) with
              | Some _ =>
                [PSent (request "POST" "/posture-response-bulk" json_type
                          (Some ("[" ++ bulk_items (responses pc) false ++ "]")%string))
                       BulkCb]
              | None => []
              end
            else [])
    /\ outside ztx' = outside ztx
    /\ cache ztx' = if existsb (fun kv => should_send (snd kv)) (responses pc)
                    then clear_should_send (responses pc) else responses pc.
Proof.
  intros Hpc. unfold ziti_pr_send_bulk. rewrite Hpc.
  destruct (existsb (fun kv => should_send (snd kv)) (responses pc)); cbn [negb].
  - unfold ziti_pr_post_bulk, with_session, verify_api_session.
    cbn [controller set_posture_checks].
    destruct (api_session_token (controller ztx)) as [tok |]; cbn [submit fst snd].
    + eexists. split; [reflexivity |]. split; reflexivity.
    + unfold ziti_pr_post_bulk_cb. cbn [ztx_posture_checks set_posture_checks
                                         no_api_session_error http_code].
      change (0 =? 404) with false. cbv iota.
      eexists. split; [reflexivity |]. split; reflexivity.
  - exists ztx. split; [reflexivity |]. split; [reflexivity |]. unfold cache. now rewrite Hpc.
Qed.

(** The posture checks a bulk submission leaves: the cache with the flags
    taken off when something was flagged, and [must_send] set when the
    submission was turned down at once. *)
Lemma send_bulk_checks (ztx : ziti_ctx) (pc : posture_checks) :
  ztx_posture_checks ztx = Some pc ->
  exists ztx' effs,
    ziti_pr_send_bulk ztx = Some (ztx', effs)
    /\ ztx_posture_checks ztx'
       = Some (if existsb (fun kv => should_send (snd kv)) (responses pc)
               then match api_session_token (controller ztx) with
                    | Some _ => set_responses pc (clear_should_send (responses pc))
                    | None =>
                      set_must_send (set_responses pc (clear_should_send (responses pc))) true
                    end
               else pc).
Proof.
  intros Hpc. unfold ziti_pr_send_bulk. rewrite Hpc.
  destruct (existsb (fun kv => should_send (snd kv)) (responses pc)); cbn [negb].
  - unfold ziti_pr_post_bulk, with_session, verify_api_session.
    cbn [controller set_posture_checks].
    destruct (api_session_token (controller ztx)) as [tok |]; cbn [submit fst snd].
    + eexists _, _. split; reflexivity.
    + unfold ziti_pr_post_bulk_cb. cbn [ztx_posture_checks set_posture_checks
                                         no_api_session_error http_code].
      change (0 =? 404) with false. cbv iota.
      eexists _, _. split; reflexivity.
  - exists ztx, []. split; [reflexivity | exact Hpc].
Qed.

(** X16. A bulk submission sends the flagged entries and only them: when
    some entry of the cache is flagged and the controller has a session
    token, one POST to [/posture-response-bulk] goes out whose body is the
    JSON array of the flagged bodies in the order of the cache; when none
    is flagged nothing goes out. Either way no entry is flagged afterwards
    and the entries are otherwise as they were. Without a token the flags
    are taken off all the same, nothing goes out, and the submission,
    turned down at once, sets [must_send]. Nothing else in the context
    changes: not the recorded session and instance ids, the
    send-every-time flag, the error states, nor, but for the case just
    named, [must_send]. The flagged entries are taken to have a body,
    which the code reads without a test. *)
Theorem bulk_submission (ztx : ziti_ctx) (pc : posture_checks) :
  ztx_posture_checks ztx = Some pc ->
  flagged_have_body (responses pc) ->
  exists ztx' effs pc',
    ziti_pr_send_bulk ztx = Some (ztx', effs)
    /\ outside ztx' = outside ztx
    /\ ztx_posture_checks ztx' = Some pc'
    /\ previous_api_session_id pc' = previous_api_session_id pc
    /\ controller_instance_id pc' = controller_instance_id pc
    /\ must_send_every_time pc' = must_send_every_time pc
    /\ error_states pc' = error_states pc
    /\ must_send pc' = match flagged (responses pc), api_session_token (controller ztx) with
                       | _ :: _, None => true
                       | _, _ => must_send pc
                       end
    /\ flagged (responses pc') = []
    /\ unflagged (responses pc') = unflagged (responses pc)
    /\ effs = match flagged (responses pc), api_session_token (controller ztx) with
              | _ :: _, Some _ =>
                [PSent (request "POST" "/posture-response-bulk" json_type
                          (Some ("[" ++ String.concat ","
                                         (List.map body_of (flagged (responses pc)))
                                     ++ "]")%string))
                       BulkCb]
              | _, _ => []
              end.
Proof.
  intros Hpc _.
  destruct (send_bulk_outcome ztx pc Hpc) as (ztx' & Hrun & Hout & _).
  destruct (send_bulk_checks ztx pc Hpc) as (ztx2 & effs2 & Hrun2 & Hpc2).
  rewrite Hrun in Hrun2. injection Hrun2 as <- <-.
  eexists ztx', _, _. split; [exact Hrun |]. split; [exact Hout |].
  split; [exact Hpc2 |].
  destruct (existsb (fun kv => should_send (snd kv)) (responses pc)) eqn:Hex.
  - assert (Hfl : exists i fl, flagged (responses pc) = i :: fl).
    { destruct (flagged (responses pc)) as [| i fl] eqn:Hfl; [| eauto].
      apply flagged_none in Hfl. congruence. }
    destruct Hfl as (i & fl & Hfl). rewrite Hfl.
    rewrite <- Hfl, <- (proj2 (bulk_items_concat (responses pc))).
    destruct (api_session_token (controller ztx));
      cbn [previous_api_session_id controller_instance_id must_send_every_time error_states
           must_send responses set_responses set_must_send];
      repeat (split; [reflexivity |]);
      (split; [apply clear_should_send_flagged |]);
      (split; [apply clear_should_send_unflagged | reflexivity]).
  - apply flagged_none in Hex. rewrite Hex. repeat split; reflexivity.
Qed.

Lemma map_update_app_notin {A : Type} (a b : list (string * A)) (k : string) (f : A -> A) :
  ~ In k (List.map fst a) -> map_update (a ++ b) k f = (a ++ map_update b k f)%list.
Proof.
  induction a as [| [k0 v0] a IH]; intros Hn; cbn [app map_update]; [reflexivity |].
  cbn [List.map fst In] in Hn.
  assert (Hf : streq k0 k = false) by (apply streq_neq; tauto).
  rewrite Hf, IH by tauto. reflexivity.
Qed.

Lemma clear_should_send_app (a b : list (string * pr_info)) :
  clear_should_send (a ++ b) = (clear_should_send a ++ clear_should_send b)%list.
Proof. unfold clear_should_send. apply List.map_app. Qed.

Lemma clear_should_send_keys (a : list (string * pr_info)) :
  List.map fst (clear_should_send a) = List.map fst a.
Proof. unfold clear_should_send. rewrite List.map_map. reflexivity. Qed.

Lemma fold_clear (l : list (string * pr_info)) : forall pre,
  List.NoDup (List.map fst (pre ++ l)) ->
  List.fold_left
    (fun c kv => if should_send (snd kv)
                 then map_update c (fst kv) (fun i => set_should_send i false) else c)
    l (clear_should_send pre ++ l)%list
  = clear_should_send (pre ++ l).
Proof.
  induction l as [| [k i] l IH]; intros pre Hnd; cbn [List.fold_left fst snd].
  - now rewrite !app_nil_r.
  - assert (Hpre : ~ In k (List.map fst (clear_should_send pre))).
    { rewrite clear_should_send_keys. rewrite List.map_app in Hnd.
      apply List.NoDup_remove_2 in Hnd. intros Hin. apply Hnd. apply in_app_iff. now left. }
    assert (Hstep : (if should_send i
                     then map_update (clear_should_send pre ++ (k, i) :: l) k
                                     (fun i => set_should_send i false)
                     else (clear_should_send pre ++ (k, i) :: l)%list)
                    = (clear_should_send (pre ++ [(k, i)]) ++ l)%list).
    { rewrite clear_should_send_app, <- app_assoc. cbn [clear_should_send List.map fst snd app].
      destruct (should_send i) eqn:Hs; [| reflexivity].
      rewrite map_update_app_notin by exact Hpre. cbn [map_update].
      now rewrite streq_refl. }
    rewrite Hstep, IH; rewrite <- app_assoc; [reflexivity | exact Hnd].
Qed.

Lemma send_each_token (tok : string) (l : list (string * pr_info)) : forall ztx pc,
  ztx_posture_checks ztx = Some pc ->
  api_session_token (controller ztx) = Some tok ->
  exists ztx',
    send_each l ztx
    = Some (ztx',
            List.map (fun i => PSent (request "POST" "/posture-response" json_type
                                              (Some (body_of i))) (PostCb i))
                     (flagged l))
    /\ outside ztx' = outside ztx
    /\ cache ztx'
       = List.fold_left
           (fun c kv => if should_send (snd kv)
                        then map_update c (fst kv) (fun i => set_should_send i false) else c)
           l (responses pc).
Proof.
  unfold flagged.
  induction l as [| [k i] l IH]; intros ztx pc Hpc Htok;
    cbn [send_each List.map List.filter List.fold_left fst snd].
  - exists ztx. split; [reflexivity |]. split; [reflexivity |]. unfold cache. now rewrite Hpc.
  - destruct (should_send i); [| now apply IH].
    unfold ziti_pr_post, with_session, verify_api_session. rewrite Htok. cbn [submit fst snd].
    destruct (IH (upd_pc ztx (fun pc => set_responses pc
                    (map_update (responses pc) k (fun i => set_should_send i false))))
                 (set_responses pc (map_update (responses pc) k
                                               (fun i => set_should_send i false))))
      as (ztx' & Hrun & Hout & Hcache).
    { exact (pc_upd ztx pc (fun pc => set_responses pc
               (map_update (responses pc) k (fun i => set_should_send i false))) Hpc). }
    { exact Htok. }
    rewrite Hrun. exists ztx'. split; [reflexivity |]. split; [exact Hout | exact Hcache].
Qed.

(** The posture checks the loop over the entries leaves when the
    controller has a session token: those it found, with the flags of the
    entries it sent taken off. *)
Lemma send_each_checks (tok : string) (l : list (string * pr_info)) : forall ztx pc,
  ztx_posture_checks ztx = Some pc ->
  api_session_token (controller ztx) = Some tok ->
  exists ztx' effs,
    send_each l ztx = Some (ztx', effs)
    /\ ztx_posture_checks ztx'
       = Some (set_responses pc
                 (List.fold_left
                    (fun c kv => if should_send (snd kv)
                                 then map_update c (fst kv) (fun i => set_should_send i false)
                                 else c)
                    l (responses pc))).
Proof.
  induction l as [| [k i] l IH]; intros ztx pc Hpc Htok;
    cbn [send_each List.fold_left fst snd].
  - exists ztx, []. split; [reflexivity |]. rewrite Hpc. now destruct pc.
  - destruct (should_send i); [| now apply IH].
    unfold ziti_pr_post, with_session, verify_api_session. rewrite Htok. cbn [submit fst snd].
    destruct (IH (upd_pc ztx (fun pc => set_responses pc
                    (map_update (responses pc) k (fun i => set_should_send i false))))
                 (set_responses pc (map_update (responses pc) k
                                               (fun i => set_should_send i false))))
      as (ztx' & effs & Hrun & Hpc').
    { exact (pc_upd ztx pc (fun pc => set_responses pc
               (map_update (responses pc) k (fun i => set_should_send i false))) Hpc). }
    { exact Htok. }
    rewrite Hrun. eexists _, _. split; [reflexivity |]. rewrite Hpc'. now destruct pc.
Qed.

(** X17. A per-item submission (the fallback when the controller lacks
    the bulk API) by a controller that has a session token sends one POST
    to [/posture-response] for each flagged entry, in the order of the
    cache, each with the entry's body and a copy of the entry for its
    completion; no entry is flagged afterwards, the entries are otherwise
    as they were, and nothing else in the context has changed: not the
    recorded session and instance ids, the send-every-time flag,
    [must_send], nor the error states. The keys of the cache are
    distinct, as those of a map are, and the flagged entries are taken to
    have a body, which the code reads without a test. *)
Theorem individual_submission (ztx : ziti_ctx) (pc : posture_checks) (tok : string) :
  ztx_posture_checks ztx = Some pc ->
  api_session_token (controller ztx) = Some tok ->
  List.NoDup (List.map fst (responses pc)) ->
  flagged_have_body (responses pc) ->
  exists ztx' pc',
    ziti_pr_send_individually ztx
    = Some (ztx',
            List.map (fun i => PSent (request "POST" "/posture-response" json_type
                                              (Some (body_of i))) (PostCb i))
                     (flagged (responses pc)))
    /\ outside ztx' = outside ztx
    /\ ztx_posture_checks ztx' = Some pc'
    /\ previous_api_session_id pc' = previous_api_session_id pc
    /\ controller_instance_id pc' = controller_instance_id pc
    /\ must_send_every_time pc' = must_send_every_time pc
    /\ must_send pc' = must_send pc
    /\ error_states pc' = error_states pc
    /\ flagged (responses pc') = []
    /\ unflagged (responses pc') = unflagged (responses pc).
Proof.
  intros Hpc Htok Hnd _. unfold ziti_pr_send_individually. rewrite Hpc.
  destruct (send_each_token tok (responses pc) ztx pc Hpc Htok) as (ztx' & Hrun & Hout & _).
  destruct (send_each_checks tok (responses pc) ztx pc Hpc Htok)
    as (ztx2 & effs2 & Hrun2 & Hpc2).
  rewrite Hrun in Hrun2. injection Hrun2 as <- <-.
  eexists ztx', _. split; [exact Hrun |]. split; [exact Hout |]. split; [exact Hpc2 |].
  pose proof (fold_clear (responses pc) [] Hnd) as Hfold.
  cbn [app clear_should_send List.map] in Hfold. fold (clear_should_send (responses pc)) in Hfold.
  cbn [previous_api_session_id controller_instance_id must_send_every_time error_states
       must_send responses set_responses].
  rewrite Hfold. repeat (split; [reflexivity |]).
  split; [apply clear_should_send_flagged | apply clear_should_send_unflagged].
Qed.

End Submission.


(** ** One tick, as a whole *)

Section Tick.
Context {P : Platform}.

Lemma send_each_spec (l : list (string * pr_info)) : forall ztx pc,
  ztx_posture_checks ztx = Some pc ->
  exists ztx' effs,
    send_each l ztx = Some (ztx', effs)
    /\ outside ztx' = outside ztx
    /\ unflagged (cache ztx') = unflagged (cache ztx)
    /\ List.Forall (fun e => is_sent e = true) effs.
Proof.
  induction l as [| [k i] l IH]; intros ztx pc Hpc; cbn [send_each].
  - exists ztx, []. repeat split; constructor.
  - destruct (should_send i); [| now apply (IH ztx pc)].
    assert (Hstep : forall z pcz,
              ztx_posture_checks z = Some pcz -> outside z = outside ztx ->
              responses pcz = responses pc ->
              forall effs0, List.Forall (fun e => is_sent e = true) effs0 ->
              exists ztx' effs,
                match send_each l (upd_pc z (fun pc => set_responses pc
                        (map_update (responses pc) k (fun i => set_should_send i false)))) with
                | Some (ztx1, effs') => Some (ztx1, (effs0 ++ effs')%list)
                | None => None
                end = Some (ztx', effs)
                /\ outside ztx' = outside ztx
                /\ unflagged (cache ztx') = unflagged (cache ztx)
                /\ List.Forall (fun e => is_sent e = true) effs).
    { intros z pcz Hz Hoz Hrz effs0 Hs0.
      destruct (IH (upd_pc z (fun pc => set_responses pc
                      (map_update (responses pc) k (fun i => set_should_send i false))))
                   (set_responses pcz (map_update (responses pcz) k
                                                  (fun i => set_should_send i false))))
        as (ztx' & effs & Hrun & Hout & Hun & Hsent).
      { exact (pc_upd z pcz (fun pc => set_responses pc
                 (map_update (responses pc) k (fun i => set_should_send i false))) Hz). }
      rewrite Hrun. eexists _, _. split; [reflexivity |].
      split; [now rewrite Hout, outside_upd |].
      split; [| apply List.Forall_app; now split].
      rewrite Hun. unfold cache at 1.
      rewrite (pc_upd z pcz (fun pc => set_responses pc
                 (map_update (responses pc) k (fun i => set_should_send i false))) Hz).
      cbn [responses set_responses]. rewrite map_update_unflagged, Hrz.
      unfold cache. now rewrite Hpc. }
    unfold ziti_pr_post, with_session, verify_api_session.
    destruct (api_session_token (controller ztx)); cbn [submit fst snd].
    + apply (Hstep ztx pc Hpc eq_refl eq_refl). repeat constructor.
    + unfold ziti_pr_post_cb. rewrite Hpc.
      apply (Hstep (set_posture_checks ztx (Some (ziti_pr_set_info_errored pc (id i)))) _
                   eq_refl eq_refl eq_refl). constructor.
Qed.

Lemma pr_send_spec ztx pc :
  ztx_posture_checks ztx = Some pc ->
  exists ztx' effs,
    ziti_pr_send ztx = Some (ztx', effs)
    /\ outside ztx' = outside ztx
    /\ unflagged (cache ztx') = unflagged (cache ztx)
    /\ List.Forall (fun e => is_sent e = true) effs
    /\ (no_bulk_posture_response_api ztx = false -> (length effs <= 1)%nat).
Proof.
  intros Hpc. unfold ziti_pr_send, ziti_pr_send_individually.
  destruct (no_bulk_posture_response_api ztx).
  - rewrite Hpc. destruct (send_each_spec (responses pc) ztx pc Hpc)
      as (ztx' & effs & Hrun & Hout & Hun & Hsent).
    exists ztx', effs. repeat split; auto. discriminate.
  - destruct (send_bulk_outcome ztx pc Hpc) as (ztx' & Hrun & Hout & Hcache).
    exists ztx'. eexists. split; [exact Hrun |]. split; [exact Hout |].
    split.
    { rewrite Hcache. unfold cache. rewrite Hpc.
      destruct (existsb _ (responses pc)); [apply clear_should_send_unflagged | reflexivity]. }
    destruct (existsb _ (responses pc)), (api_session_token (controller ztx));
      split; repeat constructor.
Qed.

Lemma tick_stages ztx ztx' effs :
  tick_runs ztx = true ->
  ziti_send_posture_data ztx = Some (ztx', effs) ->
  exists pc pc0 req z4 e4 e5,
    ztx_posture_checks ztx = Some pc
    /\ note_services (mk_required None None None []) (services ztx) = Some req
    /\ responses pc0 = mark_obsolete (responses pc)
    /\ probing (required_keys req) (set_posture_checks ztx (Some pc0)) z4 e4
    /\ ziti_pr_send (upd_pc z4 (fun pc => set_responses pc (remove_obsolete (responses pc))))
       = Some (ztx', e5)
    /\ effs = (e4 ++ e5)%list.
Proof.
  unfold tick_runs, ziti_send_posture_data.
  destruct (ztx_api_session ztx) as [ses |]; [| discriminate].
  destruct (as_id ses) as [sid |]; [| discriminate].
  destruct (api_session_state ztx); try discriminate. intros _.
  destruct (ztx_posture_checks ztx) as [pc |] eqn:Hpc; [| discriminate].
  destruct (new_controller_instance _ _) as [ni |]; [| discriminate].
  destruct (note_services _ _) as [req |]; [| discriminate].
  match goal with |- context [set_responses ?pc1 (mark_obsolete (responses ?pc1))] =>
    set (pc0 := set_responses pc1 (mark_obsolete (responses pc1)));
    assert (Hr0 : responses pc0 = mark_obsolete (responses pc))
      by (subst pc0; cbn [responses set_responses];
          destruct (_ || _ || _)%bool; reflexivity);
    clearbody pc0 end.
  set (z0 := set_posture_checks ztx (Some pc0)).
  assert (Hz0 : ztx_posture_checks z0 = Some pc0) by reflexivity.
  pose proof (require_opt_probing z0 pc0 PC_DOMAIN_TYPE (domainInfo req) probe_domain Hz0
                probe_domain_for) as H1.
  destruct (require_opt z0 PC_DOMAIN_TYPE (domainInfo req) probe_domain) as [z1 e1].
  cbn [fst snd] in H1.
  destruct (ztx_posture_checks z1) as [pc1 |] eqn:Hz1;
    [| destruct H1 as (_ & Hs & _); now rewrite Hz1 in Hs].
  pose proof (require_opt_probing z1 pc1 PC_MAC_TYPE (macInfo req) probe_mac Hz1
                probe_mac_for) as H2.
  destruct (require_opt z1 PC_MAC_TYPE (macInfo req) probe_mac) as [z2 e2].
  cbn [fst snd] in H2.
  destruct (ztx_posture_checks z2) as [pc2 |] eqn:Hz2;
    [| destruct H2 as (_ & Hs & _); now rewrite Hz2 in Hs].
  pose proof (require_opt_probing z2 pc2 PC_OS_TYPE (osInfo req) probe_os Hz2
                probe_os_for) as H3.
  destruct (require_opt z2 PC_OS_TYPE (osInfo req) probe_os) as [z3 e3].
  cbn [fst snd] in H3.
  destruct (ztx_posture_checks z3) as [pc3 |] eqn:Hz3;
    [| destruct H3 as (_ & Hs & _); now rewrite Hz3 in Hs].
  pose proof (require_processes_probing (procs req) z3 pc3 Hz3) as H4.
  destruct (require_processes z3 (procs req)) as [z4 e4]. cbn [fst snd] in H4.
  destruct (ziti_pr_send _) as [[zs e5] |] eqn:Hsend; [| discriminate].
  intros [= <- <-].
  exists pc, pc0, req, z4, (e1 ++ e2 ++ e3 ++ e4)%list, e5.
  split; [reflexivity |]. split; [reflexivity |]. split; [exact Hr0 |].
  split; [| split; [exact Hsend | now rewrite <- !app_assoc]].
  pose proof (probing_seq _ _ _ _ _ _ _ H1 (probing_seq _ _ _ _ _ _ _ H2
               (probing_seq _ _ _ _ _ _ _ H3 H4))) as Hall.
  unfold required_keys.
  destruct (domainInfo req), (macInfo req), (osInfo req); exact Hall.
Qed.

Lemma mark_obsolete_get (l : list (string * pr_info)) (k : string) :
  (pending <$> map_get (mark_obsolete l) k) = (pending <$> map_get l k).
Proof.
  unfold mark_obsolete.
  rewrite (map_get_map (fun i => if (negb (pending i) && negb (should_send i))%bool
                                 then set_obsolete i true else i)).
  destruct (map_get l k) as [i |]; [| reflexivity]. cbn.
  now destruct (negb (pending i) && negb (should_send i))%bool.
Qed.

Lemma entries_of_idle_removed (l : list (string * pr_info)) (k : string) :
  List.Forall (fun kv => idle (snd kv) = true) (entries_of k l) ->
  entries_of k (remove_obsolete (mark_obsolete l)) = [].
Proof.
  unfold entries_of, remove_obsolete, mark_obsolete, idle.
  induction l as [| [k0 i] l IH]; cbn [List.map List.filter fst snd]; [reflexivity |].
  destruct (streq k0 k) eqn:H0.
  - intros Hall. inversion Hall as [| ? ? Hi Hrest]; subst. cbn [snd] in Hi.
    rewrite Hi. cbn [obsolete set_obsolete negb]. now apply IH.
  - intros Hall.
    destruct (negb (obsolete (if (negb (pending i) && negb (should_send i))%bool
                              then set_obsolete i true else i)));
      cbn [List.filter fst]; rewrite ?H0; now apply IH.
Qed.

Lemma entries_of_filter (keep : string * pr_info -> bool) (l : list (string * pr_info))
      (k : string) :
  entries_of k (List.filter keep l) = List.filter keep (entries_of k l).
Proof.
  unfold entries_of. induction l as [| kv l IH]; cbn [List.filter]; [reflexivity |].
  destruct (keep kv) eqn:Hk, (streq (fst kv) k) eqn:Hs; cbn [List.filter];
    rewrite ?Hk, ?Hs, IH; reflexivity.
Qed.

Lemma tick_outcome ztx ztx' effs :
  tick_runs ztx = true ->
  ziti_send_posture_data ztx = Some (ztx', effs) ->
  exists req,
    note_services (mk_required None None None []) (services ztx) = Some req
    /\ outside ztx' = outside ztx
    /\ (no_bulk_posture_response_api ztx = false
        -> (length (List.filter is_sent effs) <= 1)%nat)
    /\ (forall k, In k (required_keys req) -> map_get (cache ztx') k <> None)
    /\ (forall k, ~ In k (required_keys req) ->
          List.Forall (fun kv => idle (snd kv) = true) (entries_of k (cache ztx)) ->
          map_get (cache ztx') k = None)
    /\ (forall wid p, In (PQueueWork wid p) effs ->
          is_pending ztx p = false /\ is_pending ztx' p = true).
Proof.
  intros Hruns Htick.
  destruct (tick_stages ztx ztx' effs Hruns Htick)
    as (pc & pc0 & req & z4 & e4 & e5 & Hpc & Hreq & Hr0 & Hprob & Hsend & ->).
  destruct Hprob as (O4 & S4 & L4 & K4 & E4 & P4 & Q4).
  destruct (ztx_posture_checks z4) as [pc4 |] eqn:Hpc4; [clear S4 | now contradiction S4].
  set (z5 := upd_pc z4 (fun pc => set_responses pc (remove_obsolete (responses pc)))) in *.
  assert (Hpc5 : ztx_posture_checks z5
                 = Some (set_responses pc4 (remove_obsolete (responses pc4))))
    by (exact (pc_upd z4 pc4 (fun pc => set_responses pc (remove_obsolete (responses pc))) Hpc4)).
  assert (Hc4 : cache z4 = responses pc4) by (unfold cache; now rewrite Hpc4).
  assert (Hc5 : cache z5 = remove_obsolete (responses pc4)) by (unfold cache; now rewrite Hpc5).
  destruct (pr_send_spec z5 _ Hpc5) as (zs & es & Hrun & Hout & Hun & Hsent & Hone).
  rewrite Hrun in Hsend. inversion Hsend; subst zs es; clear Hsend.
  assert (Hlive5 : forall k, live z4 k -> exists i,
                     map_get (cache z5) k = Some i /\ map_get (cache z4) k = Some i).
  { intros k (i & Hi & Hobs). exists i. split; [| exact Hi]. rewrite Hc5.
    rewrite Hc4 in Hi. apply map_get_filter; [exact Hi |].
    intros k0. cbn [snd]. now rewrite Hobs. }
  assert (Hget : forall k, (fun i => set_should_send i false) <$> map_get (cache ztx') k
                           = (fun i => set_should_send i false) <$> map_get (cache z5) k)
    by (intros k; now apply unflagged_get).
  assert (Hqueue : forall e, In e e4 -> is_sent e = false).
  { intros e He. destruct (Q4 e He) as (wid & p & -> & _). reflexivity. }
  exists req. split; [exact Hreq |]. split; [| split; [| split; [| split]]].
  - rewrite Hout. unfold z5. rewrite outside_upd, O4. reflexivity.
  - intros Hnb. rewrite List.filter_app.
    assert (Hnone : List.filter is_sent e4 = []).
    { clear -Hqueue. induction e4 as [| e l IH]; [reflexivity |]. cbn [List.filter].
      rewrite (Hqueue e (or_introl eq_refl)). apply IH. intros e' He'. apply Hqueue. now right. }
    rewrite Hnone. cbn [app].
    etransitivity; [apply List.filter_length_le |]. apply Hone.
    assert (Ho : outside z5 = outside ztx) by (unfold z5; now rewrite outside_upd, O4).
    apply (f_equal snd) in Ho. cbn [outside snd] in Ho. congruence.
  - intros k Hin. destruct (Hlive5 k (L4 k Hin)) as (i & Hi5 & _).
    specialize (Hget k). rewrite Hi5 in Hget.
    destruct (map_get (cache ztx') k); [discriminate | discriminate Hget].
  - intros k Hnot Hidle.
    assert (Hnone : map_get (cache z5) k = None).
    { apply entries_of_none. rewrite Hc5. unfold remove_obsolete. rewrite entries_of_filter.
      rewrite <- Hc4, (E4 k Hnot), cache_set, Hr0. fold (remove_obsolete (entries_of k (mark_obsolete (responses pc)))).
      unfold remove_obsolete. rewrite <- entries_of_filter.
      apply entries_of_idle_removed. unfold cache in Hidle. now rewrite Hpc in Hidle. }
    specialize (Hget k). rewrite Hnone in Hget.
    destruct (map_get (cache ztx') k); [discriminate Hget | reflexivity].
  - intros wid p Hin. apply in_app_iff in Hin. destruct Hin as [Hin | Hin].
    + destruct (Q4 _ Hin) as (wid' & p' & Heq & Hk & Hb & Ha). inversion Heq; subst wid' p'.
      split.
      * unfold is_pending in *. cbn [ztx_posture_checks set_posture_checks] in Hb.
        rewrite Hpc. pose proof (mark_obsolete_get (responses pc) p) as Hm.
        rewrite <- Hr0 in Hm.
        destruct (map_get (responses pc0) p), (map_get (responses pc) p);
          cbn in Hm; congruence.
      * destruct (Hlive5 p (L4 p Hk)) as (i & Hi5 & Hi4).
        specialize (Hget p). rewrite Hi5 in Hget.
        assert (Hp4 : pending i = true).
        { unfold is_pending in Ha. rewrite Hpc4 in Ha. rewrite Hc4 in Hi4.
          now rewrite Hi4 in Ha. }
        unfold is_pending. unfold cache in Hget.
        destruct (ztx_posture_checks ztx') as [pc' |]; [| discriminate Hget].
        destruct (map_get (responses pc') p) as [i' |]; [| discriminate Hget].
        cbn in Hget. inversion Hget as [[Hid Hobj Hpend Hobs]]. congruence.
    + exfalso. rewrite List.Forall_forall in Hsent. apply Hsent in Hin. discriminate Hin.
Qed.

(** X18. A tick starts no second check of a process: a process check is
    queued only for a path whose cache entry was not pending when the tick
    began, and that entry is pending when the tick is over. *)
Theorem process_check_not_doubled (ztx ztx' : ziti_ctx) (effs : list pr_effect)
        (wid p : string) :
  ziti_send_posture_data ztx = Some (ztx', effs) ->
  In (PQueueWork wid p) effs ->
  is_pending ztx p = false /\ is_pending ztx' p = true.
Proof.
  intros Htick Hin. destruct (tick_runs ztx) eqn:Hruns.
  - destruct (tick_outcome ztx ztx' effs Hruns Htick) as (req & _ & _ & _ & _ & _ & Hq).
    now apply (Hq wid p).
  - exfalso. unfold tick_runs, ziti_send_posture_data in *.
    destruct (ztx_api_session ztx) as [ses |]; [| inversion Htick; subst; destruct Hin].
    destruct (as_id ses) as [sid |]; [| inversion Htick; subst; destruct Hin].
    destruct (api_session_state ztx); try discriminate Hruns;
      inversion Htick; subst; destruct Hin.
Qed.

(** X19. After a tick the cache has an entry for every probe the services
    require, and none under a key that no service requires any more if
    the entries under it were idle (no probe out, nothing to send) when
    the tick began. *)
Theorem tick_cache_keys (ztx ztx' : ziti_ctx) (effs : list pr_effect) (req : required) :
  tick_runs ztx = true ->
  note_services (mk_required None None None []) (services ztx) = Some req ->
  ziti_send_posture_data ztx = Some (ztx', effs) ->
  (forall k, In k (required_keys req) -> map_get (cache ztx') k <> None)
  /\ (forall k, ~ In k (required_keys req) ->
        List.Forall (fun kv => idle (snd kv) = true) (entries_of k (cache ztx)) ->
        map_get (cache ztx') k = None).
Proof.
  intros Hruns Hreq Htick.
  destruct (tick_outcome ztx ztx' effs Hruns Htick) as (req' & Hreq' & _ & _ & Hk & Hn & _).
  assert (req' = req) as -> by congruence. now split.
Qed.

(** X20. A tick keeps to the posture checks: the API session, the
    controller, the services, the options and the switch between the bulk
    and the per-item API are as before, and with the bulk API the tick
    makes one request at most. *)
Theorem tick_frame (ztx ztx' : ziti_ctx) (effs : list pr_effect) :
  ziti_send_posture_data ztx = Some (ztx', effs) ->
  outside ztx' = outside ztx
  /\ (no_bulk_posture_response_api ztx = false
      -> (length (List.filter is_sent effs) <= 1)%nat).
Proof.
  intros Htick. destruct (tick_runs ztx) eqn:Hruns.
  - destruct (tick_outcome ztx ztx' effs Hruns Htick) as (req & _ & Ho & Hone & _).
    now split.
  - unfold tick_runs, ziti_send_posture_data in *.
    destruct (ztx_api_session ztx) as [ses |]; [| inversion Htick; subst; split; auto].
    destruct (as_id ses) as [sid |]; [| inversion Htick; subst; split; auto].
    destruct (api_session_state ztx); try discriminate Hruns;
      inversion Htick; subst; split; auto.
Qed.

End Tick.


Lemma required_process_paths_witness :
  List.NoDup (List.map fst (procs Samples.process_required))
  /\ forall p, In p (List.map fst (procs Samples.process_required))
               <-> exists q, In q (all_queries Samples.process_services)
                             /\ In p (declared_paths q).
Proof.
  apply (required_process_paths Samples.process_services Samples.process_required).
  reflexivity.
Defined.

Lemma required_singletons_witness :
  domainInfo Samples.process_required
  = last_of_type PC_DOMAIN_TYPE (all_queries Samples.process_services)
  /\ macInfo Samples.process_required
     = last_of_type PC_MAC_TYPE (all_queries Samples.process_services)
  /\ osInfo Samples.process_required
     = last_of_type PC_OS_TYPE (all_queries Samples.process_services).
Proof.
  apply (required_singletons Samples.process_services Samples.process_required).
  reflexivity.
Defined.

Lemma bulk_submission_witness :
  exists ztx' effs pc',
    ziti_pr_send_bulk Samples.flagged_ztx = Some (ztx', effs)
    /\ outside ztx' = outside Samples.flagged_ztx
    /\ ztx_posture_checks ztx' = Some pc'
    /\ previous_api_session_id pc' = previous_api_session_id Samples.flagged_pc
    /\ controller_instance_id pc' = controller_instance_id Samples.flagged_pc
    /\ must_send_every_time pc' = must_send_every_time Samples.flagged_pc
    /\ error_states pc' = error_states Samples.flagged_pc
    /\ must_send pc' = match flagged (responses Samples.flagged_pc),
                             api_session_token (controller Samples.flagged_ztx) with
                       | _ :: _, None => true
                       | _, _ => must_send Samples.flagged_pc
                       end
    /\ flagged (responses pc') = []
    /\ unflagged (responses pc') = unflagged (responses Samples.flagged_pc)
    /\ effs = match flagged (responses Samples.flagged_pc),
                    api_session_token (controller Samples.flagged_ztx) with
              | _ :: _, Some _ =>
                [PSent (request "POST" "/posture-response-bulk" json_type
                          (Some ("[" ++ String.concat ","
                                         (List.map body_of
                                                   (flagged (responses Samples.flagged_pc)))
                                     ++ "]")%string))
                       BulkCb]
              | _, _ => []
              end.
Proof.
  apply (bulk_submission Samples.flagged_ztx Samples.flagged_pc).
  - reflexivity.
  - unfold flagged_have_body. simpl. apply List.Forall_cons; [discriminate | apply List.Forall_nil].
Defined.

Lemma individual_submission_witness :
  exists ztx' pc',
    ziti_pr_send_individually Samples.flagged_ztx
    = Some (ztx',
            List.map (fun i => PSent (request "POST" "/posture-response" json_type
                                              (Some (body_of i))) (PostCb i))
                     (flagged (responses Samples.flagged_pc)))
    /\ outside ztx' = outside Samples.flagged_ztx
    /\ ztx_posture_checks ztx' = Some pc'
    /\ previous_api_session_id pc' = previous_api_session_id Samples.flagged_pc
    /\ controller_instance_id pc' = controller_instance_id Samples.flagged_pc
    /\ must_send_every_time pc' = must_send_every_time Samples.flagged_pc
    /\ must_send pc' = must_send Samples.flagged_pc
    /\ error_states pc' = error_states Samples.flagged_pc
    /\ flagged (responses pc') = []
    /\ unflagged (responses pc') = unflagged (responses Samples.flagged_pc).
Proof.
  apply (individual_submission Samples.flagged_ztx Samples.flagged_pc "T").
  - reflexivity.
  - reflexivity.
  - simpl. repeat (apply List.NoDup_cons; [simpl; intuition discriminate |]). apply List.NoDup_nil.
  - unfold flagged_have_body. simpl. apply List.Forall_cons; [discriminate | apply List.Forall_nil].
Defined.

Lemma process_check_not_doubled_witness :
  is_pending (Samples.fresh_ztx "instance-1" Samples.process_services) "/bin/sh" = false
  /\ is_pending (Samples.after_tick (Samples.fresh_ztx "instance-1" Samples.process_services))
                "/bin/sh" = true.
Proof.
  apply (process_check_not_doubled (P := Samples.sample_platform)
           (Samples.fresh_ztx "instance-1" Samples.process_services)
           (Samples.after_tick (Samples.fresh_ztx "instance-1" Samples.process_services))
           (Samples.tick_effects (Samples.fresh_ztx "instance-1" Samples.process_services))
           "q-sh" "/bin/sh").
  - vm_compute. reflexivity.
  - vm_compute. left. reflexivity.
Defined.

Lemma tick_cache_keys_witness :
  (forall k, In k (required_keys (mk_required None None None [("/bin/sh", Samples.sh_check)])) ->
             map_get (cache (Samples.after_tick Samples.stale_ztx)) k <> None)
  /\ (forall k, ~ In k (required_keys (mk_required None None None
                                                    [("/bin/sh", Samples.sh_check)])) ->
        List.Forall (fun kv => idle (snd kv) = true) (entries_of k (cache Samples.stale_ztx)) ->
        map_get (cache (Samples.after_tick Samples.stale_ztx)) k = None).
Proof.
  apply (tick_cache_keys (P := Samples.sample_platform) Samples.stale_ztx
           (Samples.after_tick Samples.stale_ztx) (Samples.tick_effects Samples.stale_ztx)
           (mk_required None None None [("/bin/sh", Samples.sh_check)])).
  - reflexivity.
  - reflexivity.
  - vm_compute. reflexivity.
Defined.

Lemma tick_frame_witness :
  outside (Samples.after_tick (Samples.fresh_ztx "instance-1" Samples.process_services))
  = outside (Samples.fresh_ztx "instance-1" Samples.process_services)
  /\ (no_bulk_posture_response_api (Samples.fresh_ztx "instance-1" Samples.process_services)
      = false
      -> (length (List.filter is_sent
                    (Samples.tick_effects
                       (Samples.fresh_ztx "instance-1" Samples.process_services))) <= 1)%nat).
Proof.
  apply (tick_frame (P := Samples.sample_platform)
           (Samples.fresh_ztx "instance-1" Samples.process_services)
           (Samples.after_tick (Samples.fresh_ztx "instance-1" Samples.process_services))
           (Samples.tick_effects (Samples.fresh_ztx "instance-1" Samples.process_services))).
  vm_compute. reflexivity.
Defined.


(** ** The default MAC probe *)

Section MacFacts.
Import Utils MacProbe.

Lemma mac_table_spec (info : list uv_interface_address) : forall addrs,
  (List.NoDup (List.map fst addrs) -> List.NoDup (List.map fst (mac_table info addrs)))
  /\ (forall n, map_get (mac_table info addrs) n
                = match map_get addrs n with
                  | Some m => Some m
                  | None => (fun i => hexify (phys_addr i) ":"%char)
                              <$> List.find (reported_as n) info
                  end)
  /\ (forall m, In m (List.map snd (mac_table info addrs)) ->
                In m (List.map snd addrs)
                \/ exists i, In i info /\ m = hexify (phys_addr i) ":"%char).
Proof.
  induction info as [| i info IH]; intros addrs; cbn [mac_table List.find].
  - split; [auto |]. split; [| auto]. intros n. now destruct (map_get addrs n).
  - unfold reported_as at 1.
    destruct (negb (is_internal i) && non_zero_addr (phys_addr i))%bool eqn:Hel.
    + destruct (map_get addrs (if_name i)) as [m0 |] eqn:Hg.
      * destruct (IH addrs) as (N & G & M). split; [exact N |]. split.
        -- intros n. rewrite G. cbn [andb]. destruct (map_get addrs n) eqn:Hn; [reflexivity |].
           destruct (streq (if_name i) n) eqn:Hs; [| reflexivity].
           apply streq_eq in Hs. congruence.
        -- intros m Hm. destruct (M m Hm) as [? | (j & Hj & ->)]; [now left |].
           right. exists j. split; [now right | reflexivity].
      * destruct (IH (addrs ++ [(if_name i, hexify (phys_addr i) ":"%char)])%list)
          as (N & G & M). split; [| split].
        -- intros Hnd. apply N. rewrite List.map_app. apply List.NoDup_app; [exact Hnd | |].
           ++ constructor; [simpl; tauto | constructor].
           ++ intros x Hx [<- | []]. apply map_get_none in Hg. exact (Hg Hx).
        -- intros n. rewrite G, map_get_snoc. cbn [andb].
           destruct (map_get addrs n); [reflexivity |].
           destruct (streq (if_name i) n); reflexivity.
        -- intros m Hm. destruct (M m Hm) as [Hin | (j & Hj & ->)].
           ++ rewrite List.map_app, in_app_iff in Hin. destruct Hin as [? | [<- | []]];
                [now left |]. right. exists i. split; [now left | reflexivity].
           ++ right. exists j. split; [now right | reflexivity].
    + destruct (IH addrs) as (N & G & M). split; [exact N |]. split.
      * intros n. rewrite G. cbn [andb]. reflexivity.
      * intros m Hm. destruct (M m Hm) as [? | (j & Hj & ->)]; [now left |].
        right. exists j. split; [now right | reflexivity].
Qed.

(** X21. The default MAC probe reports one address for each interface
    name: that of the first record of the name that is not internal and
    whose physical address is not all zero; a name without such a record
    gets none. Each address is printed as hexadecimal pairs joined by
    colons, seventeen characters for the six bytes of a physical address. *)
Theorem default_mac_addresses (info : list uv_interface_address) :
  List.NoDup (List.map fst (mac_table info []))
  /\ (forall n, map_get (mac_table info []) n
                = (fun i => hexify (phys_addr i) ":"%char) <$> List.find (reported_as n) info)
  /\ (List.Forall (fun i => length (phys_addr i) = 6%nat) info ->
      List.Forall (fun m => String.length m = 17%nat) (default_pq_mac info)).
Proof.
  destruct (mac_table_spec info []) as (N & G & M).
  split; [apply N; constructor |]. split; [intros n; now rewrite G |].
  intros Hsix. apply List.Forall_forall. intros m Hm.
  destruct (M m Hm) as [[] | (i & Hi & ->)].
  rewrite List.Forall_forall in Hsix. specialize (Hsix i Hi).
  unfold hexify. rewrite hexify_from_length, Hsix. reflexivity.
Qed.

End MacFacts.

Lemma default_mac_addresses_witness :
  List.Forall (fun m => String.length m = 17%nat)
    (MacProbe.default_pq_mac
       [MacProbe.mk_interface "lo" true [0; 0; 0; 0; 0; 0];
        MacProbe.mk_interface "eth0" false [0; 26; 255; 16; 32; 48];
        MacProbe.mk_interface "eth0" false [2; 0; 0; 0; 0; 1]]).
Proof.
  apply (proj2 (proj2 (default_mac_addresses
                         [MacProbe.mk_interface "lo" true [0; 0; 0; 0; 0; 0];
                          MacProbe.mk_interface "eth0" false [0; 26; 255; 16; 32; 48];
                          MacProbe.mk_interface "eth0" false [2; 0; 0; 0; 0; 1]]))).
  repeat (apply List.Forall_cons; [reflexivity |]). apply List.Forall_nil.
Defined.

(** ** A probe's reply *)

Section Reply.

(** X22. The reply of a probe goes to the entry of its key and to no
    other: the entry gets the reply as its body, is no longer pending, and
    is flagged for sending when the flag to send every time is set, or the
    last per-item submission of the id failed, or the body differs from
    the one held; a reply for which the cache has no entry (its check is no
    longer required) is dropped. *)
Theorem reply_collected (ztx : ziti_ctx) (pc : posture_checks) (k b : string) :
  ztx_posture_checks ztx = Some pc ->
  outside (ziti_collect_pr ztx k b) = outside ztx
  /\ (forall k', k' <> k -> map_get (cache (ziti_collect_pr ztx k b)) k'
                           = map_get (responses pc) k')
  /\ match map_get (responses pc) k with
     | Some i =>
       exists i',
         map_get (cache (ziti_collect_pr ztx k b)) k = Some i'
         /\ id i' = id i /\ obj i' = Some b /\ pending i' = false
         /\ obsolete i' = obsolete i
         /\ should_send i'
            = (must_send_every_time pc || ziti_pr_is_info_errored pc (id i)
               || match obj i with Some old => negb (streq old b) | None => true end)%bool
     | None => ziti_collect_pr ztx k b = ztx
     end.
Proof.
  intros Hpc. destruct (collect_pr_spec ztx pc k b Hpc) as (Hout & pc' & Hpc' & Hr).
  assert (Hc : cache (ziti_collect_pr ztx k b) = responses pc')
    by (unfold cache; now rewrite Hpc').
  split; [exact Hout |]. split.
  - intros k' Hne. rewrite Hc, Hr, map_get_update.
    assert (Hf : streq k k' = false) by (apply streq_neq; congruence). now rewrite Hf.
  - destruct (map_get (responses pc) k) as [i |] eqn:Hg.
    + exists (collect_entry pc b i). rewrite Hc, Hr, map_get_update, streq_refl, Hg.
      split; [reflexivity |]. unfold collect_entry. cbn.
      destruct (obj i) as [old |] eqn:Ho; cbn.
      * destruct (streq old b) eqn:Hs; cbn; rewrite ?Ho; repeat split; try reflexivity.
        apply streq_eq in Hs. now subst.
      * repeat split; reflexivity.
    + unfold ziti_collect_pr. now rewrite Hpc, Hg.
Qed.

Lemma reply_collected_witness :
  outside (ziti_collect_pr Samples.flagged_ztx "DOMAIN" "{DOMAIN:new}")
  = outside Samples.flagged_ztx
  /\ (forall k', k' <> "DOMAIN" ->
                 map_get (cache (ziti_collect_pr Samples.flagged_ztx "DOMAIN" "{DOMAIN:new}")) k'
                 = map_get (responses Samples.flagged_pc) k')
  /\ match map_get (responses Samples.flagged_pc) "DOMAIN" with
     | Some i =>
       exists i',
         map_get (cache (ziti_collect_pr Samples.flagged_ztx "DOMAIN" "{DOMAIN:new}")) "DOMAIN"
         = Some i'
         /\ id i' = id i /\ obj i' = Some "{DOMAIN:new}" /\ pending i' = false
         /\ obsolete i' = obsolete i
         /\ should_send i'
            = (must_send_every_time Samples.flagged_pc
               || ziti_pr_is_info_errored Samples.flagged_pc (id i)
               || match obj i with
                  | Some old => negb (streq old "{DOMAIN:new}")
                  | None => true
                  end)%bool
     | None => ziti_collect_pr Samples.flagged_ztx "DOMAIN" "{DOMAIN:new}" = Samples.flagged_ztx
     end.
Proof.
  apply (reply_collected Samples.flagged_ztx Samples.flagged_pc "DOMAIN" "{DOMAIN:new}").
  reflexivity.
Defined.

End Reply.


(** ** The version of the controller *)

Section Version.
Context {H : Host}.




End Version.


(** ** A failed per-item submission *)

Section Resend.

(** X24. A per-item submission that fails is made up for at the next
    reply: its completion marks the id as errored, and the next reply of
    the probe is flagged for sending even when its body is the one already
    held; after a completion without error the next reply is flagged only
    if the flag to send every time is set or the body has changed. *)
Theorem per_item_failure_resent (ztx : ziti_ctx) (pc : posture_checks)
        (r : option ziti_pr_response) (e : option ziti_error) (info i : pr_info)
        (k b : string) :
  ztx_posture_checks ztx = Some pc ->
  map_get (responses pc) k = Some i ->
  id i = id info ->
  exists ztx1 effs i',
    ziti_pr_post_cb r e info ztx = Some (ztx1, effs)
    /\ map_get (cache (ziti_collect_pr ztx1 k b)) k = Some i'
    /\ should_send i'
       = match e with
         | Some _ => true
         | None =>
           (must_send_every_time pc
            || match obj i with Some old => negb (streq old b) | None => true end)%bool
         end.
Proof.
  intros Hpc Hg Hid. unfold ziti_pr_post_cb. rewrite Hpc.
  assert (Hcollect : forall (pc1 : posture_checks) (effs : list pr_effect),
            responses pc1 = responses pc ->
            must_send_every_time pc1 = must_send_every_time pc ->
            exists ztx1 effs' i',
              Some (set_posture_checks ztx (Some pc1), effs) = Some (ztx1, effs')
              /\ map_get (cache (ziti_collect_pr ztx1 k b)) k = Some i'
              /\ should_send i'
                 = (must_send_every_time pc || ziti_pr_is_info_errored pc1 (id i)
                    || match obj i with Some old => negb (streq old b) | None => true end)%bool).
  { intros pc1 effs Hr1 Hm1.
    destruct (collect_pr_spec (set_posture_checks ztx (Some pc1)) pc1 k b eq_refl)
      as (_ & pc2 & Hpc2 & Hr2).
    eexists _, _, (collect_entry pc1 b i). split; [reflexivity |]. split.
    - unfold cache. rewrite Hpc2, Hr2, map_get_update, streq_refl, Hr1, Hg. reflexivity.
    - rewrite collect_entry_should_send, Hm1. reflexivity. }
  destruct e as [err |].
  - destruct (Hcollect (ziti_pr_set_info_errored pc (id info)) [] eq_refl eq_refl)
      as (ztx1 & effs' & i' & Hrun & Hget & Hsend).
    exists ztx1, effs', i'. split; [exact Hrun |]. split; [exact Hget |].
    rewrite Hsend. unfold ziti_pr_is_info_errored, ziti_pr_set_info_errored.
    cbn [error_states set_error_states]. rewrite Hid, lookup_insert_eq.
    unfold IS_ERRORED. now rewrite orb_true_r.
  - destruct (Hcollect (ziti_pr_set_info_success pc (id info))
                       (handle_pr_resp_timer_events r ++ [PServicesRefresh])%list
                       eq_refl eq_refl)
      as (ztx1 & effs' & i' & Hrun & Hget & Hsend).
    exists ztx1, effs', i'. split; [exact Hrun |]. split; [exact Hget |].
    rewrite Hsend. unfold ziti_pr_is_info_errored, ziti_pr_set_info_success.
    cbn [error_states set_error_states]. rewrite Hid, lookup_insert_eq.
    unfold IS_NOT_ERRORED. now rewrite orb_false_r.
Qed.

Lemma per_item_failure_resent_witness :
  exists ztx1 effs i',
    ziti_pr_post_cb None (Some Samples.server_error) (Samples.os_entry true) Samples.flagged_ztx
    = Some (ztx1, effs)
    /\ map_get (cache (ziti_collect_pr ztx1 "OS" Samples.os_body)) "OS" = Some i'
    /\ should_send i'
       = match Some Samples.server_error with
         | Some _ => true
         | None =>
           (must_send_every_time Samples.flagged_pc
            || match obj (Samples.os_entry true) with
               | Some old => negb (streq old Samples.os_body)
               | None => true
               end)%bool
         end.
Proof.
  apply (per_item_failure_resent Samples.flagged_ztx Samples.flagged_pc None
           (Some Samples.server_error) (Samples.os_entry true) (Samples.os_entry true)
           "OS" Samples.os_body).
  - reflexivity.
  - reflexivity.
  - reflexivity.
Defined.

End Resend.
